(** * Geopolitical Market Game Tracker

    A shallow embedding of the TypeScript front end (API client, backtest,
    sensitivity and dashboard views, persisted application store) and of the
    equilibrium solver's contract, with the properties the specification
    states about them.

    JavaScript numbers are IEEE 754 binary64 values: they are embedded as
    Rocq's primitive [float], whose operations are the binary64 ones.
    [localStorage] is a finite map from strings to strings.  An [await] on
    a request is embedded with the request's outcome as an argument of the
    continuation; a handler therefore runs as one step, and the properties
    stated over these steps hold when every request is answered before the
    next event of the page.  Module [Interleaved] cuts the handlers of the
    backtest view at their awaits: the one-step model is its restriction to
    that schedule, and an answer that arrives late is followed there. *)

From Stdlib Require Import ZArith List String Ascii Bool Lia Uint63 Floats QArith Qabs.
From stdpp Require Import base gmap strings list pretty.
Import ListNotations.

Set Warnings "-inexact-float".

(** ** JavaScript values *)

Module Js.

(** [a === b] on numbers: IEEE equality ([NaN] differs from itself, the two
    zeros are equal). *)
Definition strict_eq (a b : float) : bool := PrimFloat.eqb a b.

(** [a !== b] on numbers. *)
Definition strict_ne (a b : float) : bool := negb (PrimFloat.eqb a b).

(** [a > b] on numbers. *)
Definition gt (a b : float) : bool := PrimFloat.ltb b a.

(** One step of [Math.max]: [NaN] is absorbing, [+0] is larger than [-0],
    otherwise the larger of the two is kept. *)
Definition max_step (highest number : float) : float :=
  if is_nan highest || is_nan number then nan
  else if is_zero number && negb (get_sign number)
          && is_zero highest && get_sign highest then number
  else if PrimFloat.ltb highest number then number
  else highest.

(** [Math.max(...values)]: [-Infinity] for no argument. *)
Definition Math_max (values : list float) : float :=
  fold_left max_step values neg_infinity.

(** A count or an index as a number. *)
Definition of_nat (n : nat) : float :=
  PrimFloat.of_uint63 (Uint63.of_Z (Z.of_nat n)).

(** Truthiness of a number: every number but [NaN] and the two zeros. *)
Definition truthy_number (x : float) : bool :=
  negb (is_nan x || is_zero x).

(** Truthiness of a string: every string but the empty one. *)
Definition truthy (s : string) : bool :=
  match s with
  | EmptyString => false
  | String _ _ => true
  end.

(** [localStorage]: [getItem] is the lookup, [setItem] the insertion and
    [removeItem] the deletion of a key. *)
Definition getItem (key : string) (storage : gmap string string) : option string :=
  storage !! key.

Definition setItem (key value : string) (storage : gmap string string)
  : gmap string string :=
  <[key := value]> storage.

Definition removeItem (key : string) (storage : gmap string string)
  : gmap string string :=
  delete key storage.

(** One step of [Math.min]: [NaN] is absorbing, [-0] is smaller than [+0],
    otherwise the smaller of the two is kept. *)
Definition min_step (lowest number : float) : float :=
  if is_nan lowest || is_nan number then nan
  else if is_zero number && get_sign number
          && is_zero lowest && negb (get_sign lowest) then number
  else if PrimFloat.ltb number lowest then number
  else lowest.

(** [Math.min(...values)]: [Infinity] for no argument. *)
Definition Math_min (values : list float) : float :=
  fold_left min_step values infinity.

(** [Math.abs(x)]. *)
Definition Math_abs (x : float) : float := PrimFloat.abs x.

(** [x || 0] on a number. *)
Definition or_zero (x : float) : float :=
  if truthy_number x then x else 0%float.

End Js.

(** ** JavaScript dates *)

Module JsDate.
Local Open Scope Z_scope.

(** A [Date]: its time value in milliseconds since the epoch, or [None]
    for an Invalid Date. *)
Definition Date : Type := option Z.

Definition msPerDay : Z := 86400000.

(** The largest time value of a [Date]. *)
Definition maxTime : Z := 8640000000000000.

(** [TimeClip]. *)
Definition timeClip (t : Z) : Date :=
  if (Z.abs t <=? maxTime) then Some t else None.

(** The proleptic Gregorian date (year, month, day) of a day number
    counted from the epoch. *)
Definition civil_from_days (z : Z) : Z * Z * Z :=
  let z := z + 719468 in
  let era := z / 146097 in
  let doe := z mod 146097 in
  let yoe := (doe - doe / 1460 + doe / 36524 - doe / 146096) / 365 in
  let doy := doe - (365 * yoe + yoe / 4 - yoe / 100) in
  let mp := (5 * doy + 2) / 153 in
  let d := doy - (153 * mp + 2) / 5 + 1 in
  let m := if mp <? 10 then mp + 3 else mp - 9 in
  (if m <=? 2 then yoe + era * 400 + 1 else yoe + era * 400, m, d).

(** The day number of a date. *)
Definition days_from_civil (y m d : Z) : Z :=
  let y := if m <=? 2 then y - 1 else y in
  let era := y / 400 in
  let yoe := y mod 400 in
  let doy := (153 * (if 2 <? m then m - 3 else m + 9) + 2) / 5 + d - 1 in
  let doe := yoe * 365 + yoe / 4 - yoe / 100 + doy in
  era * 146097 + doe - 719468.

(** The character of a decimal digit, and the digit of a character. *)
Definition digit_char (n : Z) : ascii := ascii_of_nat (48 + Z.to_nat n).

Definition char_digit (c : ascii) : option Z :=
  let n := Z.of_nat (nat_of_ascii c) in
  if (48 <=? n) && (n <=? 57) then Some (n - 48) else None.

(** [n] in [width] decimal digits, padded with zeros. *)
Fixpoint pad (width : nat) (n : Z) : string :=
  match width with
  | O => EmptyString
  | S w => String (digit_char ((n / 10 ^ Z.of_nat w) mod 10)) (pad w n)
  end.

(** Reads [width] decimal digits: the number read onto [acc], and the rest. *)
Fixpoint read_digits (width : nat) (acc : Z) (s : string) : option (Z * string) :=
  match width with
  | O => Some (acc, s)
  | S w =>
      match s with
      | String c rest =>
          match char_digit c with
          | Some d => read_digits w (acc * 10 + d) rest
          | None => None
          end
      | EmptyString => None
      end
  end.

(** Reads the character [c]. *)
Definition expect (c : ascii) (s : string) : option string :=
  match s with
  | String c' rest => if Ascii.eqb c c' then Some rest else None
  | EmptyString => None
  end.

(** The year of an ISO string: four digits for the years 0 to 9999, a
    sign and six digits otherwise. *)
Definition year_string (y : Z) : string :=
  if (0 <=? y) && (y <=? 9999) then pad 4 y
  else String (if y <? 0 then "-"%char else "+"%char) (pad 6 (Z.abs y)).

Definition read_year (s : string) : option (Z * string) :=
  match s with
  | String "+"%char rest => read_digits 6 0 rest
  | String "-"%char rest =>
      match read_digits 6 0 rest with
      | Some (y, rest) => Some (- y, rest)
      | None => None
      end
  | _ => read_digits 4 0 s
  end.

(** [Date.prototype.toISOString] on a valid time value:
    [YYYY-MM-DDTHH:mm:ss.sssZ]. *)
Definition iso_string (t : Z) : string :=
  let '(y, m, d) := civil_from_days (t / msPerDay) in
  let ms := t mod msPerDay in
  year_string y ++ "-" ++ pad 2 m ++ "-" ++ pad 2 d ++ "T"
  ++ pad 2 (ms / 3600000) ++ ":" ++ pad 2 ((ms / 60000) mod 60) ++ ":"
  ++ pad 2 ((ms / 1000) mod 60) ++ "." ++ pad 3 (ms mod 1000) ++ "Z".

(** [date.toISOString()]: a [RangeError] on an Invalid Date ([None]). *)
Definition toISOString (date : Date) : option string :=
  match date with
  | Some t => Some (iso_string t)
  | None => None
  end.

(** [new Date(s)] on a string in the format of [toISOString]; any other
    string gives an Invalid Date here. *)
Definition parse (s : string) : Date :=
  '(y, s) ← read_year s;
  s ← expect "-" s;
  '(m, s) ← read_digits 2 0 s;
  s ← expect "-" s;
  '(d, s) ← read_digits 2 0 s;
  s ← expect "T" s;
  '(hh, s) ← read_digits 2 0 s;
  s ← expect ":" s;
  '(mm, s) ← read_digits 2 0 s;
  s ← expect ":" s;
  '(ss, s) ← read_digits 2 0 s;
  s ← expect "." s;
  '(sss, s) ← read_digits 3 0 s;
  s ← expect "Z" s;
  if String.eqb s ""
     && (hh <? 24) && (mm <? 60) && (ss <? 60)
     && bool_decide (civil_from_days (days_from_civil y m d) = (y, m, d))
  then timeClip (days_from_civil y m d * msPerDay
                 + hh * 3600000 + mm * 60000 + ss * 1000 + sss)
  else None.

(** [s.split(c)[0]]: the part of [s] before the first [c], all of [s]
    when [c] does not occur. *)
Fixpoint before (c : ascii) (s : string) : string :=
  match s with
  | EmptyString => EmptyString
  | String c' rest => if Ascii.eqb c c' then EmptyString else String c' (before c rest)
  end.

(** [date.toISOString().split('T')[0]]. *)
Definition isoDay (date : Date) : option string :=
  match toISOString date with
  | Some iso => Some (before "T" iso)
  | None => None
  end.

(** The date-only form [YYYY-MM-DD] of a calendar day, as a date input
    holds it and as [toISOString] writes it. *)
Definition day_string (y m d : Z) : string :=
  year_string y ++ "-" ++ pad 2 m ++ "-" ++ pad 2 d.

(** [new Date(s)] on a string of the date-only form: the midnight that
    starts the day in UTC; any other string gives an Invalid Date here. *)
Definition parse_day (s : string) : Date :=
  '(y, s) ← read_year s;
  s ← expect "-" s;
  '(m, s) ← read_digits 2 0 s;
  s ← expect "-" s;
  '(d, s) ← read_digits 2 0 s;
  if String.eqb s ""
     && bool_decide (civil_from_days (days_from_civil y m d) = (y, m, d))
  then timeClip (days_from_civil y m d * msPerDay)
  else None.

End JsDate.


(** ** date-fns

    The library's [format], for the one pattern the dashboard and the
    hooks use.  It reads the fields of the date in local time: the local
    time of a time value [t] is [t + offset t], where [offset] gives the
    offset of the time zone from UTC, in milliseconds, at a time. *)

Module DateFns.
Import JsDate.
Local Open Scope Z_scope.

(** [n] zeros. *)
Fixpoint zeros (n : nat) : string :=
  match n with
  | O => EmptyString
  | S n => String "0" (zeros n)
  end.

(** [addLeadingZeros(number, targetLength)]: the sign, then the decimal
    digits of the absolute value after [padStart(targetLength, '0')]. *)
Definition addLeadingZeros (number : Z) (targetLength : nat) : string :=
  let output := pretty (Z.abs number) in
  let sign := if number <? 0 then "-"%string else ""%string in
  (sign ++ zeros (targetLength - String.length output) ++ output)%string.

(** [format(date, 'yyyy-MM-dd')]; [None] for the [RangeError] on an
    Invalid Date.  The year of the pattern is the year of the era: 1 for
    the year 0, 2 for the year -1. *)
Definition format_yyyy_MM_dd (offset : Z -> Z) (date : Date) : option string :=
  match date with
  | Some t =>
      let '(signedYear, month, day) :=
        civil_from_days ((t + offset t) / msPerDay) in
      let year := if 0 <? signedYear then signedYear else 1 - signedYear in
      Some (addLeadingZeros year 4 ++ "-" ++ addLeadingZeros month 2
            ++ "-" ++ addLeadingZeros day 2)%string
  | None => None
  end.

(** Checks [P] on the [fuel] integers from [n] on. *)
Fixpoint upto (fuel : nat) (n : Z) (P : Z -> bool) : bool :=
  match fuel with
  | O => true
  | S fuel => P n && upto fuel (n + 1) P
  end.

End DateFns.

(** ** components/dashboard/CountryMarketCard.tsx *)

Module CountryMarketCard.

(** What [formatPrice] returns: a string literal, or the result of
    [value.toLocaleString(locales, { maximumFractionDigits })]. *)
Inductive PriceText : Type :=
| Literal (text : string)
| toLocaleString (value : float) (locales : string) (maximumFractionDigits : nat).

(** [formatPrice(value: number | null)]. *)
Definition formatPrice (value : option float) : PriceText :=
  match value with
  | None => Literal "N/A"
  | Some v =>
      if Js.strict_eq v 0%float then Literal "N/A"
      else if Js.gt v 10000%float then toLocaleString v "en-US" 0
      else if Js.gt v 100%float then toLocaleString v "en-US" 2
      else toLocaleString v "en-US" 4
  end.

(** The [maximumFractionDigits] option of a formatted price, when the price
    was formatted. *)
Definition fractionDigits (t : PriceText) : option nat :=
  match t with
  | Literal _ => None
  | toLocaleString _ _ d => Some d
  end.

(** The props of the card. *)
Record Props : Type := {
  country : string;
  price : option float;
  percentageChange : float;
  indexName : string;
  ticker : string;
  color : string;
}.

(** [isPositive = percentageChange > 0]. *)
Definition isPositive (percentageChange : float) : bool :=
  Js.gt percentageChange 0%float.

Definition textColor (percentageChange : float) : string :=
  if isPositive percentageChange then "text-green-600" else "text-red-600".

Definition bgColor (percentageChange : float) : string :=
  if isPositive percentageChange then "bg-green-50" else "bg-red-50".

(** The arrow of the card: up or down. *)
Inductive Icon : Type := ArrowUp | ArrowDown.

Definition icon (percentageChange : float) : Icon :=
  if isPositive percentageChange then ArrowUp else ArrowDown.

(** The sign written before the change: [isPositive ? '+' : '']. *)
Definition signPrefix (percentageChange : float) : string :=
  if isPositive percentageChange then "+" else "".

(** The width of the bar, in percent:
    [Math.min(Math.abs(percentageChange) * 10, 100)]. *)
Definition barWidth (percentageChange : float) : float :=
  Js.Math_min [(Js.Math_abs percentageChange * 10)%float; 100%float].

(** The price the card shows. *)
Definition priceText (props : Props) : PriceText := formatPrice (price props).

End CountryMarketCard.

(** ** components/dashboard/MarketOverviewCard.tsx *)

Module MarketOverviewCard.

(** The value of the [trend] prop. *)
Inductive Trend : Type := up | down | neutral.

(** The props of the card; a [value] that is [undefined] or [null] at run
    time is [None]. *)
Record Props : Type := {
  name : string;
  value : option float;
  trend : option Trend;
  color : string;
}.

(** [safeValue = value ?? 0]. *)
Definition safeValue (value : option float) : float := default 0%float value.

(** [isPositive = safeValue > 0]. *)
Definition isPositive (value : option float) : bool :=
  Js.gt (safeValue value) 0%float.

Definition textColor (value : option float) : string :=
  if isPositive value then "text-green-600" else "text-red-600".

Definition bgColor (value : option float) : string :=
  if isPositive value then "bg-green-50" else "bg-red-50".

(** The arrow the card shows; the [trend] prop is not read. *)
Definition icon (value : option float) : CountryMarketCard.Icon :=
  if isPositive value then CountryMarketCard.ArrowUp
  else CountryMarketCard.ArrowDown.

Definition signPrefix (value : option float) : string :=
  if isPositive value then "+" else "".

(** The width of the bar, in percent:
    [Math.min(Math.abs(safeValue) * 10, 100)]. *)
Definition barWidth (value : option float) : float :=
  Js.Math_min [(Js.Math_abs (safeValue value) * 10)%float; 100%float].

End MarketOverviewCard.

(** ** types/index.ts *)

Module Types.

Record BacktestResult : Type := {
  date : string;
  predicted_scenario : string;
  actual_risk_off_next_week : bool;
  hawk_dominant : bool;
  japan_action : string;
  china_action : string;
  usa_action : string;
  germany_action : string;
  taiwan_action : string;
}.

Record BacktestSummary : Type := {
  total_weeks : float;
  accuracy : float;
  hawk_weeks_predicted : float;
  actual_risk_off_weeks : float;
}.

Record NashEquilibrium : Type := {
  equilibrium_date : string;
  strategies : list (list float);
  parties : list string;
  actions : list string;
  dominant_actions : list string;
  global_scenario : string;
}.

Record CountryProxy : Type := {
  index : string;
  ticker : string;
  symbol : string;
}.

Record SensitivityResult : Type := {
  noise_level : float;
  noise_scaled : float;
  Japan_Hawk : float;
  China_Hawk : float;
  USA_Hawk : float;
  Germany_Deescalate : float;
  Taiwan_Deescalate : float;
  Global_Hawk_Scenario : float;
  Global_Deescalate_Scenario : float;
}.

(** [MarketData]: the returns by key, through its index signature; a key
    without a value is [undefined]. *)
Definition MarketData : Type := gmap string float.

End Types.

(** ** api/client.ts *)

Module Client.

(** The union type of [status] in the answer of [getJobStatus]:
    ['pending' | 'running' | 'completed' | 'failed']. *)
Inductive JobStatus : Type := pending | running | completed | failed.

(** The string literal each member of the union stands for. *)
Definition JobStatus_literal (s : JobStatus) : string :=
  match s with
  | pending => "pending"
  | running => "running"
  | completed => "completed"
  | failed => "failed"
  end.

(** The literals of the union, in the order the type lists them. *)
Definition JobStatus_literals : list string :=
  map JobStatus_literal [pending; running; completed; failed].

(** Body of [POST /backtest]. *)
Record BacktestBody : Type := {
  start_date : string;
  end_date : string;
  freq : string;
}.

(** Body of [POST /sensitivity-analysis]; an [undefined] field is [None]. *)
Record SensitivityBody : Type := {
  noise_levels : option (list float);
  n_runs : float;
}.

(** The requests the client issues. *)
Inductive Request : Type :=
| PostBacktest (body : BacktestBody)
| GetBacktestStatus (jobId : string)
| PostSensitivityAnalysis (body : SensitivityBody).

(** Answer of [POST /backtest]. *)
Record StartResponse : Type := {
  job_id : string;
  start_status : string;
  message : string;
}.

(** The [result] of a job's status. *)
Record JobResult : Type := {
  results : list Types.BacktestResult;
  summary : Types.BacktestSummary;
  total_weeks : float;
  accuracy : float;
}.

(** Answer of [GET /backtest/status/:id]; an optional field that is absent
    is [None].  Its [job_id] is named [status_job_id] here, next to the
    [job_id] of [StartResponse]. *)
Record JobStatusResponse : Type := {
  status_job_id : string;
  status : JobStatus;
  progress : float;
  current_step : string;
  current_step_num : float;
  total_steps : float;
  result : option JobResult;
  error : option string;
}.

(** How an awaited request ends: with the answer's data, or with a thrown
    error and its [message]. *)
Inductive Outcome (A : Type) : Type :=
| Resolved (data : A)
| Rejected (message : string).
Arguments Resolved {A} data.
Arguments Rejected {A} message.

(** [s || fallback] on strings. *)
Definition or_string (s fallback : string) : string :=
  if Js.truthy s then s else fallback.

(** [s || fallback] on an optional string. *)
Definition or_default (s : option string) (fallback : string) : string :=
  match s with
  | Some s => or_string s fallback
  | None => fallback
  end.

Module backtestApi.

(** [startBacktest(startDate, endDate, freq = 'W-FRI')]: the request it
    posts; [None] is an omitted argument. *)
Definition startBacktest (startDate endDate : string) (freq : option string)
  : Request :=
  PostBacktest {| start_date := startDate;
                  end_date := endDate;
                  freq := default "W-FRI" freq |}.

(** [getJobStatus(jobId)]: the request it sends. *)
Definition getJobStatus (jobId : string) : Request := GetBacktestStatus jobId.

(** *** The legacy [runBacktest] *)

(** One call of [runBacktest]: the requests it has sent (oldest first),
    the delay of its interval timer while the timer is set, and how the
    promise it returned has settled, if it has. *)
Record LegacyRun : Type := {
  sent : list Request;
  pollInterval : option Z;
  settled : option (Outcome JobResult);
}.

(** [resolve(value)] and [reject(reason)]: a promise settles once. *)
Definition settle (o : Outcome JobResult) (r : LegacyRun) : LegacyRun :=
  {| sent := sent r; pollInterval := pollInterval r;
     settled := match settled r with
                | Some first => Some first
                | None => Some o
                end |}.

(** [clearInterval(pollInterval)]. *)
Definition clearPollInterval (r : LegacyRun) : LegacyRun :=
  {| sent := sent r; pollInterval := None; settled := settled r |}.

(** One run of the interval's callback, with the outcome of the awaited
    [getJobStatus]; a cleared interval runs no callback. *)
Definition pollTick (jobId : string) (outcome : Outcome JobStatusResponse)
    (r : LegacyRun) : LegacyRun :=
  match pollInterval r with
  | Some _ =>
      let r := {| sent := sent r ++ [getJobStatus jobId];
                  pollInterval := pollInterval r; settled := settled r |} in
      match outcome with
      | Resolved st =>
          match status st, result st with
          | completed, Some value =>
              settle (Resolved value) (clearPollInterval r)
          | failed, _ =>
              settle (Rejected (or_default (error st) "Backtest failed"))
                (clearPollInterval r)
          | _, _ => r
          end
      | Rejected message => settle (Rejected message) (clearPollInterval r)
      end
  | None => r
  end.

(** [runBacktest(startDate, endDate, freq = 'W-FRI')], with the outcome
    of the awaited [startBacktest] and the outcomes of the status requests
    of the interval's ticks, in order.  A rejected submission rejects the
    promise before any timer is set. *)
Definition runBacktest (startDate endDate : string) (freq : option string)
    (submission : Outcome StartResponse)
    (polls : list (Outcome JobStatusResponse)) : LegacyRun :=
  let posted :=
    {| sent := [startBacktest startDate endDate (Some (default "W-FRI" freq))];
       pollInterval := None; settled := None |} in
  match submission with
  | Resolved jobResponse =>
      fold_left (fun r outcome => pollTick (job_id jobResponse) outcome r) polls
        {| sent := sent posted; pollInterval := Some 1000%Z; settled := None |}
  | Rejected message => settle (Rejected message) posted
  end.

(** What a status answer decides for the promise of [runBacktest]: its
    value, its rejection, or nothing yet. *)
Definition verdict (outcome : Outcome JobStatusResponse)
  : option (Outcome JobResult) :=
  match outcome with
  | Resolved st =>
      match status st, result st with
      | completed, Some value => Some (Resolved value)
      | failed, _ => Some (Rejected (or_default (error st) "Backtest failed"))
      | _, _ => None
      end
  | Rejected message => Some (Rejected message)
  end.

End backtestApi.

Module sensitivityApi.

(** [runAnalysis(noiseLevels?, nRuns = 100)]: the request it posts. *)
Definition runAnalysis (noiseLevels : option (list float)) (nRuns : option float)
  : Request :=
  PostSensitivityAnalysis {| noise_levels := noiseLevels;
                             n_runs := default 100%float nRuns |}.

End sensitivityApi.

Module predictionsApi.

(** The query parameters of [GET /predictions]; an [undefined] date is
    [None]. *)
Record Params : Type := {
  date : option string;
  use_optimized : bool;
}.

(** [getPredictions(date?, useOptimized = false)]: the parameters of the
    request it sends. *)
Definition getPredictions (date : option string) (useOptimized : option bool)
  : Params :=
  {| date := date; use_optimized := default false useOptimized |}.

End predictionsApi.

End Client.

(** ** components/backtest/BacktestView.tsx *)

Module BacktestView.
Import Client.

Definition JOB_STORAGE_KEY : string := "backtest_job_id".

(** The type of the [freq] state: ['W-FRI' | 'D' | 'M']. *)
Inductive Freq : Type := W_FRI | D | M.

Definition Freq_value (f : Freq) : string :=
  match f with
  | W_FRI => "W-FRI"
  | D => "D"
  | M => "M"
  end.

(** The [<option>] elements of the frequency select: value and label. *)
Definition frequency_options : list (string * string) :=
  [("W-FRI", "Weekly (Friday)"); ("D", "Daily"); ("M", "Monthly")].

(** The cast [e.target.value as 'W-FRI' | 'D' | 'M'] of the select's
    [onChange], on the values the select offers. *)
Definition Freq_of_value (v : string) : option Freq :=
  if String.eqb v "W-FRI" then Some W_FRI
  else if String.eqb v "D" then Some D
  else if String.eqb v "M" then Some M
  else None.

(** An interval timer [setInterval(() => checkJobStatus(id), delay)]: the
    job id its callback has captured, and its delay in milliseconds. *)
Record Interval : Type := {
  callback : string;
  delay : Z;
}.

(** What lives outside the component: [localStorage], the timers of the
    page by handle, the next handle [setInterval] returns, and the requests
    sent so far (oldest first). *)
Record Browser : Type := {
  localStorage : gmap string string;
  timers : gmap positive Interval;
  next_handle : positive;
  network : list Request;
}.

(** The component's state: its [useState] cells and [pollIntervalRef]. *)
Record State : Type := {
  startDate : string;
  endDate : string;
  freq : Freq;
  jobId : option string;
  progress : float;
  currentStep : string;
  jobStatus : option JobStatus;
  backtestData : option JobResult;
  error : option string;
  pollIntervalRef : option positive;
}.

Record World : Type := {
  browser : Browser;
  view : State;
}.

(** *** Setters *)

Definition on_view (f : State -> State) (w : World) : World :=
  {| browser := browser w; view := f (view w) |}.

Definition on_browser (f : Browser -> Browser) (w : World) : World :=
  {| browser := f (browser w); view := view w |}.

Definition setStartDate (v : string) : World -> World :=
  on_view (fun s =>
    {| startDate := v; endDate := endDate s; freq := freq s; jobId := jobId s;
       progress := progress s; currentStep := currentStep s;
       jobStatus := jobStatus s; backtestData := backtestData s;
       error := error s; pollIntervalRef := pollIntervalRef s |}).

Definition setEndDate (v : string) : World -> World :=
  on_view (fun s =>
    {| startDate := startDate s; endDate := v; freq := freq s; jobId := jobId s;
       progress := progress s; currentStep := currentStep s;
       jobStatus := jobStatus s; backtestData := backtestData s;
       error := error s; pollIntervalRef := pollIntervalRef s |}).

Definition setFreq (v : Freq) : World -> World :=
  on_view (fun s =>
    {| startDate := startDate s; endDate := endDate s; freq := v; jobId := jobId s;
       progress := progress s; currentStep := currentStep s;
       jobStatus := jobStatus s; backtestData := backtestData s;
       error := error s; pollIntervalRef := pollIntervalRef s |}).

Definition setJobId (v : option string) : World -> World :=
  on_view (fun s =>
    {| startDate := startDate s; endDate := endDate s; freq := freq s; jobId := v;
       progress := progress s; currentStep := currentStep s;
       jobStatus := jobStatus s; backtestData := backtestData s;
       error := error s; pollIntervalRef := pollIntervalRef s |}).

Definition setProgress (v : float) : World -> World :=
  on_view (fun s =>
    {| startDate := startDate s; endDate := endDate s; freq := freq s;
       jobId := jobId s; progress := v; currentStep := currentStep s;
       jobStatus := jobStatus s; backtestData := backtestData s;
       error := error s; pollIntervalRef := pollIntervalRef s |}).

Definition setCurrentStep (v : string) : World -> World :=
  on_view (fun s =>
    {| startDate := startDate s; endDate := endDate s; freq := freq s;
       jobId := jobId s; progress := progress s; currentStep := v;
       jobStatus := jobStatus s; backtestData := backtestData s;
       error := error s; pollIntervalRef := pollIntervalRef s |}).

Definition setJobStatus (v : option JobStatus) : World -> World :=
  on_view (fun s =>
    {| startDate := startDate s; endDate := endDate s; freq := freq s;
       jobId := jobId s; progress := progress s; currentStep := currentStep s;
       jobStatus := v; backtestData := backtestData s;
       error := error s; pollIntervalRef := pollIntervalRef s |}).

Definition setBacktestData (v : option JobResult) : World -> World :=
  on_view (fun s =>
    {| startDate := startDate s; endDate := endDate s; freq := freq s;
       jobId := jobId s; progress := progress s; currentStep := currentStep s;
       jobStatus := jobStatus s; backtestData := v;
       error := error s; pollIntervalRef := pollIntervalRef s |}).

Definition setError (v : option string) : World -> World :=
  on_view (fun s =>
    {| startDate := startDate s; endDate := endDate s; freq := freq s;
       jobId := jobId s; progress := progress s; currentStep := currentStep s;
       jobStatus := jobStatus s; backtestData := backtestData s;
       error := v; pollIntervalRef := pollIntervalRef s |}).

(** [pollIntervalRef.current = v]. *)
Definition setPollIntervalRef (v : option positive) : World -> World :=
  on_view (fun s =>
    {| startDate := startDate s; endDate := endDate s; freq := freq s;
       jobId := jobId s; progress := progress s; currentStep := currentStep s;
       jobStatus := jobStatus s; backtestData := backtestData s;
       error := error s; pollIntervalRef := v |}).

(** *** Browser operations *)

(** A request leaves the page. *)
Definition send (r : Request) : World -> World :=
  on_browser (fun b =>
    {| localStorage := localStorage b; timers := timers b;
       next_handle := next_handle b; network := network b ++ [r] |}).

Definition localStorage_setItem (key value : string) : World -> World :=
  on_browser (fun b =>
    {| localStorage := Js.setItem key value (localStorage b); timers := timers b;
       next_handle := next_handle b; network := network b |}).

Definition localStorage_removeItem (key : string) : World -> World :=
  on_browser (fun b =>
    {| localStorage := Js.removeItem key (localStorage b); timers := timers b;
       next_handle := next_handle b; network := network b |}).

(** [clearInterval(handle)]. *)
Definition clearInterval (handle : positive) : World -> World :=
  on_browser (fun b =>
    {| localStorage := localStorage b; timers := delete handle (timers b);
       next_handle := next_handle b; network := network b |}).

(** [setInterval(() => checkJobStatus(id), delay)]: the world with the new
    timer, and the handle returned. *)
Definition setInterval (id : string) (ms : Z) (w : World) : World * positive :=
  let handle := next_handle (browser w) in
  (on_browser (fun b =>
     {| localStorage := localStorage b;
        timers := <[handle := {| callback := id; delay := ms |}]> (timers b);
        next_handle := Pos.succ handle; network := network b |}) w,
   handle).

(** [if (pollIntervalRef.current) { clearInterval(pollIntervalRef.current);
    pollIntervalRef.current = null; }] *)
Definition stopPolling (w : World) : World :=
  match pollIntervalRef (view w) with
  | Some handle => setPollIntervalRef None (clearInterval handle w)
  | None => w
  end.

(** *** Handlers *)

(** [checkJobStatus(id)], with the outcome of the awaited
    [backtestApi.getJobStatus(id)].  The desktop notification shown on a
    terminal status is left out: [new Notification] is taken not to throw,
    and then it changes nothing the view reads (a throw would be caught by
    the [catch] below, which sets the error). *)
Definition checkJobStatus (id : string) (outcome : Outcome JobStatusResponse)
    (w : World) : World :=
  let w := send (backtestApi.getJobStatus id) w in
  match outcome with
  | Resolved st =>
      let w := setJobStatus (Some (status st)) w in
      let w := setProgress (Client.progress st) w in
      let w := setCurrentStep (or_string (current_step st) "") w in
      match status st, result st with
      | completed, Some r =>
          (* status.status === 'completed' && status.result *)
          let w := setBacktestData (Some r) w in
          let w := setJobStatus (Some completed) w in
          let w := stopPolling w in
          localStorage_removeItem JOB_STORAGE_KEY w
      | failed, _ =>
          let w := setError (Some (or_default (Client.error st) "Backtest failed")) w in
          let w := setJobStatus (Some failed) w in
          let w := stopPolling w in
          localStorage_removeItem JOB_STORAGE_KEY w
      | running, _ | pending, _ =>
          (* Continue polling *)
          match pollIntervalRef (view w) with
          | None =>
              let '(w, handle) := setInterval id 2000 w in
              setPollIntervalRef (Some handle) w
          | Some _ => w
          end
      | completed, None => w
      end
  | Rejected msg =>
      let w := setError (Some (or_string msg "Failed to check job status")) w in
      stopPolling w
  end.

(** The statements of [handleRunBacktest] before the request. *)
Definition resetRun (w : World) : World :=
  let w := setError None w in
  let w := setBacktestData None w in
  let w := setProgress 0%float w in
  let w := setCurrentStep "" w in
  setJobStatus None w.

(** The statements of [handleRunBacktest] between the answer of
    [startBacktest] and the first status check. *)
Definition recordSubmission (response : StartResponse) (w : World) : World :=
  let w := setJobId (Some (job_id response)) w in
  let w := setJobStatus (Some pending) w in
  localStorage_setItem JOB_STORAGE_KEY (job_id response) w.

(** [handleRunBacktest()], with the outcomes of the awaited
    [backtestApi.startBacktest] and of the status check it starts. *)
Definition handleRunBacktest (submission : Outcome StartResponse)
    (poll : Outcome JobStatusResponse) (w : World) : World :=
  let w := resetRun w in
  let w := send (backtestApi.startBacktest (startDate (view w)) (endDate (view w))
                   (Some (Freq_value (freq (view w))))) w in
  match submission with
  | Resolved response =>
      let w := recordSubmission response w in
      (* Start polling *)
      checkJobStatus (job_id response) poll w
  | Rejected msg => setError (Some (or_string msg "Failed to start backtest")) w
  end.

(** [handleCancel()]. *)
Definition handleCancel (w : World) : World :=
  let w := stopPolling w in
  let w := setJobStatus None w in
  let w := setProgress 0%float w in
  let w := setCurrentStep "" w in
  localStorage_removeItem JOB_STORAGE_KEY w.

(** The component's first render: the initial values of its state cells.
    The two dates are the formatted defaults computed from the clock. *)
Definition initialState (defaultStart defaultEnd : string) : State :=
  {| startDate := defaultStart; endDate := defaultEnd; freq := W_FRI;
     jobId := None; progress := 0%float; currentStep := "";
     jobStatus := None; backtestData := None; error := None;
     pollIntervalRef := None |}.

(** The mount effect: check for an existing job. *)
Definition mountEffect (poll : Outcome JobStatusResponse) (w : World) : World :=
  match Js.getItem JOB_STORAGE_KEY (localStorage (browser w)) with
  | Some storedJobId =>
      if Js.truthy storedJobId then
        let w := setJobId (Some storedJobId) w in
        checkJobStatus storedJobId poll w
      else w
  | None => w
  end.

(** The effect's cleanup, run when the component unmounts. *)
Definition unmountCleanup (w : World) : World :=
  match pollIntervalRef (view w) with
  | Some handle => clearInterval handle w
  | None => w
  end.

(** [isRunning]. *)
Definition isRunning (s : State) : bool :=
  match jobStatus s with
  | Some running | Some pending => true
  | _ => false
  end.

(** *** Derived chart data *)

(** [r.hawk_dominant === r.actual_risk_off_next_week]: the [isCorrect] of a
    row of the results table. *)
Definition isCorrect (r : Types.BacktestResult) : bool :=
  Bool.eqb (Types.hawk_dominant r) (Types.actual_risk_off_next_week r).

(** [r.hawk_dominant !== r.actual_risk_off_next_week]. *)
Definition isIncorrect (r : Types.BacktestResult) : bool :=
  negb (Bool.eqb (Types.hawk_dominant r) (Types.actual_risk_off_next_week r)).

Record ChartPoint : Type := {
  point_date : string;
  point_accuracy : nat;
  predicted : string;
  actual : string;
}.

(** [chartData]; [format] stands for date-fns' [format(new Date(d), 'MMM dd')]. *)
Definition chartData (format : string -> string) (data : option JobResult)
  : list ChartPoint :=
  match data with
  | Some d =>
      map (fun r =>
        {| point_date := format (Types.date r);
           point_accuracy := if isCorrect r then 1 else 0;
           predicted := if Types.hawk_dominant r then "Hawk" else "Dove";
           actual := if Types.actual_risk_off_next_week r
                     then "Risk-Off" else "Risk-On" |})
        (results d)
  | None => []
  end.

(** [accuracyData]: the slices of the accuracy pie chart, name and value. *)
Definition accuracyData (data : option JobResult) : list (string * nat) :=
  match data with
  | Some d =>
      [("Correct", List.length (List.filter isCorrect (results d)));
       ("Incorrect", List.length (List.filter isIncorrect (results d)))]
  | None => []
  end.

(** The [Result] column of the table, one label per record. *)
Definition resultColumn (data : JobResult) : list string :=
  map (fun r => if isCorrect r then "Correct" else "Incorrect") (results data).

(** *** The page over time *)

(** The view is mounted with its state, or not rendered. *)
Record Page : Type := {
  page_browser : Browser;
  mounted : option State;
}.

Inductive Event : Type :=
| Mount (defaultStart defaultEnd : string) (poll : Outcome JobStatusResponse)
| Unmount
| Reload
| Tick (handle : positive) (poll : Outcome JobStatusResponse)
| ClickRun (submission : Outcome StartResponse) (poll : Outcome JobStatusResponse)
| ClickCancel
| SelectFreq (value : Freq)
| ChangeStartDate (value : string)
| ChangeEndDate (value : string).

Definition page_of (w : World) : Page :=
  {| page_browser := browser w; mounted := Some (view w) |}.

(** One event of the page.  An event that cannot happen in the page's state
    (a timer that is not set, a click on a disabled or absent control)
    leaves the page as it is.  A reload drops the page's timers and the
    component, and keeps [localStorage]. *)
Definition step (e : Event) (p : Page) : Page :=
  match e, mounted p with
  | Mount defaultStart defaultEnd poll, None =>
      page_of (mountEffect poll
        {| browser := page_browser p;
           view := initialState defaultStart defaultEnd |})
  | Unmount, Some s =>
      {| page_browser :=
           browser (unmountCleanup {| browser := page_browser p; view := s |});
         mounted := None |}
  | Reload, _ =>
      {| page_browser :=
           {| localStorage := localStorage (page_browser p); timers := ∅;
              next_handle := 1%positive; network := network (page_browser p) |};
         mounted := None |}
  | Tick handle poll, Some s =>
      match timers (page_browser p) !! handle with
      | Some iv =>
          page_of (checkJobStatus (callback iv) poll
                     {| browser := page_browser p; view := s |})
      | None => p
      end
  | ClickRun submission poll, Some s =>
      if isRunning s then p
      else page_of (handleRunBacktest submission poll
                      {| browser := page_browser p; view := s |})
  | ClickCancel, Some s =>
      if isRunning s
      then page_of (handleCancel {| browser := page_browser p; view := s |})
      else p
  | SelectFreq v, Some s =>
      if isRunning s then p
      else page_of (setFreq v {| browser := page_browser p; view := s |})
  | ChangeStartDate v, Some s =>
      if isRunning s then p
      else page_of (setStartDate v {| browser := page_browser p; view := s |})
  | ChangeEndDate v, Some s =>
      if isRunning s then p
      else page_of (setEndDate v {| browser := page_browser p; view := s |})
  | _, _ => p
  end.

(** A sequence of events, in order. *)
Definition run (events : list Event) (p : Page) : Page :=
  fold_left (fun p e => step e p) events p.

(** The status checks of job [id] among the requests sent. *)
Definition polls_of (id : string) (requests : list Request) : list Request :=
  List.filter
    (fun r => match r with
              | GetBacktestStatus j => String.eqb j id
              | _ => false
              end)
    requests.

(** A fresh page: nothing stored, no timer, nothing sent, view not rendered. *)
Definition freshPage : Page :=
  {| page_browser := {| localStorage := ∅; timers := ∅;
                        next_handle := 1%positive; network := [] |};
     mounted := None |}.

(** *** Vocabulary of the polling properties *)

(** The status check event [e] makes in page [p]: the job it asks about and
    the outcome it observes.  A mount checks the stored job id, a timer
    tick the job its callback has captured, a run the job just submitted. *)
Definition observes (e : Event) (p : Page)
  : option (string * Outcome JobStatusResponse) :=
  match e, mounted p with
  | Mount _ _ poll, None =>
      match Js.getItem JOB_STORAGE_KEY (localStorage (page_browser p)) with
      | Some storedJobId =>
          if Js.truthy storedJobId then Some (storedJobId, poll) else None
      | None => None
      end
  | Tick handle poll, Some _ =>
      match timers (page_browser p) !! handle with
      | Some iv => Some (callback iv, poll)
      | None => None
      end
  | ClickRun (Resolved response) poll, Some s =>
      if isRunning s then None else Some (job_id response, poll)
  | _, _ => None
  end.

(** The answers on which [checkJobStatus] stops: failed, or completed with
    a result payload. *)
Definition terminal (st : JobStatusResponse) : bool :=
  match status st, result st with
  | completed, Some _ => true
  | failed, _ => true
  | _, _ => false
  end.

(** The answers on which [checkJobStatus] keeps polling. *)
Definition in_progress (st : JobStatusResponse) : bool :=
  match status st with
  | pending | running => true
  | _ => false
  end.

(** The handle held by [pollIntervalRef], when the view is mounted. *)
Definition activeInterval (p : Page) : option positive :=
  match mounted p with
  | Some s => pollIntervalRef s
  | None => None
  end.

(** The stored job id. *)
Definition storedJobId (p : Page) : option string :=
  localStorage (page_browser p) !! JOB_STORAGE_KEY.

(** The timers of a page are the one [pollIntervalRef] holds, a two second
    interval, and no other. *)
Definition timers_tracked (p : Page) : Prop :=
  match activeInterval p with
  | Some handle =>
      exists id, timers (page_browser p) =
                 {[ handle := {| callback := id; delay := 2000 |} ]}
  | None => timers (page_browser p) = ∅
  end.

(** Event [e] is a submission the server answers with job id [id]. *)
Definition resubmits (id : string) (e : Event) : Prop :=
  match e with
  | ClickRun (Resolved response) _ => job_id response = id
  | _ => False
  end.

(** Nothing in the page leads to a status check of job [id]: no timer
    polls it and it is not the stored job. *)
Definition quiet (id : string) (p : Page) : Prop :=
  (forall handle iv, timers (page_browser p) !! handle = Some iv ->
                     callback iv <> id)
  /\ storedJobId p <> Some id.

(** The user cancels: the cancel button is rendered and clicked. *)
Definition cancels (e : Event) (p : Page) : Prop :=
  e = ClickCancel /\ exists s, mounted p = Some s /\ isRunning s = true.

(** The event observes a terminal answer. *)
Definition observes_terminal (e : Event) (p : Page) : Prop :=
  exists id st, observes e p = Some (id, Resolved st) /\ terminal st = true.

(** Every backtest posted so far asks for weekly sampling on Fridays. *)
Definition posts_weekly (requests : list Request) : Prop :=
  forall body, In (PostBacktest body) requests -> Client.freq body = "W-FRI".

(** The frequency select still shows its initial value, and so did it at
    every submission. *)
Definition freq_untouched (p : Page) : Prop :=
  (forall s, mounted p = Some s -> freq s = W_FRI)
  /\ posts_weekly (network (page_browser p)).

(** *** The scenario chart and what the view renders *)

Record ScenarioPoint : Type := {
  scenario_date : string;
  hawk : nat;
  dove : nat;
}.

(** [scenarioData]; [format] stands for date-fns'
    [format(new Date(d), 'MMM dd')]. *)
Definition scenarioData (format : string -> string) (data : option JobResult)
  : list ScenarioPoint :=
  match data with
  | Some d =>
      map (fun r =>
        {| scenario_date := format (Types.date r);
           hawk := if Types.hawk_dominant r then 1 else 0;
           dove := if Types.hawk_dominant r then 0 else 1 |})
        (results d)
  | None => []
  end.

(** [{error && ...}]: the error panel is rendered for a truthy [error]. *)
Definition showsError (s : State) : bool :=
  match error s with
  | Some message => Js.truthy message
  | None => false
  end.

(** [{!backtestData && !isRunning && !error && ...}]: the empty state. *)
Definition showsEmptyState (s : State) : bool :=
  negb (bool_decide (is_Some (backtestData s)))
  && negb (isRunning s) && negb (showsError s).

(** [{backtestData && ...}]: the charts and the results table. *)
Definition showsResults (s : State) : bool :=
  bool_decide (is_Some (backtestData s)).

(** The status check an event carries the answer of. *)
Definition poll_of (e : Event) : option (Outcome JobStatusResponse) :=
  match e with
  | Mount _ _ poll | Tick _ poll | ClickRun _ poll => Some poll
  | _ => None
  end.

End BacktestView.

(** ** BacktestView.tsx with its awaits cut open

    [BacktestView.step] runs a handler together with the answer of the
    request it awaits.  Here a handler stops at its [await]: the request is
    in flight, other events of the page happen, and the answer resumes the
    handler later, in any order with the other answers.  The component may
    have been unmounted by then.  React's contract for such an instance is
    taken as given: its state setters do nothing, and the object behind
    [pollIntervalRef] lives on in the closures that hold it. *)

Module Interleaved.
Import Client BacktestView.

(** [checkJobStatus(id)] up to its [await]: the request leaves. *)
Definition checkJobStatus_request (id : string) (w : World) : World :=
  send (backtestApi.getJobStatus id) w.

(** [checkJobStatus(id)] from its [await] on, with the outcome of the
    request. *)
Definition checkJobStatus_resume (id : string)
    (outcome : Outcome JobStatusResponse) (w : World) : World :=
  match outcome with
  | Resolved st =>
      let w := setJobStatus (Some (status st)) w in
      let w := setProgress (Client.progress st) w in
      let w := setCurrentStep (or_string (current_step st) "") w in
      match status st, result st with
      | completed, Some r =>
          let w := setBacktestData (Some r) w in
          let w := setJobStatus (Some completed) w in
          let w := stopPolling w in
          localStorage_removeItem JOB_STORAGE_KEY w
      | failed, _ =>
          let w := setError (Some (or_default (Client.error st) "Backtest failed")) w in
          let w := setJobStatus (Some failed) w in
          let w := stopPolling w in
          localStorage_removeItem JOB_STORAGE_KEY w
      | running, _ | pending, _ =>
          match pollIntervalRef (view w) with
          | None =>
              let '(w, handle) := setInterval id 2000 w in
              setPollIntervalRef (Some handle) w
          | Some _ => w
          end
      | completed, None => w
      end
  | Rejected msg =>
      let w := setError (Some (or_string msg "Failed to check job status")) w in
      stopPolling w
  end.

(** [handleRunBacktest()] up to its [await]. *)
Definition handleRunBacktest_request (w : World) : World :=
  let w := resetRun w in
  send (backtestApi.startBacktest (startDate (view w)) (endDate (view w))
          (Some (Freq_value (freq (view w))))) w.

(** [handleRunBacktest()] from its [await] on, up to the [await] of the
    status check it starts. *)
Definition handleRunBacktest_resume (submission : Outcome StartResponse)
    (w : World) : World :=
  match submission with
  | Resolved response =>
      let w := recordSubmission response w in
      checkJobStatus_request (job_id response) w
  | Rejected msg => setError (Some (or_string msg "Failed to start backtest")) w
  end.

(** A request that has not been answered, and the instance of the
    component whose handler awaits it. *)
Inductive Flight : Type :=
| StartFlight (instance : nat)
| StatusFlight (instance : nat) (id : string).

(** The page: the browser, the instance whose [checkJobStatus] each timer
    calls, every instance of the component rendered since the page was
    loaded (its state cells and its ref), the instance that is mounted, and
    the requests in flight, oldest first. *)
Record Page : Type := {
  window : Browser;
  closures : gmap positive nat;
  instances : list State;
  current : option nat;
  inflight : list Flight;
}.

(** What a handler leaves of an instance that is not mounted: the state
    setters were ignored, the assignment to [pollIntervalRef.current] was
    not. *)
Definition ignore_setters (before after : State) : State :=
  {| startDate := startDate before; endDate := endDate before;
     freq := freq before; jobId := jobId before; progress := progress before;
     currentStep := currentStep before; jobStatus := jobStatus before;
     backtestData := backtestData before; error := error before;
     pollIntervalRef := pollIntervalRef after |}.

(** A piece of a handler of instance [i] runs.  A timer it sets calls the
    [checkJobStatus] of that instance. *)
Definition run_on (i : nat) (f : World -> World) (p : Page) : Page :=
  match instances p !! i with
  | Some s =>
      let w := f {| browser := window p; view := s |} in
      {| window := browser w;
         closures :=
           if Pos.eqb (next_handle (browser w)) (next_handle (window p))
           then closures p
           else <[next_handle (window p) := i]> (closures p);
         instances :=
           <[i := if bool_decide (current p = Some i) then view w
                  else ignore_setters s (view w)]> (instances p);
         current := current p;
         inflight := inflight p |}
  | None => p
  end.

(** A handler reaches an [await]. *)
Definition await (flight : Flight) (p : Page) : Page :=
  {| window := window p; closures := closures p; instances := instances p;
     current := current p; inflight := inflight p ++ [flight] |}.

(** The request at position [n] is answered. *)
Definition answered (n : nat) (p : Page) : Page :=
  {| window := window p; closures := closures p; instances := instances p;
     current := current p; inflight := delete n (inflight p) |}.

(** The first render of a new instance. *)
Definition render (defaultStart defaultEnd : string) (p : Page) : Page :=
  {| window := window p; closures := closures p;
     instances := instances p ++ [initialState defaultStart defaultEnd];
     current := Some (List.length (instances p));
     inflight := inflight p |}.

(** The mounted instance is removed from the page. *)
Definition remove (p : Page) : Page :=
  {| window := window p; closures := closures p; instances := instances p;
     current := None; inflight := inflight p |}.

(** The events of the page: those of the user and of the timers, which
    start handlers, and the answers of the server, which resume them. *)
Inductive Event : Type :=
| Mount (defaultStart defaultEnd : string)
| Unmount
| Reload
| Tick (handle : positive)
| ClickRun
| ClickCancel
| SelectFreq (value : Freq)
| ChangeStartDate (value : string)
| ChangeEndDate (value : string)
| StartAnswered (n : nat) (submission : Outcome StartResponse)
| StatusAnswered (n : nat) (outcome : Outcome JobStatusResponse).

(** The state of the mounted instance. *)
Definition mounted (p : Page) : option State :=
  match current p with
  | Some i => instances p !! i
  | None => None
  end.

(** One event.  A timer ticks whether or not the instance that set it is
    still mounted; a reload discards the page's timers, instances and
    unanswered requests, and keeps [localStorage]. *)
Definition step (e : Event) (p : Page) : Page :=
  match e with
  | Mount defaultStart defaultEnd =>
      match current p with
      | None =>
          let i := List.length (instances p) in
          let p := render defaultStart defaultEnd p in
          match Js.getItem JOB_STORAGE_KEY (localStorage (window p)) with
          | Some storedJobId =>
              if Js.truthy storedJobId then
                await (StatusFlight i storedJobId)
                  (run_on i (fun w => checkJobStatus_request storedJobId
                                        (setJobId (Some storedJobId) w)) p)
              else p
          | None => p
          end
      | Some _ => p
      end
  | Unmount =>
      match current p with
      | Some i => remove (run_on i unmountCleanup p)
      | None => p
      end
  | Reload =>
      {| window :=
           {| localStorage := localStorage (window p); timers := ∅;
              next_handle := 1%positive; network := network (window p) |};
         closures := ∅; instances := []; current := None; inflight := [] |}
  | Tick handle =>
      match timers (window p) !! handle, closures p !! handle with
      | Some iv, Some i =>
          await (StatusFlight i (callback iv))
            (run_on i (checkJobStatus_request (callback iv)) p)
      | _, _ => p
      end
  | ClickRun =>
      match current p, mounted p with
      | Some i, Some s =>
          if isRunning s then p
          else await (StartFlight i) (run_on i handleRunBacktest_request p)
      | _, _ => p
      end
  | ClickCancel =>
      match current p, mounted p with
      | Some i, Some s => if isRunning s then run_on i handleCancel p else p
      | _, _ => p
      end
  | SelectFreq v =>
      match current p, mounted p with
      | Some i, Some s => if isRunning s then p else run_on i (setFreq v) p
      | _, _ => p
      end
  | ChangeStartDate v =>
      match current p, mounted p with
      | Some i, Some s => if isRunning s then p else run_on i (setStartDate v) p
      | _, _ => p
      end
  | ChangeEndDate v =>
      match current p, mounted p with
      | Some i, Some s => if isRunning s then p else run_on i (setEndDate v) p
      | _, _ => p
      end
  | StartAnswered n submission =>
      match inflight p !! n with
      | Some (StartFlight i) =>
          let p := run_on i (handleRunBacktest_resume submission) (answered n p) in
          match submission with
          | Resolved response => await (StatusFlight i (job_id response)) p
          | Rejected _ => p
          end
      | _ => p
      end
  | StatusAnswered n outcome =>
      match inflight p !! n with
      | Some (StatusFlight i id) =>
          run_on i (checkJobStatus_resume id outcome) (answered n p)
      | _ => p
      end
  end.

Definition run (events : list Event) (p : Page) : Page :=
  fold_left (fun p e => step e p) events p.

Definition freshPage : Page :=
  {| window := {| localStorage := ∅; timers := ∅;
                  next_handle := 1%positive; network := [] |};
     closures := ∅; instances := []; current := None; inflight := [] |}.

(** The page as [BacktestView.step] sees it. *)
Definition flat (p : Page) : BacktestView.Page :=
  {| page_browser := window p; BacktestView.mounted := mounted p |}.

(** The schedule in which every request is answered before the next event
    of the page: an event of [BacktestView.step] and the answers it
    carries. *)
Definition at_once (e : BacktestView.Event) : list Event :=
  match e with
  | BacktestView.Mount defaultStart defaultEnd poll =>
      [Mount defaultStart defaultEnd; StatusAnswered 0 poll]
  | BacktestView.Unmount => [Unmount]
  | BacktestView.Reload => [Reload]
  | BacktestView.Tick handle poll => [Tick handle; StatusAnswered 0 poll]
  | BacktestView.ClickRun submission poll =>
      [ClickRun; StartAnswered 0 submission; StatusAnswered 0 poll]
  | BacktestView.ClickCancel => [ClickCancel]
  | BacktestView.SelectFreq v => [SelectFreq v]
  | BacktestView.ChangeStartDate v => [ChangeStartDate v]
  | BacktestView.ChangeEndDate v => [ChangeEndDate v]
  end.

Definition schedule (events : list BacktestView.Event) : list Event :=
  concat (map at_once events).

(** *** Vocabulary of the schedule properties *)

(** The mounted instance is one of the page's, and every timer of the page
    calls its [checkJobStatus]. *)
Definition calls_current (p : Page) : Prop :=
  forall i, current p = Some i ->
    is_Some (instances p !! i)
    /\ forall h iv, timers (window p) !! h = Some iv -> closures p !! h = Some i.

(** Every request has been answered. *)
Definition settled (p : Page) : Prop :=
  inflight p = [] /\ calls_current p.

(** The timers of [b'] are timers of [b], or the one [setInterval] has
    returned in between. *)
Definition timers_from (b b' : Browser) : Prop :=
  forall h iv, timers b' !! h = Some iv ->
    timers b !! h = Some iv
    \/ (h = next_handle b /\ next_handle b' <> next_handle b).

(** The [pollIntervalRef] of instance [i]. *)
Definition ref_of (i : nat) (p : Page) : option positive :=
  match instances p !! i with
  | Some s => pollIntervalRef s
  | None => None
  end.

End Interleaved.

(** ** components/dashboard/PredictionMatrix.tsx *)

Module PredictionMatrix.

(** A cell of an actor's row: the probability shown and whether the cell
    is marked as the actor's dominant action. *)
Record Cell : Type := {
  prob : float;
  isDominant : bool;
}.

(** The cells of one actor's row: [maxProb = Math.max(...strategy)] and
    [isDominant = prob === maxProb] for each probability. *)
Definition row (strategy : list float) : list Cell :=
  let maxProb := Js.Math_max strategy in
  map (fun prob => {| prob := prob; isDominant := Js.strict_eq prob maxProb |})
    strategy.

(** The table body: one row per party, with the party's name.  A party
    without a strategy ([equilibrium.strategies[partyIdx]] undefined) makes
    the spread throw: [None]. *)
Definition tbody (equilibrium : Types.NashEquilibrium)
  : option (list (string * list Cell)) :=
  mapM (fun '(partyIdx, party) =>
          match Types.strategies equilibrium !! partyIdx with
          | Some strategy => Some (party, row strategy)
          | None => None
          end)
       (imap pair (Types.parties equilibrium)).

End PredictionMatrix.

(** ** components/sensitivity/SensitivityView.tsx *)

Module SensitivityView.
Import Client.

Record State : Type := {
  nRuns : float;
  noiseLevels : list float;
  customNoiseLevels : string;
}.

(** The initial values of the state cells. *)
Definition initialState : State :=
  {| nRuns := 100; noiseLevels := []; customNoiseLevels := "" |}.

(** [Array.from({ length: 11 }, (_, i) => i * 0.1)]. *)
Definition defaultNoiseLevels : list float :=
  map (fun i => (Js.of_nat i * 0.1)%float) (seq 0 11).

(** The levels in the query key:
    [noiseLevels.length > 0 ? noiseLevels : defaultNoiseLevels]. *)
Definition queryKeyLevels (s : State) : list float :=
  if (0 <? List.length (noiseLevels s))%nat then noiseLevels s
  else defaultNoiseLevels.

(** [queryFn]: the request of a run of the analysis. *)
Definition queryFn (s : State) : Request :=
  sensitivityApi.runAnalysis
    (if (0 <? List.length (noiseLevels s))%nat then Some (noiseLevels s) else None)
    (Some (nRuns s)).

(** [onChange] of the runs input: [setNRuns(parseInt(e.target.value) || 100)],
    on the number [parseInt] returns. *)
Definition changeRuns (parsed : float) (s : State) : State :=
  {| nRuns := if Js.truthy_number parsed then parsed else 100%float;
     noiseLevels := noiseLevels s;
     customNoiseLevels := customNoiseLevels s |}.

(** [handleCustomNoiseLevels(value)], on the numbers [parseFloat] returns
    for the comma separated pieces of [value]. *)
Definition handleCustomNoiseLevels (value : string) (parsed : list float)
    (s : State) : State :=
  let levels := List.filter (fun n => negb (is_nan n)) parsed in
  {| nRuns := nRuns s;
     noiseLevels := if (0 <? List.length levels)%nat then levels else [];
     customNoiseLevels := value |}.

(** *** The view over time *)

(** The changes of the inputs: of the runs input, with the number
    [parseInt] returns, and of the noise levels input, with its text and the
    numbers [parseFloat] returns for its pieces. *)
Inductive Event : Type :=
| ChangeRuns (parsed : float)
| ChangeNoiseLevels (value : string) (parsed : list float).

Definition step (e : Event) (s : State) : State :=
  match e with
  | ChangeRuns parsed => changeRuns parsed s
  | ChangeNoiseLevels value parsed => handleCustomNoiseLevels value parsed s
  end.

Definition run (events : list Event) (s : State) : State :=
  fold_left (fun s e => step e s) events s.

(** *** The chart and the robustness metrics *)

Record ChartPoint : Type := {
  noise : float;
  globalHawk : float;
  globalDeescalate : float;
  japanHawk : float;
  chinaHawk : float;
  usaHawk : float;
}.

(** [chartData] of the results of an analysis; [None] before an analysis
    has answered. *)
Definition chartData (data : option (list Types.SensitivityResult))
  : list ChartPoint :=
  match data with
  | Some results =>
      map (fun result =>
        {| noise := Types.noise_level result;
           globalHawk := (Js.or_zero (Types.Global_Hawk_Scenario result) * 100)%float;
           globalDeescalate :=
             (Js.or_zero (Types.Global_Deescalate_Scenario result) * 100)%float;
           japanHawk := (Js.or_zero (Types.Japan_Hawk result) * 100)%float;
           chinaHawk := (Js.or_zero (Types.China_Hawk result) * 100)%float;
           usaHawk := (Js.or_zero (Types.USA_Hawk result) * 100)%float |})
        results
  | None => []
  end.

Record RobustnessMetrics : Type := {
  baselineHawk : float;
  baselineDeescalate : float;
  maxNoiseHawk : float;
  maxNoiseDeesc : float;
  isRobust : bool;
}.

(** [results.filter(r => (r.Global_Hawk_Scenario || 0) > 0.5)]. *)
Definition hawkStable (results : list Types.SensitivityResult)
  : list Types.SensitivityResult :=
  List.filter
    (fun r => Js.gt (Js.or_zero (Types.Global_Hawk_Scenario r)) 0.5%float)
    results.

(** [results.filter(r => (r.Global_Deescalate_Scenario || 0) > 0.5)]. *)
Definition deescStable (results : list Types.SensitivityResult)
  : list Types.SensitivityResult :=
  List.filter
    (fun r => Js.gt (Js.or_zero (Types.Global_Deescalate_Scenario r)) 0.5%float)
    results.

(** [stable.length > 0 ? Math.max(...stable.map(r => r.noise_level)) : 0]. *)
Definition maxNoise (stable : list Types.SensitivityResult) : float :=
  if (0 <? List.length stable)%nat
  then Js.Math_max (map Types.noise_level stable)
  else 0%float.

(** [robustnessMetrics]: [null] before an analysis has answered. *)
Definition robustnessMetrics (data : option (list Types.SensitivityResult))
  : option RobustnessMetrics :=
  match data with
  | Some results =>
      let baseline := head results in
      let maxNoiseHawk := maxNoise (hawkStable results) in
      let maxNoiseDeesc := maxNoise (deescStable results) in
      Some
        {| baselineHawk :=
             (match baseline with
              | Some b => Js.or_zero (Types.Global_Hawk_Scenario b)
              | None => 0
              end * 100)%float;
           baselineDeescalate :=
             (match baseline with
              | Some b => Js.or_zero (Types.Global_Deescalate_Scenario b)
              | None => 0
              end * 100)%float;
           maxNoiseHawk := maxNoiseHawk;
           maxNoiseDeesc := maxNoiseDeesc;
           isRobust := Js.gt maxNoiseHawk 0.3%float
                       || Js.gt maxNoiseDeesc 0.3%float |}
  | None => None
  end.

End SensitivityView.

(** ** store/appStore.ts *)

Module AppStore.
Import JsDate.

(** [type View = 'dashboard' | 'backtest' | 'sensitivity' | 'historical']. *)
Inductive View : Type := dashboard | backtest | sensitivity | historical.

(** What the [currentDate] field holds: a [Date], or, between the merge of
    the stored state and the rehydration callback, the stored string. *)
Inductive DateSlot : Type :=
| IsDate (date : Date)
| IsString (text : string).

(** The data fields of [AppState]. *)
Record AppState : Type := {
  currentDate : DateSlot;
  activeView : View;
  selectedCountry : option string;
  useOptimizedModel : bool;
}.

(** The state the store is created with; [now] is the time of [new Date()]. *)
Definition initialState (now : Z) : AppState :=
  {| currentDate := IsDate (Some now);
     activeView := dashboard;
     selectedCountry := None;
     useOptimizedModel := true |}.

Definition setCurrentDate (date : Date) (s : AppState) : AppState :=
  {| currentDate := IsDate date; activeView := activeView s;
     selectedCountry := selectedCountry s;
     useOptimizedModel := useOptimizedModel s |}.

Definition setActiveView (view : View) (s : AppState) : AppState :=
  {| currentDate := currentDate s; activeView := view;
     selectedCountry := selectedCountry s;
     useOptimizedModel := useOptimizedModel s |}.

Definition setSelectedCountry (country : option string) (s : AppState) : AppState :=
  {| currentDate := currentDate s; activeView := activeView s;
     selectedCountry := country;
     useOptimizedModel := useOptimizedModel s |}.

Definition setUseOptimizedModel (use : bool) (s : AppState) : AppState :=
  {| currentDate := currentDate s; activeView := activeView s;
     selectedCountry := selectedCountry s;
     useOptimizedModel := use |}.

(** The object [partialize] returns. *)
Module Persisted.
Record t : Type := {
  currentDate : string;
  activeView : View;
  useOptimizedModel : bool;
}.
End Persisted.

(** [partialize(state)]; [None] when [state.currentDate.toISOString()]
    throws (an Invalid Date, or a field that holds no [Date]). *)
Definition partialize (state : AppState) : option Persisted.t :=
  match currentDate state with
  | IsDate date =>
      match toISOString date with
      | Some iso =>
          Some {| Persisted.currentDate := iso;
                  Persisted.activeView := activeView state;
                  Persisted.useOptimizedModel := useOptimizedModel state |}
      | None => None
      end
  | IsString _ => None
  end.

(** The name of the store's entry. *)
Definition name : string := "geopolitical-market-game-storage".

(** What the persist middleware keeps under the store's name: the
    partialized state and a version.  The JSON text in [localStorage] is
    represented by the value it parses to. *)
Record StorageValue : Type := {
  state : Persisted.t;
  version : Z;
}.

(** The middleware's [setItem]: [None] when [partialize] throws. *)
Definition setItem (s : AppState) (storage : gmap string StorageValue)
  : option (gmap string StorageValue) :=
  match partialize s with
  | Some p => Some (<[name := {| state := p; version := 0 |}]> storage)
  | None => None
  end.

(** The middleware's default [merge]: [{ ...currentState, ...persistedState }]. *)
Definition merge (persisted : option Persisted.t) (current : AppState) : AppState :=
  match persisted with
  | Some p =>
      {| currentDate := IsString (Persisted.currentDate p);
         activeView := Persisted.activeView p;
         selectedCountry := selectedCountry current;
         useOptimizedModel := Persisted.useOptimizedModel p |}
  | None => current
  end.

(** Truthiness of the [currentDate] field. *)
Definition truthy (slot : DateSlot) : bool :=
  match slot with
  | IsDate _ => true
  | IsString text => Js.truthy text
  end.

(** [new Date(value)] on the field's value. *)
Definition new_Date (slot : DateSlot) : Date :=
  match slot with
  | IsDate date => date
  | IsString text => parse text
  end.

(** The callback [onRehydrateStorage] returns:
    [if (state?.currentDate) state.currentDate = new Date(state.currentDate)]. *)
Definition onRehydrateStorage (s : AppState) : AppState :=
  if truthy (currentDate s)
  then {| currentDate := IsDate (new_Date (currentDate s));
          activeView := activeView s;
          selectedCountry := selectedCountry s;
          useOptimizedModel := useOptimizedModel s |}
  else s.

(** The middleware's hydration: the stored state of the current version,
    merged into the current state, then the rehydration callback. *)
Definition rehydrate (current : AppState) (storage : gmap string StorageValue)
  : AppState :=
  let persisted :=
    match storage !! name with
    | Some value => if (version value =? 0)%Z then Some (state value) else None
    | None => None
    end in
  onRehydrateStorage (merge persisted current).

(** The store: its state, and the storage behind it. *)
Record Store : Type := {
  appState : AppState;
  storage : gmap string StorageValue;
}.

(** The store of a page load at time [now]. *)
Definition create (now : Z) (stored : gmap string StorageValue) : Store :=
  {| appState := rehydrate (initialState now) stored; storage := stored |}.

(** [set(update)] through the middleware: the state changes, then the
    partialized state is saved unless [partialize] throws. *)
Definition set (update : AppState -> AppState) (store : Store) : Store :=
  let s := update (appState store) in
  {| appState := s;
     storage := default (storage store) (setItem s (storage store)) |}.

(** A reload of the page at time [now]: a new store over the same storage. *)
Definition reload (now : Z) (store : Store) : Store :=
  create now (storage store).

(** A [Date] whose time value is within the range of time values. *)
Definition valid_date (slot : DateSlot) : Prop :=
  exists t, slot = IsDate (Some t) /\ (- maxTime <= t <= maxTime)%Z.

(** [a === b] on views. *)
Definition View_eqb (a b : View) : bool :=
  match a, b with
  | dashboard, dashboard | backtest, backtest
  | sensitivity, sensitivity | historical, historical => true
  | _, _ => false
  end.

End AppStore.

(** ** components/common/Header.tsx *)

Module Header.
Import AppStore.

(** [navItems]: id and label. *)
Definition navItems : list (View * string) :=
  [(dashboard, "Dashboard"); (backtest, "Backtest");
   (sensitivity, "Sensitivity"); (historical, "Historical")].

(** The buttons of the navigation: the label of each item, and whether it
    is highlighted ([activeView === item.id]). *)
Definition nav (s : AppState) : list (string * bool) :=
  map (fun '(id, label) => (label, View_eqb (activeView s) id)) navItems.

(** [onClick] of the button of an item: [setActiveView(item.id)]. *)
Definition click (id : View) (store : Store) : Store :=
  AppStore.set (setActiveView id) store.

End Header.

(** ** App.tsx *)

Module App.
Import AppStore.

(** The views [main] can hold. *)
Inductive Component : Type :=
| Dashboard | BacktestView | SensitivityView | HistoricalView.

(** The children of [main]: each view is rendered under its own test of
    [activeView]. *)
Definition main (s : AppState) : list Component :=
  (if View_eqb (activeView s) dashboard then [Dashboard] else [])
  ++ (if View_eqb (activeView s) backtest then [BacktestView] else [])
  ++ (if View_eqb (activeView s) sensitivity then [SensitivityView] else [])
  ++ (if View_eqb (activeView s) historical then [HistoricalView] else []).

End App.

(** ** components/dashboard/FinancialIndices.tsx *)

Module FinancialIndices.

Record Index : Type := {
  name : string;
  key : string;
  fallbackKey : option string;
  color : string;
}.

Definition indices : list Index :=
  [ {| name := "S&P 500"; key := "SP500"; fallbackKey := Some "USA";
       color := "#002868" |};
    {| name := "Nikkei 225"; key := "Nikkei225"; fallbackKey := Some "Japan";
       color := "#BC002D" |};
    {| name := "DAX"; key := "DAX"; fallbackKey := Some "Germany";
       color := "#000000" |};
    {| name := "TAIEX"; key := "TAIEX"; fallbackKey := Some "Taiwan";
       color := "#000095" |};
    {| name := "Hang Seng"; key := "HangSeng"; fallbackKey := None;
       color := "#DE2910" |};
    {| name := "Gold"; key := "Gold"; fallbackKey := None;
       color := "#F59E0B" |} ].

(** [marketContext?.[key] ?? marketContext?.[fallbackKey || ''] ?? 0]. *)
Definition value (marketContext : Types.MarketData) (i : Index) : float :=
  match marketContext !! key i with
  | Some v => v
  | None =>
      match marketContext !! Client.or_default (fallbackKey i) "" with
      | Some v => v
      | None => 0%float
      end
  end.

(** The props of the cards, one per index. *)
Definition cards (marketContext : Types.MarketData)
  : list MarketOverviewCard.Props :=
  map (fun i =>
         let v := value marketContext i in
         {| MarketOverviewCard.name := name i;
            MarketOverviewCard.value := Some v;
            MarketOverviewCard.trend :=
              Some (if Js.gt v 0%float then MarketOverviewCard.up
                    else MarketOverviewCard.down);
            MarketOverviewCard.color := color i |})
      indices.

End FinancialIndices.

(** ** hooks/usePredictions.ts *)

Module UsePredictions.
Import Client.

(** The query of the hook: its key, the request of its [queryFn] and
    whether it is enabled. *)
Record Query : Type := {
  queryKey : string * string * bool;
  queryFn : predictionsApi.Params;
  enabled : bool;
}.

(** [usePredictions(date, useOptimized = false)]; [None] when [format]
    throws.  A [Date] object is truthy, so the query is enabled. *)
Definition usePredictions (offset : Z -> Z) (date : JsDate.Date)
    (useOptimized : option bool) : option Query :=
  let useOptimized := default false useOptimized in
  match DateFns.format_yyyy_MM_dd offset date with
  | Some dateStr =>
      Some {| queryKey := ("predictions", dateStr, useOptimized);
              queryFn := predictionsApi.getPredictions (Some dateStr)
                           (Some useOptimized);
              enabled := true |}
  | None => None
  end.

End UsePredictions.

(** ** components/dashboard/Dashboard.tsx *)

Module Dashboard.

(** The fields of the predictions the market cards read; an optional field
    that is absent is [None]. *)
Record Predictions : Type := {
  market_context : Types.MarketData;
  prices : option (gmap string float);
  country_proxies : option (gmap string Types.CountryProxy);
}.

(** The countries of the index cards, in their order. *)
Definition countries : list string :=
  ["USA"; "China"; "Japan"; "Germany"; "Taiwan"].

Definition countryColors : list (string * string) :=
  [("USA", "#002868"); ("China", "#DE2910"); ("Japan", "#BC002D");
   ("Germany", "#000000"); ("Taiwan", "#000095")].

(** [countryColors[country]]. *)
Definition countryColor (country : string) : option string :=
  snd <$> List.find (fun entry => String.eqb (fst entry) country) countryColors.

(** The props of a country's index card. *)
Definition card (predictions : Predictions) (country : string)
  : CountryMarketCard.Props :=
  let proxy :=
    match country_proxies predictions with
    | Some proxies => proxies !! country
    | None => None
    end in
  let price :=
    match proxy with
    | Some p =>
        match prices predictions with
        | Some values => values !! Types.symbol p
        | None => None
        end
    | None => None
    end in
  let percentageChange :=
    default 0%float (market_context predictions !! country) in
  {| CountryMarketCard.country := country;
     CountryMarketCard.price := price;
     CountryMarketCard.percentageChange := percentageChange;
     CountryMarketCard.indexName :=
       match proxy with
       | Some p => Client.or_string (Types.index p) "N/A"
       | None => "N/A"
       end;
     CountryMarketCard.ticker :=
       match proxy with
       | Some p => Client.or_string (Types.ticker p) "N/A"
       | None => "N/A"
       end;
     CountryMarketCard.color :=
       Client.or_default (countryColor country) "#6B7280" |}.

(** The index cards: rendered when the predictions hold prices and
    proxies. *)
Definition countryCards (predictions : option Predictions)
  : option (list CountryMarketCard.Props) :=
  match predictions with
  | Some p =>
      match prices p, country_proxies p with
      | Some _, Some _ => Some (map (card p) countries)
      | _, _ => None
      end
  | None => None
  end.

(** [marketCards]: name, key and color. *)
Definition marketCards : list (string * string * string) :=
  [("Japan", "Japan", "#BC002D"); ("China", "China", "#DE2910");
   ("USA", "USA", "#002868"); ("Germany", "Germany", "#000000");
   ("Taiwan", "Taiwan", "#000095"); ("USD/CNY", "USDCNY", "#6B7280");
   ("USD/JPY", "USDJPY", "#6B7280"); ("Gold", "Gold", "#F59E0B");
   ("VIX", "VIX", "#EF4444")].

(** The props of the market data cards. *)
Definition overviewCards (predictions : Predictions)
  : list MarketOverviewCard.Props :=
  map (fun '(name, key, color) =>
         let v := default 0%float (market_context predictions !! key) in
         {| MarketOverviewCard.name := name;
            MarketOverviewCard.value := Some v;
            MarketOverviewCard.trend :=
              Some (if Js.gt v 0%float then MarketOverviewCard.up
                    else MarketOverviewCard.down);
            MarketOverviewCard.color := color |})
      marketCards.

(** The value of the date input: [format(currentDate, 'yyyy-MM-dd')]. *)
Definition dateInputValue (offset : Z -> Z) (currentDate : JsDate.Date)
  : option string :=
  DateFns.format_yyyy_MM_dd offset currentDate.

(** [usePredictions(currentDate, useOptimizedModel)]. *)
Definition predictions (offset : Z -> Z) (currentDate : JsDate.Date)
    (useOptimizedModel : bool) : option UsePredictions.Query :=
  UsePredictions.usePredictions offset currentDate (Some useOptimizedModel).

(** [onChange] of the date input: [setCurrentDate(new Date(e.target.value))]. *)
Definition changeDate (value : string) (store : AppStore.Store) : AppStore.Store :=
  AppStore.set (AppStore.setCurrentDate (JsDate.parse_day value)) store.

(** [onChange] of the model toggle: [setUseOptimizedModel(e.target.checked)]. *)
Definition toggleModel (checked : bool) (store : AppStore.Store)
  : AppStore.Store :=
  AppStore.set (AppStore.setUseOptimizedModel checked) store.

End Dashboard.

(** ** components/historical/HistoricalView.tsx: its submission *)

Module HistoricalView.
Import Client.

(** [backtestApi.startBacktest(startDate, endDate)] of the historical view's
    [handleRunBacktest]: no frequency argument. *)
Definition submit (startDate endDate : string) : Request :=
  backtestApi.startBacktest startDate endDate None.

(** *** The component *)

Definition JOB_STORAGE_KEY : string := "backtest_job_id".

(** The component's state: its [useState] cells and [pollIntervalRef]. *)
Record State : Type := {
  startDate : string;
  endDate : string;
  jobId : option string;
  progress : float;
  currentStep : string;
  jobStatus : option JobStatus;
  backtestData : option JobResult;
  error : option string;
  pollIntervalRef : option positive;
}.

(** The component in the browser of the page. *)
Record World : Type := {
  browser : BacktestView.Browser;
  view : State;
}.

Definition on_view (f : State -> State) (w : World) : World :=
  {| browser := browser w; view := f (view w) |}.

Definition on_browser (f : BacktestView.Browser -> BacktestView.Browser)
    (w : World) : World :=
  {| browser := f (browser w); view := view w |}.

Definition setJobId (v : option string) : World -> World :=
  on_view (fun s =>
    {| startDate := startDate s; endDate := endDate s; jobId := v;
       progress := progress s; currentStep := currentStep s;
       jobStatus := jobStatus s; backtestData := backtestData s;
       error := error s; pollIntervalRef := pollIntervalRef s |}).

Definition setProgress (v : float) : World -> World :=
  on_view (fun s =>
    {| startDate := startDate s; endDate := endDate s; jobId := jobId s;
       progress := v; currentStep := currentStep s; jobStatus := jobStatus s;
       backtestData := backtestData s; error := error s;
       pollIntervalRef := pollIntervalRef s |}).

Definition setCurrentStep (v : string) : World -> World :=
  on_view (fun s =>
    {| startDate := startDate s; endDate := endDate s; jobId := jobId s;
       progress := progress s; currentStep := v; jobStatus := jobStatus s;
       backtestData := backtestData s; error := error s;
       pollIntervalRef := pollIntervalRef s |}).

Definition setJobStatus (v : option JobStatus) : World -> World :=
  on_view (fun s =>
    {| startDate := startDate s; endDate := endDate s; jobId := jobId s;
       progress := progress s; currentStep := currentStep s; jobStatus := v;
       backtestData := backtestData s; error := error s;
       pollIntervalRef := pollIntervalRef s |}).

Definition setBacktestData (v : option JobResult) : World -> World :=
  on_view (fun s =>
    {| startDate := startDate s; endDate := endDate s; jobId := jobId s;
       progress := progress s; currentStep := currentStep s;
       jobStatus := jobStatus s; backtestData := v; error := error s;
       pollIntervalRef := pollIntervalRef s |}).

Definition setError (v : option string) : World -> World :=
  on_view (fun s =>
    {| startDate := startDate s; endDate := endDate s; jobId := jobId s;
       progress := progress s; currentStep := currentStep s;
       jobStatus := jobStatus s; backtestData := backtestData s; error := v;
       pollIntervalRef := pollIntervalRef s |}).

(** [pollIntervalRef.current = v]. *)
Definition setPollIntervalRef (v : option positive) : World -> World :=
  on_view (fun s =>
    {| startDate := startDate s; endDate := endDate s; jobId := jobId s;
       progress := progress s; currentStep := currentStep s;
       jobStatus := jobStatus s; backtestData := backtestData s;
       error := error s; pollIntervalRef := v |}).

(** A request leaves the page. *)
Definition send (r : Request) : World -> World :=
  on_browser (fun b =>
    {| BacktestView.localStorage := BacktestView.localStorage b;
       BacktestView.timers := BacktestView.timers b;
       BacktestView.next_handle := BacktestView.next_handle b;
       BacktestView.network := BacktestView.network b ++ [r] |}).

Definition localStorage_setItem (key value : string) : World -> World :=
  on_browser (fun b =>
    {| BacktestView.localStorage :=
         Js.setItem key value (BacktestView.localStorage b);
       BacktestView.timers := BacktestView.timers b;
       BacktestView.next_handle := BacktestView.next_handle b;
       BacktestView.network := BacktestView.network b |}).

Definition localStorage_removeItem (key : string) : World -> World :=
  on_browser (fun b =>
    {| BacktestView.localStorage := Js.removeItem key (BacktestView.localStorage b);
       BacktestView.timers := BacktestView.timers b;
       BacktestView.next_handle := BacktestView.next_handle b;
       BacktestView.network := BacktestView.network b |}).

(** [clearInterval(handle)]. *)
Definition clearInterval (handle : positive) : World -> World :=
  on_browser (fun b =>
    {| BacktestView.localStorage := BacktestView.localStorage b;
       BacktestView.timers := delete handle (BacktestView.timers b);
       BacktestView.next_handle := BacktestView.next_handle b;
       BacktestView.network := BacktestView.network b |}).

(** [setInterval(() => checkJobStatus(id), delay)]: the world with the new
    timer, and the handle returned. *)
Definition setInterval (id : string) (ms : Z) (w : World) : World * positive :=
  let handle := BacktestView.next_handle (browser w) in
  (on_browser (fun b =>
     {| BacktestView.localStorage := BacktestView.localStorage b;
        BacktestView.timers :=
          <[handle := {| BacktestView.callback := id; BacktestView.delay := ms |}]>
            (BacktestView.timers b);
        BacktestView.next_handle := Pos.succ handle;
        BacktestView.network := BacktestView.network b |}) w,
   handle).

(** [if (pollIntervalRef.current) { clearInterval(pollIntervalRef.current);
    pollIntervalRef.current = null; }] *)
Definition stopPolling (w : World) : World :=
  match pollIntervalRef (view w) with
  | Some handle => setPollIntervalRef None (clearInterval handle w)
  | None => w
  end.

(** [checkJobStatus(id)], with the outcome of the awaited
    [backtestApi.getJobStatus(id)]; the desktop notification is left out,
    [new Notification] being taken not to throw. *)
Definition checkJobStatus (id : string) (outcome : Outcome JobStatusResponse)
    (w : World) : World :=
  let w := send (backtestApi.getJobStatus id) w in
  match outcome with
  | Resolved st =>
      let w := setJobStatus (Some (status st)) w in
      let w := setProgress (Client.progress st) w in
      let w := setCurrentStep (or_string (current_step st) "") w in
      match status st, result st with
      | completed, Some r =>
          let w := setBacktestData (Some r) w in
          let w := setJobStatus (Some completed) w in
          let w := stopPolling w in
          localStorage_removeItem JOB_STORAGE_KEY w
      | failed, _ =>
          let w := setError (Some (or_default (Client.error st) "Backtest failed")) w in
          let w := setJobStatus (Some failed) w in
          let w := stopPolling w in
          localStorage_removeItem JOB_STORAGE_KEY w
      | running, _ | pending, _ =>
          match pollIntervalRef (view w) with
          | None =>
              let '(w, handle) := setInterval id 2000 w in
              setPollIntervalRef (Some handle) w
          | Some _ => w
          end
      | completed, None => w
      end
  | Rejected msg =>
      let w := setError (Some (or_string msg "Failed to check job status")) w in
      stopPolling w
  end.

(** [handleRunBacktest()], with the outcomes of the awaited
    [backtestApi.startBacktest] and of the status check it starts. *)
Definition handleRunBacktest (submission : Outcome StartResponse)
    (poll : Outcome JobStatusResponse) (w : World) : World :=
  let w := setError None w in
  let w := setBacktestData None w in
  let w := setProgress 0%float w in
  let w := setCurrentStep "" w in
  let w := setJobStatus None w in
  let w := send (submit (startDate (view w)) (endDate (view w))) w in
  match submission with
  | Resolved response =>
      let w := setJobId (Some (job_id response)) w in
      let w := setJobStatus (Some pending) w in
      let w := localStorage_setItem JOB_STORAGE_KEY (job_id response) w in
      checkJobStatus (job_id response) poll w
  | Rejected msg => setError (Some (or_string msg "Failed to start backtest")) w
  end.

(** The component's first render: the initial values of its state cells. *)
Definition initialState (defaultStart defaultEnd : string) : State :=
  {| startDate := defaultStart; endDate := defaultEnd;
     jobId := None; progress := 0%float; currentStep := "";
     jobStatus := None; backtestData := None; error := None;
     pollIntervalRef := None |}.

(** The mount effect: check for an existing job. *)
Definition mountEffect (poll : Outcome JobStatusResponse) (w : World) : World :=
  match Js.getItem JOB_STORAGE_KEY (BacktestView.localStorage (browser w)) with
  | Some storedJobId =>
      if Js.truthy storedJobId then
        let w := setJobId (Some storedJobId) w in
        checkJobStatus storedJobId poll w
      else w
  | None => w
  end.

(** The view mounts in a browser: the first render, then the effect. *)
Definition mount (defaultStart defaultEnd : string)
    (poll : Outcome JobStatusResponse) (b : BacktestView.Browser) : World :=
  mountEffect poll {| browser := b; view := initialState defaultStart defaultEnd |}.

(** The effect's cleanup, run when the component unmounts. *)
Definition unmountCleanup (w : World) : World :=
  match pollIntervalRef (view w) with
  | Some handle => clearInterval handle w
  | None => w
  end.

(** [isRunning]. *)
Definition isRunning (s : State) : bool :=
  match jobStatus s with
  | Some running | Some pending => true
  | _ => false
  end.

(** *** The results table *)

(** [backtestData.results.slice(0, 20)]: the records of the table's rows. *)
Definition tableRows (data : JobResult) : list Types.BacktestResult :=
  take 20 (results data).

(** [{backtestData.results.length > 20 && ...}]: the notice under the
    table. *)
Definition showsNotice (data : JobResult) : bool :=
  (20 <? List.length (results data))%nat.

(** The [Result] cell of a row. *)
Definition resultLabel (r : Types.BacktestResult) : string :=
  if Bool.eqb (Types.hawk_dominant r) (Types.actual_risk_off_next_week r)
  then "Correct" else "Wrong".

End HistoricalView.

(** ** The equilibrium solver

    The solver belongs to the Python backend, whose code is not part of
    the front end embedded above: this module is modelled from sections 3
    and 4.2 of the specification, over exact rationals. *)

Module Solver.
Local Open Scope Q_scope.

(** Modelled from the spec: the global action catalog (section 3), in the
    fixed order that breaks ties; the backend's solver is missing. *)
Inductive Action : Type := Hawkish | De_escalate | Stimulus | Military.

(** Modelled from the spec: the catalog in its fixed order. *)
Definition catalog : list Action := [Hawkish; De_escalate; Stimulus; Military].

(** Modelled from the spec: equality of actions. *)
Definition Action_eqb (a b : Action) : bool :=
  match a, b with
  | Hawkish, Hawkish | De_escalate, De_escalate
  | Stimulus, Stimulus | Military, Military => true
  | _, _ => false
  end.

(** Modelled from the spec: one actor's part of the PayoffMatrix of a
    prediction date, a scalar payoff for each of its own actions, with the
    actor's allowed-action subset of the catalog. *)
Record ActorPayoffs : Type := {
  actor : string;
  allowed : Action -> bool;
  payoff : Action -> Q;
}.

(** Modelled from the spec: the PayoffMatrix, one row per actor. *)
Definition PayoffMatrix : Type := list ActorPayoffs.

(** Modelled from the spec: a PayoffMatrix is valid when no actor's
    allowed-action set is empty (a ConfigurationError otherwise, raised at
    setup and never reaching the solver). *)
Definition valid_actor (row : ActorPayoffs) : bool :=
  existsb (allowed row) catalog.

(** Modelled from the spec: validity of every actor's row. *)
Definition valid (P : PayoffMatrix) : bool := forallb valid_actor P.

(** Modelled from the spec: a mixed strategy, a probability for each
    action of the catalog. *)
Definition Strategy : Type := Action -> Q.

(** Modelled from the spec: the three equilibrium concepts. *)
Inductive EquilibriumType : Type := Nash | BayesianNash | RepeatedGame.

(** Modelled from the spec: the EquilibriumResult, the mixed strategy and
    dominant action of each actor with the convergence diagnostic. *)
Record EquilibriumResult : Type := {
  strategies : list Strategy;
  dominant : list (option Action);
  equilibrium_type : EquilibriumType;
  iterations : nat;
  residual : Q;
  converged : bool;
}.

(** Modelled from the spec: the tolerance 1e-6 of the fixed-point search
    and of the sum of a probability vector. *)
Definition tolerance : Q := 1 # 1000000.

(** The sum of a list of rationals. *)
Definition Qsum (values : list Q) : Q := fold_right Qplus 0 values.

(** Modelled from the spec: the number of actions an actor is allowed. *)
Definition allowed_count (row : ActorPayoffs) : nat :=
  List.length (List.filter (allowed row) catalog).

(** Modelled from the spec: the first iterate of the search, equal
    probability on the allowed actions. *)
Definition uniform (row : ActorPayoffs) : Strategy :=
  fun a =>
    if allowed row a then 1 / inject_Z (Z.of_nat (allowed_count row)) else 0.

(** Modelled from the spec: the pure strategy of one action. *)
Definition pure (a : Action) : Strategy :=
  fun b => if Action_eqb a b then 1 else 0.

(** Modelled from the spec: the best response of an actor is an allowed
    action of highest payoff; among equally good actions the first in the
    catalog's order wins. *)
Definition better (row : ActorPayoffs) (best : option Action) (a : Action)
  : option Action :=
  if allowed row a then
    match best with
    | None => Some a
    | Some b => if Qle_bool (payoff row a) (payoff row b) then Some b else Some a
    end
  else best.

(** Modelled from the spec: the best allowed action, scanning the catalog
    in its order. *)
Definition best_action (row : ActorPayoffs) : option Action :=
  fold_left (better row) catalog None.

(** Modelled from the spec: the best response as a mixed strategy. *)
Definition best_response (row : ActorPayoffs) (current : Strategy) : Strategy :=
  match best_action row with
  | Some a => pure a
  | None => current
  end.

(** Modelled from the spec: the expected payoff of a mixed strategy, under
    the mean-field assumption that an actor's payoff depends on its own
    action. *)
Definition expected (row : ActorPayoffs) (s : Strategy) : Q :=
  Qsum (map (fun a => s a * payoff row a) catalog).

(** Modelled from the spec: what the actor gains by deviating to its best
    response. *)
Definition gain (row : ActorPayoffs) (s : Strategy) : Q :=
  expected row (best_response row s) - expected row s.

(** The larger of two rationals. *)
Definition Qlarger (x y : Q) : Q := if Qle_bool x y then y else x.

(** Modelled from the spec: the residual of a profile, the largest gain
    any actor has from a unilateral deviation. *)
Fixpoint largest_gain (P : PayoffMatrix) (profile : list Strategy) : Q :=
  match P, profile with
  | row :: P', s :: profile' => Qlarger (gain row s) (largest_gain P' profile')
  | _, _ => 0
  end.

(** Modelled from the spec: one round of best responses, actor by actor. *)
Fixpoint respond (P : PayoffMatrix) (profile : list Strategy) : list Strategy :=
  match P, profile with
  | row :: P', s :: profile' => best_response row s :: respond P' profile'
  | _, _ => []
  end.

(** Modelled from the spec: the fixed-point search.  It stops when no actor
    gains more than the tolerance by deviating; when the iteration budget
    is exhausted it returns the iterate it has, not converged. *)
Fixpoint search (budget : nat) (P : PayoffMatrix) (profile : list Strategy)
    (done : nat) : list Strategy * nat * Q * bool :=
  let r := largest_gain P profile in
  if Qle_bool r tolerance then (profile, done, r, true)
  else
    match budget with
    | O => (profile, done, r, false)
    | S budget' => search budget' P (respond P profile) (S done)
    end.

(** Modelled from the spec: the dominant action of a mixed strategy, the
    action with the highest probability (the first such in the catalog). *)
Definition dominant_action (s : Strategy) : option Action :=
  fold_left
    (fun best a =>
       match best with
       | None => Some a
       | Some b => if Qle_bool (s a) (s b) then Some b else Some a
       end)
    catalog None.

(** Modelled from the spec: the Nash solve of a payoff matrix. *)
Definition nash (kind : EquilibriumType) (budget : nat) (P : PayoffMatrix)
  : EquilibriumResult :=
  let '(profile, done, r, ok) := search budget P (map uniform P) 0 in
  {| strategies := profile;
     dominant := map dominant_action profile;
     equilibrium_type := kind;
     iterations := done;
     residual := r;
     converged := ok |}.

(** Modelled from the spec: the parameters of a solve, the iteration
    budget; for the Bayesian
    variant the seed, the number of draws and the noise source, a number
    for each seed, draw, actor and action; for the repeated game the
    discount factor and the value of continued cooperation. *)
Record Params : Type := {
  budget : nat;
  seed : nat;
  draws : nat;
  noise : nat -> nat -> nat -> Action -> Q;
  discount : Q;
  cooperation : Q;
}.

(** Modelled from the spec: an entry perturbed by noise scaled to 20% of
    its magnitude. *)
Definition perturbed (eps : Q) (p : Q) : Q := p + (1 # 5) * Qabs p * eps.

(** Modelled from the spec: the expectation of an entry over the perturbed
    draws of a seed. *)
Definition expected_entry (params : Params) (i : nat) (a : Action) (p : Q) : Q :=
  match draws params with
  | O => p
  | S _ =>
      Qsum (map (fun k => perturbed (noise params (seed params) k i a) p)
              (seq 0 (draws params)))
      / inject_Z (Z.of_nat (draws params))
  end.

(** An actor's row with other payoffs. *)
Definition with_payoff (row : ActorPayoffs) (f : Action -> Q) : ActorPayoffs :=
  {| actor := actor row; allowed := allowed row; payoff := f |}.

(** Modelled from the spec: the matrix the Bayesian variant solves. *)
Definition bayesian_matrix (params : Params) (P : PayoffMatrix) : PayoffMatrix :=
  imap (fun i row =>
          with_payoff row (fun a => expected_entry params i a (payoff row a)))
       P.

(** Modelled from the spec: the continuation value added to the
    cooperative action, proportional to [discount / (1 - discount)]. *)
Definition repeated_matrix (params : Params) (P : PayoffMatrix) : PayoffMatrix :=
  map (fun row =>
         with_payoff row
           (fun a =>
              match a with
              | De_escalate =>
                  payoff row a
                  + cooperation params * (discount params / (1 - discount params))
              | _ => payoff row a
              end))
      P.

(** Modelled from the spec: the solver, dispatched on the equilibrium type. *)
Definition solve (kind : EquilibriumType) (params : Params) (P : PayoffMatrix)
  : EquilibriumResult :=
  match kind with
  | Nash => nash Nash (budget params) P
  | BayesianNash => nash BayesianNash (budget params) (bayesian_matrix params P)
  | RepeatedGame => nash RepeatedGame (budget params) (repeated_matrix params P)
  end.

(** Modelled from the spec: the invariant of an actor's probability
    vector, which sums to 1 within the tolerance and is zero on every
    action outside the actor's allowed set. *)
Definition probability_vector (row : ActorPayoffs) (s : Strategy) : Prop :=
  Qabs (Qsum (map s catalog) - 1) <= tolerance
  /\ forall a, allowed row a = false -> s a = 0.

End Solver.

(** ** The specification's vocabulary *)

Module Spec.

(** The statuses of a job in the specification's data model, as its text
    lists them. *)
Definition job_statuses : list string :=
  ["pending"; "running"; "completed"; "failed"; "cancelled"].

(** The sampling frequencies the specification names for the client. *)
Definition sampling_frequencies : list string := ["W-FRI"; "D"; "M"].

(** Modelled from the spec: the default noise levels of the backend's
    sensitivity endpoint, which is missing: 0.0 through 1.0 in steps of
    0.1, level [i] being [i * 0.1]. *)
Definition default_noise_levels : list float :=
  map (fun i => (Js.of_nat i * 0.1)%float) (seq 0 11).

(** Modelled from the spec: the noise levels and the trial count an
    analysis runs with, for the body of a request; levels left undefined
    take the default. *)
Definition analysis_parameters (body : Client.SensitivityBody)
  : list float * float :=
  (default default_noise_levels (Client.noise_levels body), Client.n_runs body).

End Spec.

(** ** Sample data for the examples *)

Module Samples.
Import Client BacktestView.

Definition sample_record (hawk risk_off : bool) : Types.BacktestResult :=
  {| Types.date := "2024-01-05"; Types.predicted_scenario := "Mixed";
     Types.actual_risk_off_next_week := risk_off; Types.hawk_dominant := hawk;
     Types.japan_action := ""; Types.china_action := ""; Types.usa_action := "";
     Types.germany_action := ""; Types.taiwan_action := "" |}.

Definition sample_result (records : list Types.BacktestResult) : JobResult :=
  {| results := records;
     summary := {| Types.total_weeks := 0; Types.accuracy := 0;
                   Types.hawk_weeks_predicted := 0;
                   Types.actual_risk_off_weeks := 0 |};
     total_weeks := 0; accuracy := 0 |}.

(** Answers of the server and events of the page. *)
Definition status_answer (id : string) (s : JobStatus) (r : option JobResult)
  : JobStatusResponse :=
  {| status_job_id := id; status := s; Client.progress := 0;
     current_step := ""; current_step_num := 0; total_steps := 0;
     result := r; Client.error := None |}.

Definition start_answer (id : string) : StartResponse :=
  {| job_id := id; start_status := "pending"; message := "" |}.

Definition mount_view : Event := Mount "2024-01-01" "2024-03-31" (Rejected "").

Definition submit_job1 : Event :=
  ClickRun (Resolved (start_answer "job-1"))
           (Resolved (status_answer "job-1" pending None)).


(** A result of the sensitivity analysis at a noise level, with the
    probabilities of the two global scenarios. *)
Definition sample_sensitivity (level hawk deescalate : float)
  : Types.SensitivityResult :=
  {| Types.noise_level := level; Types.noise_scaled := level;
     Types.Japan_Hawk := hawk; Types.China_Hawk := hawk; Types.USA_Hawk := hawk;
     Types.Germany_Deescalate := deescalate;
     Types.Taiwan_Deescalate := deescalate;
     Types.Global_Hawk_Scenario := hawk;
     Types.Global_Deescalate_Scenario := deescalate |}.

Section SolverSamples.
Import Solver.
Local Open Scope Q_scope.

(** The allowed-action set with the listed actions. *)
Definition only (actions : list Action) : Action -> bool :=
  fun a => existsb (Action_eqb a) actions.

Definition sample_matrix : PayoffMatrix :=
  [ {| actor := "USA"; allowed := only catalog;
       payoff := fun a => match a with
                          | Hawkish => 7 # 10 | De_escalate => 1 # 2
                          | Stimulus => 7 # 10 | Military => 1 # 5 end |};
    {| actor := "Japan"; allowed := only [Hawkish; De_escalate; Stimulus];
       payoff := fun a => match a with
                          | Hawkish => 1 # 5 | De_escalate => 3 # 5
                          | Stimulus => 2 # 5 | Military => 9 # 10 end |};
    {| actor := "Taiwan"; allowed := only [De_escalate; Stimulus];
       payoff := fun a => match a with
                          | Hawkish => 1 | De_escalate => 3 # 10
                          | Stimulus => 3 # 10 | Military => 1 end |} ].

Definition sample_params : Params :=
  {| budget := 10; seed := 42; draws := 4;
     noise := fun seed k i a => (Z.of_nat ((seed + k + i) mod 3) - 1) # 1;
     discount := 95 # 100; cooperation := 1 # 100 |}.

(** The probabilities of a result, actor by actor, in lowest terms. *)
Definition table (r : EquilibriumResult) : list (list Q) :=
  map (fun s => map (fun a => Qred (s a)) catalog) (strategies r).

End SolverSamples.

End Samples.

(** * Properties *)

(** ** CountryMarketCard *)

Section CountryMarketCardFacts.
Import CountryMarketCard.

Example formatPrice_missing : formatPrice None = Literal "N/A".
Proof. reflexivity. Qed.

Example formatPrice_zero : formatPrice (Some 0%float) = Literal "N/A".
Proof. reflexivity. Qed.

Example formatPrice_negative_zero : formatPrice (Some (-0)%float) = Literal "N/A".
Proof. reflexivity. Qed.

Example formatPrice_index :
  formatPrice (Some 38712.5%float) = toLocaleString 38712.5%float "en-US" 0.
Proof. reflexivity. Qed.

Example formatPrice_hundreds :
  formatPrice (Some 4783.456%float) = toLocaleString 4783.456%float "en-US" 2.
Proof. reflexivity. Qed.

Example formatPrice_boundary :
  formatPrice (Some 100%float) = toLocaleString 100%float "en-US" 4.
Proof. reflexivity. Qed.

Example formatPrice_small :
  formatPrice (Some 7.12345%float) = toLocaleString 7.12345%float "en-US" 4.
Proof. reflexivity. Qed.

Lemma formatPrice_NA_iff (value : option float) :
  formatPrice value = Literal "N/A" <->
  value = None \/ exists v, value = Some v /\ Js.strict_eq v 0%float = true.
Proof.
  split.
  - destruct value as [v|]; [|now left].
    intros H. right. exists v. split; [reflexivity|].
    unfold formatPrice in H.
    destruct (Js.strict_eq v 0); [reflexivity|].
    destruct (Js.gt v 10000); [discriminate|].
    destruct (Js.gt v 100); discriminate.
  - intros [-> | (v & -> & Hz)]; [reflexivity|].
    unfold formatPrice. now rewrite Hz.
Qed.

Lemma formatPrice_digits (v : float) :
  Js.strict_eq v 0%float = false ->
  formatPrice (Some v) =
    toLocaleString v "en-US"
      (if Js.gt v 10000%float then 0
       else if Js.gt v 100%float then 2 else 4).
Proof.
  intros Hz. unfold formatPrice. rewrite Hz.
  destruct (Js.gt v 10000); [reflexivity|].
  destruct (Js.gt v 100); reflexivity.
Qed.

(** C10.  [formatPrice] returns ['N/A'] exactly when the price is [null] or
    [=== 0]; every other price is formatted by [toLocaleString('en-US')]
    with [maximumFractionDigits] 0 above 10000, 2 above 100 and 4
    otherwise; hence a price of exactly 0 is rendered as missing data is. *)
Theorem formatPrice_NA_exactly_for_null_or_zero (price : option float) :
  (formatPrice price = Literal "N/A" <->
     price = None \/ exists v, price = Some v /\ Js.strict_eq v 0%float = true)
  /\ (forall v, price = Some v -> Js.strict_eq v 0%float = false ->
        formatPrice price =
          toLocaleString v "en-US"
            (if Js.gt v 10000%float then 0
             else if Js.gt v 100%float then 2 else 4))
  /\ (forall d, fractionDigits (formatPrice price) = Some d -> d <= 4)
  /\ formatPrice (Some 0%float) = formatPrice None.
Proof.
  split; [apply formatPrice_NA_iff|].
  split; [intros v -> Hz; now apply formatPrice_digits|].
  split; [|reflexivity].
  intros d. destruct price as [v|]; [|discriminate].
  unfold formatPrice.
  destruct (Js.strict_eq v 0); [discriminate|].
  destruct (Js.gt v 10000); [intros [= <-]; lia|].
  destruct (Js.gt v 100); intros [= <-]; lia.
Qed.

End CountryMarketCardFacts.

(** ** The job-status interface of the client *)

Section JobStatusFacts.
Import Client.

Lemma JobStatus_literals_eq :
  JobStatus_literals = ["pending"; "running"; "completed"; "failed"].
Proof. reflexivity. Qed.

Lemma JobStatus_literal_inj (a b : JobStatus) :
  JobStatus_literal a = JobStatus_literal b -> a = b.
Proof. destruct a, b; simpl; congruence. Qed.

Lemma JobStatus_literal_in_literals (s : JobStatus) :
  In (JobStatus_literal s) JobStatus_literals.
Proof. destruct s; simpl; tauto. Qed.

(** C1, as stated, fails: ['cancelled'] is a status of the specification's
    job, and no member of the client's status type stands for it. *)
Lemma cancelled_outside_client_interface :
  In "cancelled" Spec.job_statuses
  /\ ~ In "cancelled" JobStatus_literals
  /\ ~ (forall l, In l JobStatus_literals <-> In l Spec.job_statuses).
Proof.
  assert (Hspec : In "cancelled" Spec.job_statuses) by (simpl; tauto).
  assert (Hcl : ~ In "cancelled" JobStatus_literals).
  { simpl. intros [H|[H|[H|[H|[]]]]]; discriminate H. }
  split; [exact Hspec|]. split; [exact Hcl|].
  intros H. apply Hcl, H, Hspec.
Qed.

(** C1, amended.  Every status the job-status query can yield is one of
    the specification's five, and the client's interface covers exactly
    the four statuses pending, running, completed and failed. *)
Theorem job_status_interface :
  (forall s : JobStatus, In (JobStatus_literal s) Spec.job_statuses)
  /\ (forall l : string,
        (exists s : JobStatus, JobStatus_literal s = l) <->
        l = "pending" \/ l = "running" \/ l = "completed" \/ l = "failed")
  /\ (forall l : string,
        In l Spec.job_statuses <->
        (exists s : JobStatus, JobStatus_literal s = l) \/ l = "cancelled")
  /\ (forall s : JobStatus, JobStatus_literal s <> "cancelled").
Proof.
  split; [intros []; simpl; tauto|].
  split.
  { intros l. split.
    - intros [[] <-]; simpl; tauto.
    - intros [-> | [-> | [-> | ->]]];
        [exists pending|exists running|exists completed|exists failed];
        reflexivity. }
  split.
  { intros l. split.
    - simpl. intros [<-|[<-|[<-|[<-|[<-|[]]]]]];
        [left; exists pending|left; exists running|left; exists completed
        |left; exists failed|right]; reflexivity.
    - intros [[[] <-] | ->]; simpl; tauto. }
  intros []; discriminate.
Qed.

End JobStatusFacts.

(** ** BacktestView: records, correctness flags and the accuracy chart *)

Section AccuracyFacts.
Import Client BacktestView Samples.

Example accuracyData_sample :
  accuracyData (Some (sample_result
    [sample_record true true; sample_record true false;
     sample_record false false; sample_record false true;
     sample_record false false]))
  = [("Correct", 3); ("Incorrect", 2)].
Proof. reflexivity. Qed.

Example accuracyData_no_data : accuracyData None = [].
Proof. reflexivity. Qed.

Lemma isCorrect_iff (r : Types.BacktestResult) :
  isCorrect r = true <->
  Types.hawk_dominant r = Types.actual_risk_off_next_week r.
Proof. unfold isCorrect. apply Bool.eqb_true_iff. Qed.

Lemma isIncorrect_negb (r : Types.BacktestResult) :
  isIncorrect r = negb (isCorrect r).
Proof. reflexivity. Qed.

Lemma correct_incorrect_partition (records : list Types.BacktestResult) :
  List.length (List.filter isCorrect records)
  + List.length (List.filter isIncorrect records)
  = List.length records.
Proof.
  induction records as [|r records IH]; [reflexivity|].
  simpl. rewrite isIncorrect_negb.
  destruct (isCorrect r); simpl; lia.
Qed.

Lemma chart_accuracy_sum (format : string -> string)
    (records : list Types.BacktestResult) :
  list_sum (map (fun r => if isCorrect r then 1 else 0) records)
  = List.length (List.filter isCorrect records).
Proof.
  induction records as [|r records IH]; [reflexivity|].
  simpl. destruct (isCorrect r); simpl; lia.
Qed.

(** C4.  A record is shown and counted as Correct exactly when its
    [hawk_dominant] flag equals its [actual_risk_off_next_week] outcome,
    and the Correct and Incorrect counts of the accuracy distribution add
    up to the number of records. *)
Theorem correct_iff_prediction_matches_outcome
    (format : string -> string) (data : JobResult) :
  (forall r, isCorrect r = true <->
             Types.hawk_dominant r = Types.actual_risk_off_next_week r)
  /\ resultColumn data =
       map (fun r => if isCorrect r then "Correct" else "Incorrect")
         (results data)
  /\ map point_accuracy (chartData format (Some data)) =
       map (fun r => if isCorrect r then 1 else 0) (results data)
  /\ exists correct incorrect : nat,
       accuracyData (Some data) = [("Correct", correct); ("Incorrect", incorrect)]
       /\ correct + incorrect = List.length (results data)
       /\ correct = List.length (List.filter isCorrect (results data))
       /\ correct = list_sum (map point_accuracy (chartData format (Some data))).
Proof.
  split; [apply isCorrect_iff|].
  split; [reflexivity|].
  assert (Hchart : map point_accuracy (chartData format (Some data)) =
                   map (fun r => if isCorrect r then 1 else 0) (results data)).
  { unfold chartData. rewrite map_map. reflexivity. }
  split; [exact Hchart|].
  exists (List.length (List.filter isCorrect (results data))),
         (List.length (List.filter isIncorrect (results data))).
  split; [reflexivity|].
  split; [apply correct_incorrect_partition|].
  split; [reflexivity|].
  rewrite Hchart. symmetry. now apply chart_accuracy_sum.
Qed.

End AccuracyFacts.

(** ** BacktestView: polling, persistence of the job id, frequency *)

Section PollingFacts.
Import Client BacktestView Samples.

(** Splits the browser, the component state and the page into their fields. *)
Ltac split_records :=
  repeat match goal with
  | w : World |- _ => destruct w as [? ?]
  | p : Page |- _ => destruct p as [? ?]
  | b : Browser |- _ => destruct b as [? ? ? ?]
  | s : State |- _ => destruct s as [? ? ? ? ? ? ? ? ? ?]
  end.

(** Runs the handlers on records given by their fields. *)
Ltac run_handlers :=
  cbv [handleRunBacktest handleCancel mountEffect unmountCleanup
    recordSubmission resetRun checkJobStatus stopPolling setInterval
    clearInterval localStorage_removeItem localStorage_setItem send
    setPollIntervalRef setError setBacktestData setJobStatus
    setCurrentStep setProgress setJobId setFreq setEndDate setStartDate
    on_view on_browser page_of Js.getItem Js.setItem Js.removeItem
    backtestApi.getJobStatus backtestApi.startBacktest
    browser view localStorage timers next_handle network page_browser
    mounted startDate endDate freq jobId progress currentStep jobStatus
    backtestData error pollIntervalRef callback delay initialState
    timers_tracked activeInterval storedJobId quiet step isRunning observes] in *.

(** Cases on [pollIntervalRef], using what is known of the timers. *)
Ltac case_ref :=
  repeat match goal with
  | o : option positive |- _ => destruct o
  | H : exists _, _ = _ |- _ => destruct H as [? H]; rewrite ?H in *
  | H : @eq (gmap positive Interval) _ ∅ |- _ => rewrite ?H in *; clear H
  end.

Lemma checkJobStatus_tracked id outcome b s :
  timers_tracked {| page_browser := b; mounted := Some s |} ->
  timers_tracked (page_of (checkJobStatus id outcome {| browser := b; view := s |})).
Proof.
  split_records. intros H.
  destruct outcome as [st|msg]; run_handlers.
  - destruct (status st), (result st); case_ref;
      rewrite ?delete_singleton_eq, ?delete_empty, ?insert_empty; eauto.
  - case_ref; rewrite ?delete_singleton_eq; eauto.
Qed.

Lemma step_tracked e p : timers_tracked p -> timers_tracked (step e p).
Proof.
  destruct p as [b [s|]]; intros H; destruct e;
    try exact H; try reflexivity.
  - (* Unmount *)
    split_records. run_handlers.
    case_ref; [apply delete_singleton_eq|reflexivity].
  - (* Tick *)
    cbn [step mounted page_browser].
    destruct (timers b !! handle); [|exact H].
    now apply checkJobStatus_tracked.
  - (* ClickRun *)
    cbn [step mounted page_browser].
    destruct (isRunning s); [exact H|].
    unfold handleRunBacktest.
    destruct submission as [response|msg].
    + apply checkJobStatus_tracked. exact H.
    + exact H.
  - (* ClickCancel *)
    cbn [step mounted page_browser].
    destruct (isRunning s); [|exact H].
    split_records. run_handlers.
    case_ref; [apply delete_singleton_eq|reflexivity].
  - cbn [step mounted page_browser]. destruct (isRunning s); exact H.
  - cbn [step mounted page_browser]. destruct (isRunning s); exact H.
  - cbn [step mounted page_browser]. destruct (isRunning s); exact H.
  - (* Mount *)
    cbn [step mounted page_browser]. unfold mountEffect. cbn [browser view].
    destruct (Js.getItem JOB_STORAGE_KEY (localStorage b)) as [stored|]; [|exact H].
    destruct (Js.truthy stored); [|exact H].
    apply (checkJobStatus_tracked stored poll b
             (view (setJobId (Some stored)
                {| browser := b; view := initialState defaultStart defaultEnd |}))).
    exact H.
Qed.

Lemma run_app events e p : run (events ++ [e]) p = step e (run events p).
Proof. unfold run. now rewrite fold_left_app. Qed.

Lemma run_tracked events p : timers_tracked p -> timers_tracked (run events p).
Proof.
  revert p. induction events as [|e events IH]; intros p H; [exact H|].
  apply IH, step_tracked, H.
Qed.

Lemma reachable_tracked events : timers_tracked (run events freshPage).
Proof. apply run_tracked. reflexivity. Qed.

Lemma checkJobStatus_network id outcome w :
  network (browser (checkJobStatus id outcome w)) =
  network (browser w) ++ [GetBacktestStatus id].
Proof.
  split_records. destruct outcome as [st|msg]; run_handlers.
  - destruct (status st), (result st); case_ref; reflexivity.
  - case_ref; reflexivity.
Qed.

Lemma polls_of_app id l1 l2 :
  polls_of id (l1 ++ l2) = polls_of id l1 ++ polls_of id l2.
Proof. apply List.filter_app. Qed.

Lemma polls_of_other id j : j <> id -> polls_of id [GetBacktestStatus j] = [].
Proof.
  intros H. cbn. destruct (String.eqb_spec j id); [contradiction|reflexivity].
Qed.

Lemma polls_of_same id : polls_of id [GetBacktestStatus id] = [GetBacktestStatus id].
Proof. cbn. now rewrite String.eqb_refl. Qed.

Lemma polls_of_post id body : polls_of id [PostBacktest body] = [].
Proof. reflexivity. Qed.

Lemma step_polls id e p :
  polls_of id (network (page_browser (step e p))) =
  polls_of id (network (page_browser p)) ++
  match observes e p with
  | Some (j, _) => polls_of id [GetBacktestStatus j]
  | None => []
  end.
Proof.
  destruct p as [b [s|]]; destruct e; cbn [step observes mounted page_browser];
    rewrite ?app_nil_r; try reflexivity.
  - unfold unmountCleanup, clearInterval, on_browser. cbn [view browser].
    destruct (pollIntervalRef s); reflexivity.
  - destruct (timers b !! handle) as [iv|]; [|now rewrite app_nil_r].
    cbn [page_of page_browser].
    now rewrite checkJobStatus_network, polls_of_app.
  - destruct submission as [response|msg];
      destruct (isRunning s); rewrite ?app_nil_r; try reflexivity;
      cbn [page_of page_browser]; unfold handleRunBacktest.
    + rewrite checkJobStatus_network, polls_of_app.
      f_equal. split_records. run_handlers. rewrite polls_of_app.
      apply app_nil_r.
    + split_records. run_handlers. rewrite polls_of_app. apply app_nil_r.
  - destruct (isRunning s); [|reflexivity].
    split_records. run_handlers. case_ref; reflexivity.
  - destruct (isRunning s); reflexivity.
  - destruct (isRunning s); reflexivity.
  - destruct (isRunning s); reflexivity.
  - unfold mountEffect. cbn [browser view page_of page_browser].
    destruct (Js.getItem JOB_STORAGE_KEY (localStorage b)) as [stored|];
      [|now rewrite app_nil_r].
    destruct (Js.truthy stored); [|now rewrite app_nil_r].
    now rewrite checkJobStatus_network, polls_of_app.
  - destruct submission; now rewrite app_nil_r.
Qed.

(** Closes a [quiet] goal once the handlers have run: a timer looked up is
    an old one, a deleted one or the new one; the stored id is the old one
    or removed. *)
Ltac solve_quiet Ht Hs Hne :=
  split;
  [intros ? ?; rewrite ?lookup_delete, ?lookup_insert, ?lookup_empty;
   repeat case_decide; try discriminate;
   try (intros [= <-]; exact Hne); try apply Ht
  |rewrite ?lookup_delete_eq; try discriminate; try exact Hs].

Lemma checkJobStatus_quiet id j outcome b s :
  j <> id ->
  quiet id {| page_browser := b; mounted := Some s |} ->
  quiet id (page_of (checkJobStatus j outcome {| browser := b; view := s |})).
Proof.
  intros Hne [Ht Hs]. split_records.
  destruct outcome as [st|msg]; run_handlers.
  - destruct (status st), (result st); case_ref; solve_quiet Ht Hs Hne.
  - case_ref; solve_quiet Ht Hs Hne.
Qed.

Lemma step_quiet id e p :
  quiet id p -> ~ resubmits id e ->
  quiet id (step e p) /\
  polls_of id (network (page_browser (step e p))) =
  polls_of id (network (page_browser p)).
Proof.
  intros Hq Hre.
  split.
  - destruct p as [b [s|]]; destruct e; cbn [step mounted page_browser];
      try exact Hq.
    + destruct Hq as [Ht Hs]. split_records. run_handlers.
      case_ref; solve_quiet Ht Hs Hre.
    + destruct Hq as [Ht Hs]. split_records. run_handlers.
      solve_quiet Ht Hs Hre.
    + destruct (timers b !! handle) as [iv|] eqn:Hiv; [|exact Hq].
      apply checkJobStatus_quiet; [|exact Hq].
      destruct Hq as [Ht _]. exact (Ht _ _ Hiv).
    + destruct (isRunning s); [exact Hq|].
      unfold handleRunBacktest.
      destruct submission as [response|msg].
      * apply checkJobStatus_quiet; [exact Hre|].
        destruct Hq as [Ht Hs]. split_records. run_handlers.
        split; [exact Ht|].
        rewrite lookup_insert_eq. intros [= H]. exact (Hre H).
      * exact Hq.
    + destruct (isRunning s); [|exact Hq].
      destruct Hq as [Ht Hs]. split_records. run_handlers.
      case_ref; solve_quiet Ht Hs Hre.
    + destruct (isRunning s); exact Hq.
    + destruct (isRunning s); exact Hq.
    + destruct (isRunning s); exact Hq.
    + unfold mountEffect. cbn [browser view].
      destruct (Js.getItem JOB_STORAGE_KEY (localStorage b)) as [stored|] eqn:Hst;
        [|exact Hq].
      destruct (Js.truthy stored); [|exact Hq].
      apply (checkJobStatus_quiet id stored poll b
               (view (setJobId (Some stored)
                  {| browser := b; view := initialState defaultStart defaultEnd |})));
        [|exact Hq].
      destruct Hq as [_ Hs]. intros ->. now apply Hs.
    + destruct Hq as [Ht Hs]. split_records. run_handlers.
      solve_quiet Ht Hs Hre.
  - rewrite step_polls.
    destruct (observes e p) as [[j o]|] eqn:Hobs; [|apply app_nil_r].
    rewrite polls_of_other; [apply app_nil_r|].
    destruct Hq as [Ht Hs].
    destruct p as [b [s|]]; destruct e; cbn [observes mounted page_browser] in Hobs;
      try discriminate.
    + destruct (timers b !! handle) as [iv|] eqn:Hiv; [|discriminate].
      injection Hobs as <- _. exact (Ht _ _ Hiv).
    + destruct submission as [response|msg]; [|discriminate].
      destruct (isRunning s); [discriminate|].
      injection Hobs as <- _. exact Hre.
    + destruct (Js.getItem JOB_STORAGE_KEY (localStorage b)) as [stored|] eqn:Hst;
        [|discriminate].
      destruct (Js.truthy stored); [|discriminate].
      injection Hobs as <- _. intros ->. now apply Hs.
    + destruct submission; discriminate.
Qed.

Lemma run_quiet id events p :
  quiet id p -> (forall e, In e events -> ~ resubmits id e) ->
  quiet id (run events p) /\
  polls_of id (network (page_browser (run events p))) =
  polls_of id (network (page_browser p)).
Proof.
  revert p. induction events as [|e events IH]; intros p Hq Hre; [now split|].
  destruct (step_quiet id e p Hq) as [Hq' Hp']; [apply Hre; now left|].
  destruct (IH (step e p) Hq') as [Hq'' Hp''];
    [intros e' He'; apply Hre; now right|].
  split; [exact Hq''|]. cbn [run fold_left]. fold (run events (step e p)).
  now rewrite Hp''.
Qed.

(** An event that checks a job's status runs [checkJobStatus] on a world
    with the page's timers and the view's interval handle. *)
Lemma observes_step e p id outcome :
  observes e p = Some (id, outcome) ->
  exists b s,
    step e p = page_of (checkJobStatus id outcome {| browser := b; view := s |})
    /\ timers b = timers (page_browser p)
    /\ pollIntervalRef s = activeInterval p
    /\ ((forall submission poll, e <> ClickRun submission poll) ->
        localStorage b = localStorage (page_browser p))
    /\ ((exists submission poll, e = ClickRun submission poll) ->
        localStorage b !! JOB_STORAGE_KEY = Some id).
Proof.
  destruct p as [b [s|]]; destruct e; cbn [observes mounted page_browser];
    try discriminate.
  - destruct (timers b !! handle) as [iv|] eqn:Hiv; [|discriminate].
    intros [= <- <-]. exists b, s. cbn [step mounted page_browser]. rewrite Hiv.
    repeat split; try reflexivity.
    intros (sub & poll' & H). discriminate H.
  - destruct submission as [response|msg]; [|discriminate].
    destruct (isRunning s) eqn:Hrun; [discriminate|].
    intros [= <- <-]. cbn [step mounted page_browser]. rewrite Hrun.
    unfold handleRunBacktest.
    eexists _, _. split; [reflexivity|].
    split_records. run_handlers.
    repeat split; try reflexivity.
    + intros H. now destruct (H (Resolved response) poll).
    + intros _. apply lookup_insert_eq.
  - destruct (Js.getItem JOB_STORAGE_KEY (localStorage b)) as [stored|] eqn:Hst;
      [|discriminate].
    destruct (Js.truthy stored) eqn:Htr; [|discriminate].
    intros [= <- <-]. cbn [step mounted page_browser]. unfold mountEffect.
    cbn [browser view]. rewrite Hst, Htr.
    eexists _, _. split; [reflexivity|].
    repeat split; try reflexivity.
    intros (sub & poll' & H). discriminate H.
  - destruct submission; discriminate.
Qed.

Lemma checkJobStatus_terminal id st b s :
  timers_tracked {| page_browser := b; mounted := Some s |} ->
  terminal st = true ->
  let p' := page_of (checkJobStatus id (Resolved st) {| browser := b; view := s |}) in
  activeInterval p' = None
  /\ timers (page_browser p') = ∅
  /\ storedJobId p' = None.
Proof.
  intros H Hterm. unfold terminal in Hterm. split_records. run_handlers.
  destruct (status st), (result st); try discriminate; case_ref;
    rewrite ?delete_singleton_eq, ?lookup_delete_eq; repeat split.
Qed.

Lemma checkJobStatus_in_progress id st b s :
  timers_tracked {| page_browser := b; mounted := Some s |} ->
  in_progress st = true ->
  let p' := page_of (checkJobStatus id (Resolved st) {| browser := b; view := s |}) in
  exists handle iv,
    activeInterval p' = Some handle
    /\ timers (page_browser p') = {[ handle := iv ]}
    /\ delay iv = 2000%Z
    /\ (pollIntervalRef s = None -> callback iv = id)
    /\ (forall h0, pollIntervalRef s = Some h0 ->
          handle = h0 /\ timers (page_browser p') = timers b)
    /\ storedJobId p' = localStorage b !! JOB_STORAGE_KEY.
Proof.
  intros H Hprog. unfold in_progress in Hprog. split_records. run_handlers.
  destruct (status st); try discriminate; case_ref;
    eexists _, _; rewrite ?insert_empty;
    (split; [reflexivity|]); (split; [reflexivity|]);
    (split; [reflexivity|]);
    (split; [first [discriminate|reflexivity]|]);
    (split; [|reflexivity]);
    first [discriminate|intros h0 [= <-]; split; reflexivity].
Qed.

Lemma checkJobStatus_no_result id st b s :
  status st = completed -> result st = None ->
  let w' := checkJobStatus id (Resolved st) {| browser := b; view := s |} in
  timers (browser w') = timers b
  /\ pollIntervalRef (view w') = pollIntervalRef s
  /\ localStorage (browser w') = localStorage b.
Proof.
  intros Hst Hres. split_records. run_handlers. rewrite Hst, Hres.
  repeat split.
Qed.

Lemma tracked_world p b s :
  timers_tracked p -> timers b = timers (page_browser p) ->
  pollIntervalRef s = activeInterval p ->
  timers_tracked {| page_browser := b; mounted := Some s |}.
Proof.
  unfold timers_tracked. cbn [activeInterval mounted page_browser].
  intros H -> ->. exact H.
Qed.

Lemma quiet_no_timer id p :
  timers (page_browser p) = ∅ -> storedJobId p = None -> quiet id p.
Proof.
  intros Ht Hs. split.
  - intros h iv. rewrite Ht, lookup_empty. discriminate.
  - rewrite Hs. discriminate.
Qed.

(** C2, amended.  When every handler runs to its end before the next
    event, that is, when every request is answered before anything else
    happens in the page, then in every page reachable from a fresh one:
    once a status check observes failed, or completed together with a
    result payload, the view clears its polling interval and removes the
    stored job id, and no later event sends a status check of that job
    unless the job is submitted anew; a check observing completed without a
    result changes neither the interval nor the timers; and after a check
    observing pending or running exactly one interval is set, with a delay
    of 2000 milliseconds, created for that job when the view held none and
    kept otherwise, whose next tick checks the status again. *)
Theorem polling_stops_on_terminal_status
    (events : list Event) (e : Event) (id : string) (st : JobStatusResponse) :
  let p := run events freshPage in
  let p' := step e p in
  observes e p = Some (id, Resolved st) ->
  (terminal st = true ->
     activeInterval p' = None
     /\ timers (page_browser p') = ∅
     /\ storedJobId p' = None
     /\ forall later,
          (forall e', In e' later -> ~ resubmits id e') ->
          polls_of id (network (page_browser (run later p'))) =
          polls_of id (network (page_browser p')))
  /\ (status st = completed -> result st = None ->
        timers (page_browser p') = timers (page_browser p)
        /\ activeInterval p' = activeInterval p)
  /\ (in_progress st = true ->
        exists handle iv,
          activeInterval p' = Some handle
          /\ timers (page_browser p') = {[ handle := iv ]}
          /\ delay iv = 2000%Z
          /\ (activeInterval p = None -> callback iv = id)
          /\ (forall h o, e = Tick h o -> callback iv = id)
          /\ (forall h0, activeInterval p = Some h0 ->
                handle = h0 /\ timers (page_browser p') = timers (page_browser p))
          /\ forall next, observes (Tick handle next) p' = Some (callback iv, next)).
Proof.
  intros p p' Hobs.
  pose proof (reachable_tracked events) as Htr. fold p in Htr.
  destruct (observes_step e p id (Resolved st) Hobs)
    as (b & s & Hstep & Htimers & Href & Hls & _).
  pose proof (tracked_world p b s Htr Htimers Href) as Hw.
  subst p'. rewrite Hstep.
  split; [|split].
  - intros Hterm.
    destruct (checkJobStatus_terminal id st b s Hw Hterm) as (Ha & Ht & Hs).
    repeat (split; [assumption|]).
    intros later Hlater.
    apply run_quiet; [|exact Hlater].
    now apply quiet_no_timer.
  - intros Hst Hres.
    destruct (checkJobStatus_no_result id st b s Hst Hres) as (Ht & Hr & _).
    cbn [page_of page_browser activeInterval mounted].
    rewrite Ht, Hr. now split.
  - intros Hprog.
    destruct (checkJobStatus_in_progress id st b s Hw Hprog)
      as (handle & iv & Ha & Ht & Hd & Hnew & Hkept & _).
    exists handle, iv.
    split; [exact Ha|]. split; [exact Ht|]. split; [exact Hd|].
    split; [intros Hnone; apply Hnew; now rewrite Href|].
    split.
    + intros h o ->. cbn [observes] in Hobs.
      unfold timers_tracked in Htr.
      destruct (mounted p) as [s0|] eqn:Hm; [|discriminate].
      destruct (timers (page_browser p) !! h) as [iv0|] eqn:Hiv; [|discriminate].
      injection Hobs as <-.
      unfold activeInterval in Htr, Href. rewrite Hm in Htr, Href.
      destruct (pollIntervalRef s0) as [h0|] eqn:Hr0.
      * destruct (Hkept h0 Href) as [-> Heq].
        rewrite Heq, Htimers in Ht.
        destruct Htr as [id0 Htr]. rewrite Htr in Hiv.
        apply lookup_singleton_Some in Hiv as [<- <-].
        rewrite Htr in Ht.
        assert (Hl : ({[h0 := iv]} : gmap positive Interval) !! h0 = Some iv)
          by apply lookup_singleton_eq.
        rewrite <- Ht, lookup_singleton_eq in Hl. now injection Hl as <-.
      * rewrite Htr, lookup_empty in Hiv. discriminate.
    + split.
      * intros h0 Hh0. rewrite <- Htimers. apply Hkept. now rewrite Href.
      * intros next. cbn [observes page_of mounted page_browser].
        cbn [page_of page_browser] in Ht. rewrite Ht, lookup_singleton_eq.
        reflexivity.
Qed.

(** C2, as stated, fails: a status check that observes completed without
    a result payload leaves the interval set and the job id stored, and
    the next tick checks the status of the job again. *)
Lemma completed_without_result_keeps_polling :
  let p := run [mount_view; submit_job1] freshPage in
  let answer := status_answer "job-1" completed None in
  let p' := step (Tick 1 (Resolved answer)) p in
  observes (Tick 1 (Resolved answer)) p = Some ("job-1", Resolved answer)
  /\ activeInterval p' = Some 1%positive
  /\ timers (page_browser p') !! 1%positive =
       Some {| callback := "job-1"; delay := 2000 |}
  /\ storedJobId p' = Some "job-1"
  /\ polls_of "job-1" (network (page_browser (step (Tick 1 (Resolved answer)) p'))) =
       polls_of "job-1" (network (page_browser p')) ++ [GetBacktestStatus "job-1"].
Proof. vm_compute. repeat split. Qed.

(** The polling theorem at a submission whose first status check observes
    pending. *)
Lemma polling_continues_witness :
  let p := run [mount_view] freshPage in
  let p' := step submit_job1 p in
  observes submit_job1 p =
    Some ("job-1", Resolved (status_answer "job-1" pending None))
  /\ exists handle iv,
       activeInterval p' = Some handle
       /\ timers (page_browser p') = {[ handle := iv ]}
       /\ delay iv = 2000%Z
       /\ callback iv = "job-1".
Proof.
  intros p p'.
  assert (Hobs : observes submit_job1 p =
                 Some ("job-1", Resolved (status_answer "job-1" pending None)))
    by (vm_compute; reflexivity).
  split; [exact Hobs|].
  destruct (polling_stops_on_terminal_status [mount_view] submit_job1 "job-1"
              (status_answer "job-1" pending None) Hobs) as (_ & _ & H).
  destruct (H eq_refl) as (handle & iv & Ha & Ht & Hd & Hnew & _).
  exists handle, iv. repeat split; try assumption.
  apply Hnew. reflexivity.
Defined.

(** *** Persistence of the job id *)

(** What [checkJobStatus] does to [localStorage]. *)
Lemma checkJobStatus_storage id outcome w :
  localStorage (browser (checkJobStatus id outcome w)) =
  match outcome with
  | Resolved st =>
      if terminal st then delete JOB_STORAGE_KEY (localStorage (browser w))
      else localStorage (browser w)
  | Rejected _ => localStorage (browser w)
  end.
Proof.
  split_records. destruct outcome as [st|msg]; run_handlers; unfold terminal.
  - destruct (status st), (result st); case_ref; reflexivity.
  - case_ref; reflexivity.
Qed.

Lemma stored_removed_iff e p id :
  storedJobId p = Some id ->
  storedJobId (step e p) = None <-> cancels e p \/ observes_terminal e p.
Proof.
  intros Hstored. split.
  - intros Hgone.
    destruct (observes e p) as [[j o]|] eqn:Hobs.
    + right. exists j.
      destruct (observes_step e p j o Hobs) as (b & s & Hstep & _ & _ & Hls & Hrun).
      rewrite Hstep in Hgone. unfold storedJobId in Hgone.
      cbn [page_of page_browser] in Hgone.
      rewrite checkJobStatus_storage in Hgone. cbn [browser] in Hgone.
      destruct o as [st|msg].
      * exists st. split; [exact Hobs|].
        destruct (terminal st); [reflexivity|].
        destruct e; try (rewrite Hls in Hgone by discriminate;
                         unfold storedJobId in Hstored; congruence).
        rewrite Hrun in Hgone by eauto. discriminate.
      * destruct e; try (rewrite Hls in Hgone by discriminate;
                         unfold storedJobId in Hstored; congruence).
        rewrite Hrun in Hgone by eauto. discriminate.
    + unfold storedJobId in *.
      destruct p as [b [s|]]; destruct e;
        cbn [step observes mounted page_browser localStorage] in *;
        try congruence.
      * split_records. run_handlers. case_ref; congruence.
      * destruct (timers b !! handle); [discriminate|].
        cbn [page_browser] in Hgone. congruence.
      * destruct submission as [response|msg];
          (destruct (isRunning s);
           [cbn [page_browser] in Hgone; congruence|]); [discriminate|].
        split_records. run_handlers. congruence.
      * destruct (isRunning s) eqn:Hrun;
          [|cbn [page_browser] in Hgone; congruence].
        left. split; [reflexivity|]. eauto.
      * destruct (isRunning s); [cbn [page_browser] in Hgone; congruence|].
        split_records. run_handlers. congruence.
      * destruct (isRunning s); [cbn [page_browser] in Hgone; congruence|].
        split_records. run_handlers. congruence.
      * destruct (isRunning s); [cbn [page_browser] in Hgone; congruence|].
        split_records. run_handlers. congruence.
      * unfold mountEffect in Hgone. cbn [browser view] in Hgone.
        destruct (Js.getItem JOB_STORAGE_KEY (localStorage b)) as [stored|];
          [|cbn [page_of page_browser browser] in Hgone; congruence].
        destruct (Js.truthy stored); [discriminate|].
        cbn [page_of page_browser browser] in Hgone. congruence.
  - intros [[-> (s & Hm & Hrun)]|(j & st & Hobs & Hterm)].
    + destruct p as [b m]. cbn [mounted] in Hm. subst m.
      cbn [step mounted page_browser]. rewrite Hrun.
      split_records. run_handlers. case_ref; apply lookup_delete_eq.
    + destruct (observes_step e p j (Resolved st) Hobs) as (b & s & -> & _).
      unfold storedJobId. cbn [page_of page_browser].
      rewrite checkJobStatus_storage, Hterm. apply lookup_delete_eq.
Qed.

Lemma checkJobStatus_starts_interval id st b s :
  pollIntervalRef s = None -> in_progress st = true ->
  let p' := page_of (checkJobStatus id (Resolved st) {| browser := b; view := s |}) in
  exists handle,
    activeInterval p' = Some handle
    /\ timers (page_browser p') !! handle =
         Some {| callback := id; delay := 2000 |}.
Proof.
  intros Href Hprog. unfold in_progress in Hprog. split_records.
  run_handlers. subst.
  destruct (status st); try discriminate;
    eexists; (split; [reflexivity|apply lookup_insert_eq]).
Qed.

Lemma checkJobStatus_jobId id outcome w :
  jobId (view (checkJobStatus id outcome w)) = jobId (view w).
Proof.
  split_records. destruct outcome as [st|msg]; run_handlers.
  - destruct (status st), (result st); case_ref; reflexivity.
  - case_ref; reflexivity.
Qed.

(** C3, amended.  A successful submission records the returned job id
    with status pending and stores the id under [JOB_STORAGE_KEY] before
    the first status check; a later mount that finds a stored, non-empty
    id checks the status of that same job and, on pending or running,
    polls it every 2000 milliseconds; the stored id is removed exactly when
    a status check observes failed or completed with a result payload, or
    when the user cancels; and a reload keeps the stored id. *)
Theorem job_id_persisted_and_polling_resumed :
  (forall (response : StartResponse) (w : World),
     let w' := recordSubmission response w in
     jobId (view w') = Some (job_id response)
     /\ jobStatus (view w') = Some pending
     /\ Js.getItem JOB_STORAGE_KEY (localStorage (browser w')) =
          Some (job_id response))
  /\ (forall (response : StartResponse) (poll : Outcome JobStatusResponse)
        (w : World),
        exists w1,
          handleRunBacktest (Resolved response) poll w =
          checkJobStatus (job_id response) poll w1
          /\ jobId (view w1) = Some (job_id response)
          /\ jobStatus (view w1) = Some pending
          /\ Js.getItem JOB_STORAGE_KEY (localStorage (browser w1)) =
               Some (job_id response))
  /\ (forall (p : Page) (id defaultStart defaultEnd : string)
        (poll : Outcome JobStatusResponse),
        mounted p = None -> storedJobId p = Some id -> Js.truthy id = true ->
        let p' := step (Mount defaultStart defaultEnd poll) p in
        observes (Mount defaultStart defaultEnd poll) p = Some (id, poll)
        /\ network (page_browser p') =
             network (page_browser p) ++ [GetBacktestStatus id]
        /\ (exists s', mounted p' = Some s' /\ jobId s' = Some id)
        /\ (forall st, poll = Resolved st -> in_progress st = true ->
              storedJobId p' = Some id
              /\ exists handle,
                   activeInterval p' = Some handle
                   /\ timers (page_browser p') !! handle =
                        Some {| callback := id; delay := 2000 |}))
  /\ (forall (e : Event) (p : Page) (id : string),
        storedJobId p = Some id ->
        storedJobId (step e p) = None <->
        cancels e p \/ observes_terminal e p)
  /\ (forall p : Page,
        storedJobId (step Reload p) = storedJobId p
        /\ mounted (step Reload p) = None).
Proof.
  split; [|split; [|split; [|split]]].
  - intros response w. split_records. run_handlers.
    repeat split. apply lookup_insert_eq.
  - intros response poll w. eexists. split; [reflexivity|].
    split_records. run_handlers. repeat split. apply lookup_insert_eq.
  - intros p id ds de poll Hm Hst Htr p'.
    assert (Hobs : observes (Mount ds de poll) p = Some (id, poll)).
    { destruct p as [b m]. cbn [mounted] in Hm. subst m.
      unfold storedJobId in Hst. cbn [observes mounted page_browser] in *.
      unfold Js.getItem. now rewrite Hst, Htr. }
    split; [exact Hobs|].
    destruct p as [b m]. cbn [mounted] in Hm. subst m.
    unfold storedJobId in Hst. cbn [page_browser] in Hst.
    subst p'. cbn [step mounted page_browser]. unfold mountEffect.
    cbn [browser view]. unfold Js.getItem. rewrite Hst, Htr.
    split; [|split].
    + cbn [page_of page_browser]. apply checkJobStatus_network.
    + eexists. split; [reflexivity|].
      rewrite checkJobStatus_jobId. reflexivity.
    + intros st -> Hprog. split.
      * unfold storedJobId. cbn [page_of page_browser].
        rewrite checkJobStatus_storage.
        assert (Hnt : terminal st = false).
        { unfold terminal, in_progress in *. destruct (status st); congruence. }
        rewrite Hnt. exact Hst.
      * apply (checkJobStatus_starts_interval id st b
                 (view (setJobId (Some id)
                    {| browser := b; view := initialState ds de |})));
          [reflexivity|exact Hprog].
  - intros e p id. apply stored_removed_iff.
  - intros [b m]. split; reflexivity.
Qed.

(** C3, as stated, fails in both directions: a cancel removes the stored
    id although no status check has observed completed or failed, and a
    status check that observes completed without a result payload leaves
    the id stored. *)
Lemma stored_id_removed_without_terminal_status :
  let p := run [mount_view; submit_job1] freshPage in
  let answer := status_answer "job-1" completed None in
  (storedJobId p = Some "job-1"
   /\ observes ClickCancel p = None
   /\ storedJobId (step ClickCancel p) = None)
  /\ (observes (Tick 1 (Resolved answer)) p = Some ("job-1", Resolved answer)
      /\ storedJobId (step (Tick 1 (Resolved answer)) p) = Some "job-1").
Proof. vm_compute. repeat split. Qed.

(** *** Sampling frequency *)

Lemma checkJobStatus_freq id outcome w :
  freq (view (checkJobStatus id outcome w)) = freq (view w).
Proof.
  split_records. destruct outcome as [st|msg]; run_handlers.
  - destruct (status st), (result st); case_ref; reflexivity.
  - case_ref; reflexivity.
Qed.

Lemma posts_weekly_app l1 l2 :
  posts_weekly l1 -> posts_weekly l2 -> posts_weekly (l1 ++ l2).
Proof.
  intros H1 H2 body Hin. apply in_app_or in Hin as [Hin|Hin]; auto.
Qed.

Lemma posts_weekly_poll id : posts_weekly [GetBacktestStatus id].
Proof. intros body [H|[]]. discriminate H. Qed.

Lemma checkJobStatus_untouched id outcome w :
  freq_untouched (page_of w) ->
  freq_untouched (page_of (checkJobStatus id outcome w)).
Proof.
  intros [Hf Hn]. split.
  - cbn [page_of mounted]. intros s' [= <-].
    rewrite checkJobStatus_freq. now apply Hf.
  - cbn [page_of page_browser]. rewrite checkJobStatus_network.
    apply posts_weekly_app; [exact Hn|apply posts_weekly_poll].
Qed.

Lemma step_freq_untouched e p :
  (forall f, e <> SelectFreq f) ->
  freq_untouched p -> freq_untouched (step e p).
Proof.
  intros Hsel H.
  destruct p as [b [s|]]; destruct e; cbn [step mounted page_browser];
    try exact H.
  - destruct H as [_ Hn]. split; [discriminate|].
    split_records. run_handlers. case_ref; exact Hn.
  - destruct H as [_ Hn]. split; [discriminate|exact Hn].
  - destruct (timers b !! handle); [|exact H].
    apply checkJobStatus_untouched. exact H.
  - destruct (isRunning s); [exact H|].
    destruct H as [Hf Hn]. pose proof (Hf s eq_refl) as Hs.
    unfold handleRunBacktest.
    destruct submission as [response|msg];
      [apply checkJobStatus_untouched|];
      unfold freq_untouched; split_records; run_handlers; subst;
      (split;
       [intros s' [= <-]; reflexivity
       |apply posts_weekly_app; [exact Hn|];
        intros body [[= <-]|[]]; reflexivity]).
  - destruct (isRunning s); [|exact H].
    destruct H as [Hf Hn]. pose proof (Hf s eq_refl) as Hs.
    unfold freq_untouched. split_records. run_handlers. subst.
    split; [|case_ref; exact Hn].
    intros s' [= <-]. case_ref; reflexivity.
  - exfalso. exact (Hsel value eq_refl).
  - destruct (isRunning s); [exact H|].
    destruct H as [Hf Hn]. pose proof (Hf s eq_refl) as Hs.
    unfold freq_untouched. split_records. run_handlers. subst.
    split; [|exact Hn]. intros s' [= <-]. reflexivity.
  - destruct (isRunning s); [exact H|].
    destruct H as [Hf Hn]. pose proof (Hf s eq_refl) as Hs.
    unfold freq_untouched. split_records. run_handlers. subst.
    split; [|exact Hn]. intros s' [= <-]. reflexivity.
  - unfold mountEffect. cbn [browser view].
    destruct H as [_ Hn].
    assert (H0 : forall j, freq_untouched
              {| page_browser := b;
                 mounted := Some (view (setJobId j
                   {| browser := b;
                      view := initialState defaultStart defaultEnd |})) |}).
    { intros j. split; [intros s' [= <-]; reflexivity|exact Hn]. }
    destruct (Js.getItem JOB_STORAGE_KEY (localStorage b)) as [stored|];
      [|exact (H0 None)].
    destruct (Js.truthy stored); [|exact (H0 None)].
    apply checkJobStatus_untouched. exact (H0 (Some stored)).
Qed.

Lemma run_freq_untouched events p :
  (forall f, ~ In (SelectFreq f) events) ->
  freq_untouched p -> freq_untouched (run events p).
Proof.
  revert p. induction events as [|e events IH]; intros p Hsel H; [exact H|].
  apply IH.
  - intros f Hin. apply (Hsel f). now right.
  - apply step_freq_untouched; [|exact H].
    intros f ->. apply (Hsel f). now left.
Qed.

(** What a click on the run button sends: one [POST /backtest] with the
    dates and the frequency the view holds, then, when the submission is
    accepted, the first status check of the job. *)
Lemma handleRunBacktest_network submission poll w :
  network (browser (handleRunBacktest submission poll w)) =
  network (browser w)
  ++ PostBacktest {| start_date := startDate (view w);
                     end_date := endDate (view w);
                     Client.freq := Freq_value (freq (view w)) |}
  :: match submission with
     | Resolved response => [GetBacktestStatus (job_id response)]
     | Rejected _ => []
     end.
Proof.
  unfold handleRunBacktest. destruct submission as [response|msg].
  - rewrite checkJobStatus_network. split_records. run_handlers.
    now rewrite <- app_assoc.
  - split_records. run_handlers. reflexivity.
Qed.

(** C7.  The frequency state starts at ['W-FRI'], [startBacktest] uses
    ['W-FRI'] for an omitted frequency; a click on the run button, while
    the user has selected no frequency, posts one backtest, with the dates
    of the view and the frequency ['W-FRI'], and every backtest posted
    until a frequency is selected asks for ['W-FRI']; once the user has
    selected a frequency, that one is posted; and the frequencies the
    select offers are exactly ['W-FRI'], ['D'] and ['M']. *)
Theorem weekly_friday_is_the_default_frequency :
  (forall defaultStart defaultEnd,
     freq (initialState defaultStart defaultEnd) = W_FRI)
  /\ Freq_value W_FRI = "W-FRI"
  /\ (forall startDate endDate,
        backtestApi.startBacktest startDate endDate None =
        PostBacktest {| start_date := startDate; end_date := endDate;
                        Client.freq := "W-FRI" |})
  /\ (forall startDate endDate,
        HistoricalView.submit startDate endDate =
        PostBacktest {| start_date := startDate; end_date := endDate;
                        Client.freq := "W-FRI" |})
  /\ (forall events,
        (forall f, ~ In (SelectFreq f) events) ->
        forall body,
          In (PostBacktest body) (network (page_browser (run events freshPage))) ->
          Client.freq body = "W-FRI")
  /\ (forall events s submission poll,
        (forall f, ~ In (SelectFreq f) events) ->
        mounted (run events freshPage) = Some s -> isRunning s = false ->
        network (page_browser
                   (step (ClickRun submission poll) (run events freshPage))) =
        network (page_browser (run events freshPage))
        ++ PostBacktest {| start_date := startDate s; end_date := endDate s;
                           Client.freq := "W-FRI" |}
        :: match submission with
           | Resolved response => [GetBacktestStatus (job_id response)]
           | Rejected _ => []
           end)
  /\ (forall p s f submission poll,
        mounted p = Some s -> isRunning s = false ->
        network (page_browser
                   (step (ClickRun submission poll) (step (SelectFreq f) p))) =
        network (page_browser p)
        ++ PostBacktest {| start_date := startDate s; end_date := endDate s;
                           Client.freq := Freq_value f |}
        :: match submission with
           | Resolved response => [GetBacktestStatus (job_id response)]
           | Rejected _ => []
           end)
  /\ map fst frequency_options = Spec.sampling_frequencies
  /\ map fst frequency_options = map Freq_value [W_FRI; D; M]
  /\ (forall v, In v (map fst frequency_options) <->
                exists f, Freq_of_value v = Some f /\ Freq_value f = v).
Proof.
  split; [reflexivity|]. split; [reflexivity|].
  split; [reflexivity|]. split; [reflexivity|].
  split.
  { intros events Hsel.
    apply (run_freq_untouched events freshPage Hsel).
    split; [discriminate|]. intros body []. }
  split.
  { intros events s submission poll Hsel Hm Hrun.
    destruct (run_freq_untouched events freshPage Hsel) as [Hf _];
      [split; [discriminate|]; intros body []|].
    specialize (Hf s Hm).
    destruct (run events freshPage) as [b m]. cbn [mounted] in Hm. subst m.
    cbn [step mounted page_browser]. rewrite Hrun.
    cbn [page_of page_browser]. rewrite handleRunBacktest_network.
    cbn [browser view]. now rewrite Hf. }
  split.
  { intros [b m] s f submission poll Hm Hrun. cbn [mounted] in Hm. subst m.
    cbn [step mounted page_browser]. rewrite Hrun.
    cbn [step page_of mounted page_browser].
    assert (Hrun' : isRunning (view (setFreq f {| browser := b; view := s |}))
                    = false) by (destruct s; exact Hrun).
    rewrite Hrun'. cbn [page_of page_browser].
    rewrite handleRunBacktest_network. destruct s; reflexivity. }
  split; [reflexivity|]. split; [reflexivity|].
  intros v. split.
  - cbn. intros [<-|[<-|[<-|[]]]];
      [exists W_FRI|exists D|exists M]; split; reflexivity.
  - intros [[] [_ <-]]; cbn; tauto.
Qed.

(** A status check that is rejected stops the polling and keeps the stored
    job id. *)
Lemma rejected_check_stops_polling (events : list Event) (e : Event)
    (id message : string) :
  let p := run events freshPage in
  observes e p = Some (id, Rejected message) ->
  activeInterval (step e p) = None
  /\ timers (page_browser (step e p)) = ∅.
Proof.
  intros p Hobs.
  pose proof (reachable_tracked events) as Htr. fold p in Htr.
  destruct (observes_step e p id (Rejected message) Hobs)
    as (b & s & -> & Htimers & Href & _).
  pose proof (tracked_world p b s Htr Htimers Href) as Hw.
  clear Hobs Htr Htimers Href. split_records. run_handlers.
  case_ref; rewrite ?delete_singleton_eq; split; reflexivity.
Qed.

Example reload_resumes_polling :
  let p := run [mount_view; submit_job1; Reload;
                Mount "2024-01-01" "2024-03-31"
                  (Resolved (status_answer "job-1" running None))] freshPage in
  polls_of "job-1" (network (page_browser p)) =
    [GetBacktestStatus "job-1"; GetBacktestStatus "job-1"]
  /\ storedJobId p = Some "job-1"
  /\ activeInterval p = Some 1%positive
  /\ timers (page_browser p) !! 1%positive =
       Some {| callback := "job-1"; delay := 2000 |}
  /\ (exists s, mounted p = Some s /\ jobId s = Some "job-1"
                /\ jobStatus s = Some running).
Proof. vm_compute. repeat split. eexists. repeat split. Qed.

Example completed_check_ends_polling :
  let p := run [mount_view; submit_job1;
                Tick 1 (Resolved (status_answer "job-1" completed
                                    (Some (sample_result []))))] freshPage in
  storedJobId p = None
  /\ activeInterval p = None
  /\ timers (page_browser p) = ∅
  /\ polls_of "job-1"
       (network (page_browser
          (run [Tick 1 (Resolved (status_answer "job-1" running None));
                Unmount; mount_view] p)))
     = polls_of "job-1" (network (page_browser p)).
Proof. vm_compute. repeat split. Qed.

(** The frequency theorem at the first run of a view just mounted. *)
Lemma weekly_default_witness :
  network (page_browser (step submit_job1 (run [mount_view] freshPage))) =
  [PostBacktest {| start_date := "2024-01-01"; end_date := "2024-03-31";
                   Client.freq := "W-FRI" |};
   GetBacktestStatus "job-1"].
Proof.
  assert (Hm : exists s, mounted (run [mount_view] freshPage) = Some s
                         /\ isRunning s = false
                         /\ startDate s = "2024-01-01"
                         /\ endDate s = "2024-03-31"
                         /\ network (page_browser (run [mount_view] freshPage)) = [])
    by (vm_compute; eauto 10).
  destruct Hm as (s & Hm & Hrun & Hs & He & Hn).
  destruct weekly_friday_is_the_default_frequency
    as (_ & _ & _ & _ & _ & H & _).
  assert (Hsel : forall f, ~ In (SelectFreq f) [mount_view])
    by (intros f [Heq|[]]; discriminate Heq).
  unfold submit_job1.
  rewrite (H [mount_view] s _ _ Hsel Hm Hrun).
  rewrite Hn, Hs, He. reflexivity.
Defined.

Example default_submission_is_weekly :
  network (page_browser (run [mount_view; submit_job1] freshPage)) =
  [PostBacktest {| start_date := "2024-01-01"; end_date := "2024-03-31";
                   Client.freq := "W-FRI" |};
   GetBacktestStatus "job-1"].
Proof. reflexivity. Qed.

Example selected_frequency_is_submitted :
  network (page_browser (run [mount_view; SelectFreq M; submit_job1] freshPage)) =
  [PostBacktest {| start_date := "2024-01-01"; end_date := "2024-03-31";
                   Client.freq := "M" |};
   GetBacktestStatus "job-1"].
Proof. reflexivity. Qed.

(** *** The view over time: timers, errors, results and cancelling *)

(** What [checkJobStatus] does to the [error] cell. *)
Lemma checkJobStatus_error id outcome w :
  error (view (checkJobStatus id outcome w)) =
  match outcome with
  | Resolved st =>
      match status st with
      | failed => Some (or_default (Client.error st) "Backtest failed")
      | _ => error (view w)
      end
  | Rejected msg => Some (or_string msg "Failed to check job status")
  end.
Proof.
  split_records. destruct outcome as [st|msg]; run_handlers.
  - destruct (status st), (result st); case_ref; reflexivity.
  - case_ref; reflexivity.
Qed.

(** What [checkJobStatus] does to the [backtestData] cell. *)
Lemma checkJobStatus_data id outcome w :
  backtestData (view (checkJobStatus id outcome w)) =
  match outcome with
  | Resolved st =>
      match status st, result st with
      | completed, Some r => Some r
      | _, _ => backtestData (view w)
      end
  | Rejected _ => backtestData (view w)
  end.
Proof.
  split_records. destruct outcome as [st|msg]; run_handlers.
  - destruct (status st), (result st); case_ref; reflexivity.
  - case_ref; reflexivity.
Qed.

(** What [checkJobStatus] does to the [jobStatus] cell. *)
Lemma checkJobStatus_jobStatus id outcome w :
  jobStatus (view (checkJobStatus id outcome w)) =
  match outcome with
  | Resolved st => Some (status st)
  | Rejected _ => jobStatus (view w)
  end.
Proof.
  split_records. destruct outcome as [st|msg]; run_handlers.
  - destruct (status st), (result st); case_ref; reflexivity.
  - case_ref; reflexivity.
Qed.

Lemma or_string_truthy s fallback :
  Js.truthy fallback = true -> Js.truthy (or_string s fallback) = true.
Proof.
  intros H. unfold or_string. destruct (Js.truthy s) eqn:E; [exact E|exact H].
Qed.

Lemma or_default_truthy o fallback :
  Js.truthy fallback = true -> Js.truthy (or_default o fallback) = true.
Proof.
  intros H. destruct o as [s|]; [now apply or_string_truthy|exact H].
Qed.

Lemma checkJobStatus_error_truthy id outcome w :
  (forall msg, error (view w) = Some msg -> Js.truthy msg = true) ->
  forall msg, error (view (checkJobStatus id outcome w)) = Some msg ->
              Js.truthy msg = true.
Proof.
  intros Hinv msg. rewrite checkJobStatus_error.
  destruct outcome as [st|m].
  - destruct (status st); try apply Hinv.
    intros [= <-]. now apply or_default_truthy.
  - intros [= <-]. now apply or_string_truthy.
Qed.

Lemma step_error_truthy e p :
  (forall s msg, mounted p = Some s -> error s = Some msg -> Js.truthy msg = true) ->
  forall s msg, mounted (step e p) = Some s -> error s = Some msg ->
                Js.truthy msg = true.
Proof.
  intros Hinv s' msg.
  destruct p as [b [s|]]; destruct e; cbn [step mounted page_browser];
    try discriminate; try apply Hinv.
  - (* Tick *)
    destruct (timers b !! handle); [|apply Hinv].
    cbn [page_of mounted]. intros [= <-].
    apply checkJobStatus_error_truthy. cbn [view]. intros m. now apply Hinv.
  - (* ClickRun *)
    destruct (isRunning s); [apply Hinv|].
    cbn [page_of mounted]. intros [= <-]. unfold handleRunBacktest.
    destruct submission as [response|m].
    + apply checkJobStatus_error_truthy.
      split_records. run_handlers. discriminate.
    + split_records. run_handlers. intros [= <-]. now apply or_string_truthy.
  - (* ClickCancel *)
    destruct (isRunning s); [|apply Hinv].
    cbn [page_of mounted]. intros [= <-].
    specialize (Hinv s msg eq_refl). revert Hinv.
    split_records. run_handlers. case_ref; intros H; exact H.
  - destruct (isRunning s); [apply Hinv|].
    cbn [page_of mounted]. intros [= <-]. apply (Hinv s msg eq_refl).
  - destruct (isRunning s); [apply Hinv|].
    cbn [page_of mounted]. intros [= <-]. apply (Hinv s msg eq_refl).
  - destruct (isRunning s); [apply Hinv|].
    cbn [page_of mounted]. intros [= <-]. apply (Hinv s msg eq_refl).
  - (* Mount *)
    unfold mountEffect. cbn [browser view].
    destruct (Js.getItem JOB_STORAGE_KEY (localStorage b)) as [stored|];
      [|intros [= <-]; discriminate].
    destruct (Js.truthy stored); [|intros [= <-]; discriminate].
    cbn [page_of mounted]. intros [= <-].
    apply checkJobStatus_error_truthy. discriminate.
Qed.

Lemma run_error_truthy events p :
  (forall s msg, mounted p = Some s -> error s = Some msg -> Js.truthy msg = true) ->
  forall s msg, mounted (run events p) = Some s -> error s = Some msg ->
                Js.truthy msg = true.
Proof.
  revert p. induction events as [|e events IH]; intros p Hinv; [exact Hinv|].
  apply (IH (step e p)). now apply step_error_truthy.
Qed.

(** X1.  In every state of the view reachable from a fresh page, an error
    the view holds is a non-empty message: the error panel is rendered
    exactly when an error is set, and the empty state is never rendered
    over an error. *)
Theorem error_panel_shows_every_error (events : list Event) (s : State) :
  mounted (run events freshPage) = Some s ->
  (forall msg, error s = Some msg -> msg <> "")
  /\ (showsError s = true <-> error s <> None)
  /\ (showsEmptyState s = true -> error s = None).
Proof.
  intros Hm.
  assert (Hinv : forall msg, error s = Some msg -> Js.truthy msg = true).
  { intros msg. apply (run_error_truthy events freshPage); [discriminate|exact Hm]. }
  split; [|split].
  - intros msg Hmsg ->. specialize (Hinv _ Hmsg). discriminate.
  - unfold showsError. destruct (error s) as [msg|].
    + rewrite (Hinv msg eq_refl). split; [discriminate|reflexivity].
    + split; [discriminate|]. intros H. now contradiction H.
  - unfold showsEmptyState, showsError. destruct (error s) as [msg|]; [|reflexivity].
    rewrite (Hinv msg eq_refl). cbn [negb]. rewrite andb_false_r. discriminate.
Qed.

(** The error theorem at a submission the server refuses without a message. *)
Lemma error_panel_witness :
  let p := run [mount_view; ClickRun (Rejected "") (Rejected "")] freshPage in
  exists s,
    mounted p = Some s
    /\ (forall msg, error s = Some msg -> msg <> "")
    /\ (showsError s = true <-> error s <> None).
Proof.
  intros p.
  assert (Hm : exists s, mounted p = Some s) by (vm_compute; eauto).
  destruct Hm as [s Hm]. exists s. split; [exact Hm|].
  destruct (error_panel_shows_every_error
              [mount_view; ClickRun (Rejected "") (Rejected "")] s Hm)
    as (H1 & H2 & _).
  split; assumption.
Defined.

Lemma checkJobStatus_data_cases id outcome w r :
  backtestData (view (checkJobStatus id outcome w)) = Some r ->
  (exists st, outcome = Resolved st /\ status st = completed /\ result st = Some r)
  \/ backtestData (view w) = Some r.
Proof.
  rewrite checkJobStatus_data. destruct outcome as [st|m]; [|now right].
  destruct (status st) eqn:Hs, (result st) eqn:Hr; try (now right).
  intros [= <-]. left. exists st. repeat split; assumption.
Qed.

Lemma step_data e p s' r :
  mounted (step e p) = Some s' -> backtestData s' = Some r ->
  (exists id st, observes e p = Some (id, Resolved st)
                 /\ status st = completed /\ result st = Some r)
  \/ (exists s, mounted p = Some s /\ backtestData s = Some r).
Proof.
  destruct p as [b [s|]]; destruct e; cbn [step observes mounted page_browser];
    try discriminate; try solve [intros [= <-] H; right; eauto].
  - (* Tick *)
    destruct (timers b !! handle) as [iv|]; [|intros [= <-] H; right; eauto].
    cbn [page_of mounted]. intros [= <-] H.
    apply checkJobStatus_data_cases in H as [(st & -> & Hs & Hr)|H].
    + left. eauto.
    + right. eauto.
  - (* ClickRun *)
    destruct (isRunning s); [intros [= <-] H; right; eauto|].
    cbn [page_of mounted]. intros [= <-]. unfold handleRunBacktest.
    destruct submission as [response|m].
    + intros H. apply checkJobStatus_data_cases in H as [(st & -> & Hs & Hr)|H].
      * left. eauto.
      * revert H. split_records. run_handlers. discriminate.
    + split_records. run_handlers. discriminate.
  - (* ClickCancel *)
    destruct (isRunning s); [|intros [= <-] H; right; eauto].
    cbn [page_of mounted]. intros [= <-] H. right. exists s. split; [reflexivity|].
    revert H. split_records. run_handlers. case_ref; intros H; exact H.
  - destruct (isRunning s); intros [= <-] H; right; eauto.
  - destruct (isRunning s); intros [= <-] H; right; eauto.
  - destruct (isRunning s); intros [= <-] H; right; eauto.
  - (* Mount *)
    unfold mountEffect. cbn [browser view].
    destruct (Js.getItem JOB_STORAGE_KEY (localStorage b)) as [stored|];
      [|intros [= <-]; discriminate].
    destruct (Js.truthy stored); [|intros [= <-]; discriminate].
    cbn [page_of mounted]. intros [= <-] H.
    apply checkJobStatus_data_cases in H as [(st & -> & Hs & Hr)|H].
    + left. eauto.
    + discriminate H.
Qed.

(** After a click on the run button the view holds the results its own
    first status check delivered, and none otherwise. *)
Lemma handleRunBacktest_data submission poll w :
  backtestData (view (handleRunBacktest submission poll w)) =
  match submission, poll with
  | Resolved _, Resolved st =>
      match status st, result st with
      | completed, Some r => Some r
      | _, _ => None
      end
  | _, _ => None
  end.
Proof.
  unfold handleRunBacktest. destruct submission as [response|m].
  - rewrite checkJobStatus_data.
    assert (H : backtestData
                  (view (recordSubmission response
                     (send (backtestApi.startBacktest
                              (startDate (view (resetRun w)))
                              (endDate (view (resetRun w)))
                              (Some (Freq_value (freq (view (resetRun w))))))
                        (resetRun w)))) = None)
      by (split_records; reflexivity).
    rewrite H. destruct poll as [st|m]; [|reflexivity].
    destruct (status st), (result st); reflexivity.
  - split_records. reflexivity.
Qed.

(** X2.  When every handler runs to its end before the next event, the
    results the view displays were received: whenever the view holds
    results, an earlier event made a status check that was answered with
    completed and exactly those results.  And a new submission drops the
    results of an earlier run: after a click on the run button the view
    holds the results its own first status check delivered, and none when
    the submission is refused or that check delivers none. *)
Theorem displayed_results_come_from_a_completed_check (events : list Event) :
  (forall (s : State) (r : JobResult),
     mounted (run events freshPage) = Some s -> backtestData s = Some r ->
     exists before e after id st,
       events = before ++ e :: after
       /\ observes e (run before freshPage) = Some (id, Resolved st)
       /\ status st = completed /\ result st = Some r)
  /\ (forall (s : State) (submission : Outcome StartResponse)
         (poll : Outcome JobStatusResponse),
        mounted (run events freshPage) = Some s -> isRunning s = false ->
        exists s',
          mounted (step (ClickRun submission poll) (run events freshPage))
            = Some s'
          /\ backtestData s' =
               match submission, poll with
               | Resolved _, Resolved st =>
                   match status st, result st with
                   | completed, Some r => Some r
                   | _, _ => None
                   end
               | _, _ => None
               end).
Proof.
  split.
  - induction events as [|e events IH] using rev_ind; intros s r Hm Hd.
    + discriminate Hm.
    + rewrite run_app in Hm.
      destruct (step_data e _ s r Hm Hd)
        as [(id & st & Hobs & Hs & Hr)|(s0 & Hm0 & Hd0)].
      * exists events, e, [], id, st. repeat split; assumption.
      * destruct (IH s0 r Hm0 Hd0) as (before & e0 & after & id & st & -> & H).
        exists before, e0, (after ++ [e]), id, st.
        split; [|exact H]. now rewrite <- app_assoc.
  - intros s submission poll Hm Hrun.
    destruct (run events freshPage) as [b m]. cbn [mounted] in Hm. subst m.
    cbn [step mounted page_browser]. rewrite Hrun.
    eexists. split; [reflexivity|]. apply handleRunBacktest_data.
Qed.

(** The results theorem at a run whose second status check is answered
    with the results, and at a second run, which is refused. *)
Lemma displayed_results_witness :
  let answer := status_answer "job-1" completed (Some (sample_result [])) in
  let events := [mount_view; submit_job1; Tick 1 (Resolved answer)] in
  (exists s before e after id st,
     mounted (run events freshPage) = Some s
     /\ backtestData s = Some (sample_result [])
     /\ events = before ++ e :: after
     /\ observes e (run before freshPage) = Some (id, Resolved st)
     /\ status st = completed /\ result st = Some (sample_result []))
  /\ (exists s',
        mounted (step (ClickRun (Rejected "") (Rejected "")) (run events freshPage))
          = Some s'
        /\ backtestData s' = None).
Proof.
  intros answer events.
  assert (Hm : exists s, mounted (run events freshPage) = Some s
                         /\ backtestData s = Some (sample_result [])
                         /\ isRunning s = false)
    by (vm_compute; eauto).
  destruct Hm as (s & Hm & Hd & Hrun).
  destruct (displayed_results_come_from_a_completed_check events) as [H1 H2].
  split.
  - destruct (H1 s _ Hm Hd) as (before & e & after & id & st & H).
    exists s, before, e, after, id, st.
    split; [exact Hm|]. split; [exact Hd|exact H].
  - destruct (H2 s (Rejected "") (Rejected "") Hm Hrun) as (s' & Hm' & Hd').
    exists s'. split; [exact Hm'|exact Hd'].
Defined.

(** X3.  When every handler runs to its end before the next event, the
    page holds at most one interval timer at any time: the one whose handle
    [pollIntervalRef] holds, with a delay of 2000 milliseconds; and no timer
    is left once the view is unmounted or the page reloaded. *)
Theorem at_most_one_polling_timer (events : list Event) :
  let p := run events freshPage in
  (forall handle iv,
     timers (page_browser p) !! handle = Some iv ->
     activeInterval p = Some handle /\ delay iv = 2000%Z
     /\ timers (page_browser p) = {[ handle := iv ]})
  /\ (activeInterval p = None -> timers (page_browser p) = ∅)
  /\ (mounted p = None -> timers (page_browser p) = ∅).
Proof.
  intros p. pose proof (reachable_tracked events) as Htr. fold p in Htr.
  clearbody p. unfold timers_tracked in Htr.
  split; [|split].
  - intros handle iv Hiv.
    destruct (activeInterval p) as [h|].
    + destruct Htr as [id Htr]. rewrite Htr in Hiv |- *.
      apply lookup_singleton_Some in Hiv as [<- <-]. repeat split.
    + rewrite Htr, lookup_empty in Hiv. discriminate.
  - intros Hnone. now rewrite Hnone in Htr.
  - intros Hm. unfold activeInterval in Htr. now rewrite Hm in Htr.
Qed.

(** X4.  When every handler runs to its end before the next event, so
    that no status check is in flight at the click, cancelling is local and
    final: the click sends no request (the server is not told), clears the
    timer and the stored job id, keeps the job id, the results and the
    error the view holds, and leaves the view not running; afterwards no
    event, a reload and a new mount included, checks the status of any job
    until that job is submitted anew. *)
Theorem cancel_is_local_and_final (events : list Event) (s : State) :
  let p := run events freshPage in
  let p' := step ClickCancel p in
  mounted p = Some s -> isRunning s = true ->
  network (page_browser p') = network (page_browser p)
  /\ timers (page_browser p') = ∅
  /\ storedJobId p' = None
  /\ (exists s', mounted p' = Some s' /\ isRunning s' = false
                 /\ jobId s' = jobId s /\ backtestData s' = backtestData s
                 /\ error s' = error s)
  /\ forall id later,
       (forall e, In e later -> ~ resubmits id e) ->
       polls_of id (network (page_browser (run later p'))) =
       polls_of id (network (page_browser p')).
Proof.
  intros p p' Hm Hrun.
  pose proof (reachable_tracked events) as Htr. fold p in Htr.
  subst p'. clearbody p. destruct p as [b m]. cbn [mounted] in Hm. subst m.
  cbn [step mounted page_browser]. rewrite Hrun.
  assert (H : let p' := page_of (handleCancel {| browser := b; view := s |}) in
              network (page_browser p') = network b
              /\ timers (page_browser p') = ∅
              /\ storedJobId p' = None
              /\ isRunning (view (handleCancel {| browser := b; view := s |})) = false
              /\ jobId (view (handleCancel {| browser := b; view := s |})) = jobId s
              /\ backtestData (view (handleCancel {| browser := b; view := s |}))
                 = backtestData s
              /\ error (view (handleCancel {| browser := b; view := s |})) = error s).
  { clear Hrun. split_records. run_handlers.
    case_ref; rewrite ?delete_singleton_eq, ?lookup_delete_eq; repeat split. }
  destruct H as (Hn & Ht & Hs & Hr & Hj & Hd & He).
  split; [exact Hn|]. split; [exact Ht|]. split; [exact Hs|].
  split; [eexists; split; [reflexivity|]; repeat split; assumption|].
  intros id later Hlater.
  apply run_quiet; [|exact Hlater]. now apply quiet_no_timer.
Qed.

(** The cancel theorem at a job just submitted. *)
Lemma cancel_witness :
  let p := run [mount_view; submit_job1] freshPage in
  exists s,
    mounted p = Some s /\ isRunning s = true
    /\ network (page_browser (step ClickCancel p)) = network (page_browser p)
    /\ storedJobId (step ClickCancel p) = None.
Proof.
  intros p.
  assert (Hm : exists s, mounted p = Some s /\ isRunning s = true)
    by (vm_compute; eauto).
  destruct Hm as (s & Hm & Hrun). exists s.
  destruct (cancel_is_local_and_final [mount_view; submit_job1] s Hm Hrun)
    as (Hn & _ & Hs & _).
  split; [exact Hm|]. split; [exact Hrun|]. split; [exact Hn|exact Hs].
Defined.



Lemma step_storage_frame e p key :
  key <> JOB_STORAGE_KEY ->
  localStorage (page_browser (step e p)) !! key =
  localStorage (page_browser p) !! key.
Proof.
  intros Hkey.
  assert (Hcheck : forall id outcome w,
            localStorage (browser (checkJobStatus id outcome w)) !! key =
            localStorage (browser w) !! key).
  { intros id outcome w. rewrite checkJobStatus_storage.
    destruct outcome as [st|m]; [|reflexivity].
    destruct (terminal st); [|reflexivity].
    now apply lookup_delete_ne. }
  destruct p as [b [s|]]; destruct e; cbn [step mounted page_browser];
    try reflexivity.
  - (* Unmount *)
    unfold unmountCleanup, clearInterval, on_browser. cbn [view browser].
    destruct (pollIntervalRef s); reflexivity.
  - (* Tick *)
    destruct (timers b !! handle); [|reflexivity].
    cbn [page_of page_browser]. now rewrite Hcheck.
  - (* ClickRun *)
    destruct (isRunning s); [reflexivity|].
    cbn [page_of page_browser]. unfold handleRunBacktest.
    destruct submission as [response|m].
    + rewrite Hcheck. split_records. run_handlers.
      now apply lookup_insert_ne.
    + split_records. run_handlers. reflexivity.
  - (* ClickCancel *)
    destruct (isRunning s); [|reflexivity].
    split_records. run_handlers. case_ref; now apply lookup_delete_ne.
  - destruct (isRunning s); reflexivity.
  - destruct (isRunning s); reflexivity.
  - destruct (isRunning s); reflexivity.
  - (* Mount *)
    unfold mountEffect. cbn [browser view].
    destruct (Js.getItem JOB_STORAGE_KEY (localStorage b)); [|reflexivity].
    destruct (Js.truthy s); [|reflexivity].
    cbn [page_of page_browser]. now rewrite Hcheck.
Qed.

(** X6.  The backtest view reads and writes [localStorage] under its own
    key alone: whatever happens in the page, every other entry, that of
    the application store among them, stays as it was. *)
Theorem backtest_view_touches_only_its_key (events : list Event) (p : Page) :
  (forall key, key <> JOB_STORAGE_KEY ->
     localStorage (page_browser (run events p)) !! key =
     localStorage (page_browser p) !! key)
  /\ localStorage (page_browser (run events p)) !! AppStore.name =
     localStorage (page_browser p) !! AppStore.name.
Proof.
  assert (H : forall key, key <> JOB_STORAGE_KEY ->
            localStorage (page_browser (run events p)) !! key =
            localStorage (page_browser p) !! key).
  { intros key Hkey. revert p.
    induction events as [|e events IH]; intros p; [reflexivity|].
    cbn [run fold_left]. fold (run events (step e p)).
    rewrite IH. now apply step_storage_frame. }
  split; [exact H|]. apply H. discriminate.
Qed.

Lemma resubmits_dec (id : string) (events : list Event) :
  (exists response poll,
     In (ClickRun (Resolved response) poll) events /\ job_id response = id)
  \/ (forall e, In e events -> ~ resubmits id e).
Proof.
  induction events as [|e events [(response & poll & Hin & Hid)|IH]].
  - right. intros e [].
  - left. exists response, poll. split; [now right|exact Hid].
  - destruct e as [| | | |[response|m] poll| | | |];
      try solve [right; intros e' [<-|He']; [intros []|now apply IH]].
    destruct (String.eqb_spec (job_id response) id) as [Heq|Hne].
    + left. exists response, poll. split; [now left|exact Heq].
    + right. intros e' [<-|He']; [exact Hne|now apply IH].
Qed.

Lemma In_polls_of (id : string) (requests : list Request) :
  In (GetBacktestStatus id) requests ->
  In (GetBacktestStatus id) (polls_of id requests).
Proof.
  intros H. unfold polls_of. apply List.filter_In. split; [exact H|].
  apply String.eqb_refl.
Qed.

(** X7.  Starting from a fresh page, the view asks the server only about
    jobs the server has named: every status request the page has sent, the
    stored job id and the job of every timer name a job id that the server
    returned for a submission made in this page. *)
Theorem status_checks_name_submitted_jobs (events : list Event) (id : string) :
  let p := run events freshPage in
  In (GetBacktestStatus id) (network (page_browser p))
  \/ storedJobId p = Some id
  \/ (exists handle iv,
        timers (page_browser p) !! handle = Some iv /\ callback iv = id) ->
  exists response poll,
    In (ClickRun (Resolved response) poll) events /\ job_id response = id.
Proof.
  intros p H.
  destruct (resubmits_dec id events) as [Hex|Hnone]; [exact Hex|exfalso].
  destruct (run_quiet id events freshPage) as [[Ht Hs] Hp];
    [now apply quiet_no_timer|exact Hnone|].
  fold p in Ht, Hs, Hp.
  destruct H as [H|[H|(handle & iv & Hiv & Hcb)]].
  - apply In_polls_of in H. rewrite Hp in H. exact H.
  - exact (Hs H).
  - exact (Ht handle iv Hiv Hcb).
Qed.

(** The theorem at a job just submitted. *)
Lemma status_checks_witness :
  exists response poll,
    In (ClickRun (Resolved response) poll) [mount_view; submit_job1]
    /\ job_id response = "job-1".
Proof.
  apply (status_checks_name_submitted_jobs [mount_view; submit_job1] "job-1").
  right. left. vm_compute. reflexivity.
Defined.

(** *** The awaits cut open: the one-step handlers inside the interleaved
    model *)

(** A status check is its request followed by its continuation. *)
Lemma checkJobStatus_cut id outcome w :
  checkJobStatus id outcome w =
  Interleaved.checkJobStatus_resume id outcome
    (Interleaved.checkJobStatus_request id w).
Proof. reflexivity. Qed.

(** A run is its request, its continuation and, for an accepted
    submission, the continuation of the status check. *)
Lemma handleRunBacktest_cut submission poll w :
  handleRunBacktest submission poll w =
  let w' := Interleaved.handleRunBacktest_resume submission
              (Interleaved.handleRunBacktest_request w) in
  match submission with
  | Resolved response =>
      Interleaved.checkJobStatus_resume (job_id response) poll w'
  | Rejected _ => w'
  end.
Proof. destruct submission; reflexivity. Qed.

Lemma World_eta (w : World) : {| browser := browser w; view := view w |} = w.
Proof. now destruct w. Qed.

(** A piece of a handler of the mounted instance. *)
Lemma run_on_current i f p s :
  Interleaved.current p = Some i ->
  Interleaved.instances p !! i = Some s ->
  let w := f {| browser := Interleaved.window p; view := s |} in
  Interleaved.run_on i f p =
  {| Interleaved.window := browser w;
     Interleaved.closures :=
       if Pos.eqb (next_handle (browser w)) (next_handle (Interleaved.window p))
       then Interleaved.closures p
       else <[next_handle (Interleaved.window p) := i]> (Interleaved.closures p);
     Interleaved.instances := <[i := view w]> (Interleaved.instances p);
     Interleaved.current := Some i;
     Interleaved.inflight := Interleaved.inflight p |}.
Proof.
  intros Hc Hi. unfold Interleaved.run_on. rewrite Hi, Hc.
  now rewrite bool_decide_eq_true_2.
Qed.

Lemma timers_from_refl b : Interleaved.timers_from b b.
Proof. intros h iv H. now left. Qed.

Lemma timers_from_request id w :
  Interleaved.timers_from (browser w)
    (browser (Interleaved.checkJobStatus_request id w)).
Proof. destruct w as [[] ?]. intros h iv H. left. exact H. Qed.

Lemma timers_from_resume id outcome w :
  Interleaved.timers_from (browser w)
    (browser (Interleaved.checkJobStatus_resume id outcome w)).
Proof.
  intros h iv. split_records.
  destruct outcome as [st|msg];
    cbv [Interleaved.checkJobStatus_resume]; run_handlers.
  - destruct (status st), (result st);
      repeat match goal with o : option positive |- _ => destruct o end;
      rewrite ?lookup_delete_Some, ?lookup_insert_Some;
      intros H; try (left; tauto); try tauto;
      (destruct H as [[<- H]|[_ H]]; [right|now left]);
      (split; [reflexivity|]); cbn [next_handle]; lia.
  - repeat match goal with o : option positive |- _ => destruct o end;
      rewrite ?lookup_delete_Some; intros H; left; tauto.
Qed.

(** A piece of a handler of the mounted instance keeps the timers with
    that instance. *)
Lemma run_on_calls_current i f p s :
  Interleaved.current p = Some i ->
  Interleaved.instances p !! i = Some s ->
  Interleaved.calls_current p ->
  let w := f {| browser := Interleaved.window p; view := s |} in
  Interleaved.timers_from (Interleaved.window p) (browser w) ->
  let p' := Interleaved.run_on i f p in
  Interleaved.calls_current p'
  /\ Interleaved.window p' = browser w
  /\ Interleaved.current p' = Some i
  /\ Interleaved.instances p' !! i = Some (view w)
  /\ Interleaved.inflight p' = Interleaved.inflight p.
Proof.
  intros Hc Hi Hcc w Hfrom p'. subst p'.
  rewrite (run_on_current i f p s Hc Hi). fold w.
  cbn [Interleaved.window Interleaved.closures Interleaved.instances
       Interleaved.current Interleaved.inflight].
  assert (Hlt : i < List.length (Interleaved.instances p))
    by (eapply lookup_lt_Some; exact Hi).
  assert (Hl : <[i := view w]> (Interleaved.instances p) !! i = Some (view w))
    by (now apply list_lookup_insert_eq).
  split; [|repeat split; exact Hl].
  intros j [= <-].
  cbn [Interleaved.window Interleaved.closures Interleaved.instances
       Interleaved.current Interleaved.inflight].
  split; [rewrite Hl; eauto|].
  intros h iv Hh. destruct (Hcc i Hc) as [_ Hcl].
  destruct (Hfrom h iv Hh) as [Hold|[-> Hne]].
  - specialize (Hcl h iv Hold).
    destruct (Pos.eqb _ _); [exact Hcl|].
    destruct (decide (h = next_handle (Interleaved.window p))) as [->|Hn].
    + apply lookup_insert_eq.
    + rewrite lookup_insert_ne by congruence. exact Hcl.
  - apply Pos.eqb_neq in Hne. rewrite Hne. apply lookup_insert_eq.
Qed.

(** With nothing else in flight, an answer that follows its request at
    once resumes the handler in the page the request left. *)
Lemma answered_await flight p :
  Interleaved.inflight p = [] ->
  Interleaved.answered 0 (Interleaved.await flight p) = p.
Proof. destruct p. cbn. now intros ->. Qed.

Lemma status_answered_at_once i id outcome p :
  Interleaved.inflight p = [] ->
  Interleaved.step (Interleaved.StatusAnswered 0 outcome)
    (Interleaved.await (Interleaved.StatusFlight i id) p) =
  Interleaved.run_on i (Interleaved.checkJobStatus_resume id outcome) p.
Proof.
  intros H. destruct p as [b cl ins cur fl]. cbn in H. subst fl. reflexivity.
Qed.

Lemma start_answered_at_once i submission p :
  Interleaved.inflight p = [] ->
  Interleaved.step (Interleaved.StartAnswered 0 submission)
    (Interleaved.await (Interleaved.StartFlight i) p) =
  let p' := Interleaved.run_on i
              (Interleaved.handleRunBacktest_resume submission) p in
  match submission with
  | Resolved response =>
      Interleaved.await (Interleaved.StatusFlight i (job_id response)) p'
  | Rejected _ => p'
  end.
Proof.
  intros H. destruct p as [b cl ins cur fl]. cbn in H. subst fl. reflexivity.
Qed.

Lemma nothing_to_answer p :
  Interleaved.inflight p = [] ->
  (forall n outcome,
     Interleaved.step (Interleaved.StatusAnswered n outcome) p = p)
  /\ (forall n submission,
        Interleaved.step (Interleaved.StartAnswered n submission) p = p).
Proof.
  intros H. split; intros n o; cbn [Interleaved.step]; rewrite H;
    now destruct n.
Qed.

Lemma flat_current p i s :
  Interleaved.current p = Some i -> Interleaved.instances p !! i = Some s ->
  Interleaved.flat p =
  {| page_browser := Interleaved.window p; mounted := Some s |}.
Proof.
  intros Hc Hi. unfold Interleaved.flat, Interleaved.mounted. now rewrite Hc, Hi.
Qed.

(** A piece of a handler of the mounted instance, in a page where every
    request has been answered. *)
Lemma run_on_settled i f p s :
  Interleaved.settled p ->
  Interleaved.current p = Some i ->
  Interleaved.instances p !! i = Some s ->
  let w := f {| browser := Interleaved.window p; view := s |} in
  Interleaved.timers_from (Interleaved.window p) (browser w) ->
  let p' := Interleaved.run_on i f p in
  Interleaved.flat p' = page_of w
  /\ Interleaved.settled p'
  /\ Interleaved.current p' = Some i
  /\ Interleaved.instances p' !! i = Some (view w)
  /\ Interleaved.window p' = browser w.
Proof.
  intros [Hfl Hcc] Hc Hs w Hfrom p'.
  destruct (run_on_calls_current i f p s Hc Hs Hcc Hfrom)
    as (Hcc' & Hw' & Hc' & Hi' & Hfl').
  fold w in Hw', Hi'. fold p' in Hcc', Hw', Hc', Hi', Hfl'.
  clearbody p' w.
  split; [rewrite (flat_current p' i (view w) Hc' Hi'), Hw'; reflexivity|].
  split; [split; [now rewrite Hfl'|exact Hcc']|]. auto.
Qed.

Lemma timers_from_unmount w :
  Interleaved.timers_from (browser w) (browser (unmountCleanup w)).
Proof.
  intros h iv. split_records. run_handlers.
  destruct pollIntervalRef0; cbn [timers];
    rewrite ?lookup_delete_Some; intros H; left; tauto.
Qed.

Lemma timers_from_cancel w :
  Interleaved.timers_from (browser w) (browser (handleCancel w)).
Proof.
  intros h iv. split_records. run_handlers.
  destruct pollIntervalRef0; cbn [timers];
    rewrite ?lookup_delete_Some; intros H; left; tauto.
Qed.

Lemma timers_from_run_request w :
  Interleaved.timers_from (browser w)
    (browser (Interleaved.handleRunBacktest_request w)).
Proof. intros h iv. split_records. intros H. left. exact H. Qed.

Lemma timers_from_run_resume submission w :
  Interleaved.timers_from (browser w)
    (browser (Interleaved.handleRunBacktest_resume submission w)).
Proof.
  intros h iv. split_records. destruct submission; intros H; left; exact H.
Qed.

Lemma timers_from_on_view f w :
  Interleaved.timers_from (browser w) (browser (on_view f w)).
Proof. intros h iv H. left. exact H. Qed.

Lemma settled_remove p :
  Interleaved.inflight p = [] -> Interleaved.settled (Interleaved.remove p).
Proof. intros H. split; [exact H|]. intros i Hi. discriminate Hi. Qed.

Lemma settled_await_answered i id outcome p :
  Interleaved.settled p ->
  Interleaved.step (Interleaved.StatusAnswered 0 outcome)
    (Interleaved.await (Interleaved.StatusFlight i id) p) =
  Interleaved.run_on i (Interleaved.checkJobStatus_resume id outcome) p.
Proof. intros [H _]. now apply status_answered_at_once. Qed.

(** One event of the one-step model is its schedule in the interleaved
    model. *)
Lemma at_once_step e p :
  Interleaved.settled p -> timers_tracked (Interleaved.flat p) ->
  Interleaved.flat (Interleaved.run (Interleaved.at_once e) p)
    = step e (Interleaved.flat p)
  /\ Interleaved.settled (Interleaved.run (Interleaved.at_once e) p).
Proof.
  intros Hset Htr. pose proof Hset as [Hfl Hcc].
  destruct (nothing_to_answer p Hfl) as [Hno_status Hno_start].
  destruct (Interleaved.current p) as [i|] eqn:Hc.
  - destruct (Hcc i Hc) as [[s Hs] Hcl].
    pose proof (flat_current p i s Hc Hs) as Hflat. rewrite Hflat in *.
    assert (Hm : Interleaved.mounted p = Some s)
      by (unfold Interleaved.mounted; now rewrite Hc).
    pose proof (fun f => run_on_settled i f p s Hset Hc Hs) as Hpiece.
    cbn zeta in Hpiece.
    destruct e; cbn [Interleaved.at_once Interleaved.run fold_left].
    + (* Mount *)
      assert (H1 : Interleaved.step
                     (Interleaved.Mount defaultStart defaultEnd) p = p)
        by (cbn [Interleaved.step]; now rewrite Hc).
      rewrite H1, Hno_status, Hflat. cbn [step mounted].
      split; [reflexivity|exact Hset].
    + (* Unmount *)
      cbn [Interleaved.step]. rewrite Hc.
      destruct (Hpiece unmountCleanup (timers_from_unmount _))
        as (_ & [Hfl' _] & _ & _ & Hw').
      split; [|now apply settled_remove].
      unfold Interleaved.flat, Interleaved.mounted.
      cbn [Interleaved.remove Interleaved.window Interleaved.current].
      rewrite Hw'. reflexivity.
    + (* Reload *)
      split; [reflexivity|]. split; [reflexivity|]. intros j Hj. discriminate Hj.
    + (* Tick *)
      cbn [step mounted page_browser].
      destruct (timers (Interleaved.window p) !! handle) as [iv|] eqn:Hiv.
      * assert (H1 : Interleaved.step (Interleaved.Tick handle) p =
                     Interleaved.await (Interleaved.StatusFlight i (callback iv))
                       (Interleaved.run_on i
                          (Interleaved.checkJobStatus_request (callback iv)) p))
          by (cbn [Interleaved.step]; now rewrite Hiv, (Hcl _ _ Hiv)).
        rewrite H1.
        destruct (Hpiece (Interleaved.checkJobStatus_request (callback iv))
                    (timers_from_request _ _))
          as (_ & Hset1 & Hc1 & Hs1 & Hw1).
        rewrite (settled_await_answered _ _ _ _ Hset1).
        destruct (run_on_settled i
                    (Interleaved.checkJobStatus_resume (callback iv) poll)
                    _ _ Hset1 Hc1 Hs1) as (Hflat2 & Hset2 & _).
        { rewrite Hw1, World_eta. apply timers_from_resume. }
        rewrite Hw1, World_eta in Hflat2.
        split; [exact Hflat2|exact Hset2].
      * assert (H1 : Interleaved.step (Interleaved.Tick handle) p = p)
          by (cbn [Interleaved.step]; now rewrite Hiv).
        rewrite H1, Hno_status, Hflat. split; [reflexivity|exact Hset].
    + (* ClickRun *)
      cbn [step mounted page_browser].
      destruct (isRunning s) eqn:Hrun.
      * assert (H1 : Interleaved.step Interleaved.ClickRun p = p)
          by (cbn [Interleaved.step]; now rewrite Hc, Hm, Hrun).
        rewrite H1, Hno_start, Hno_status, Hflat.
        split; [reflexivity|exact Hset].
      * assert (H1 : Interleaved.step Interleaved.ClickRun p =
                     Interleaved.await (Interleaved.StartFlight i)
                       (Interleaved.run_on i
                          Interleaved.handleRunBacktest_request p))
          by (cbn [Interleaved.step]; now rewrite Hc, Hm, Hrun).
        rewrite H1.
        destruct (Hpiece Interleaved.handleRunBacktest_request
                    (timers_from_run_request _))
          as (_ & Hset1 & Hc1 & Hs1 & Hw1).
        rewrite (start_answered_at_once _ _ _ (proj1 Hset1)). cbn zeta.
        destruct (run_on_settled i
                    (Interleaved.handleRunBacktest_resume submission)
                    _ _ Hset1 Hc1 Hs1) as (Hflat2 & Hset2 & Hc2 & Hs2 & Hw2).
        { rewrite Hw1, World_eta. apply timers_from_run_resume. }
        rewrite Hw1, World_eta in Hflat2, Hs2, Hw2.
        rewrite handleRunBacktest_cut. cbn zeta.
        destruct submission as [response|msg].
        -- rewrite (settled_await_answered _ _ _ _ Hset2).
           destruct (run_on_settled i
                       (Interleaved.checkJobStatus_resume (job_id response) poll)
                       _ _ Hset2 Hc2 Hs2) as (Hflat3 & Hset3 & _).
           { rewrite Hw2, World_eta. apply timers_from_resume. }
           rewrite Hw2, World_eta in Hflat3.
           split; [exact Hflat3|exact Hset3].
        -- rewrite (proj1 (nothing_to_answer _ (proj1 Hset2))).
           split; [exact Hflat2|exact Hset2].
    + (* ClickCancel *)
      cbn [step mounted page_browser Interleaved.step]. rewrite Hc, Hm.
      destruct (isRunning s); [|now rewrite Hflat].
      destruct (Hpiece handleCancel (timers_from_cancel _)) as (H1 & H2 & _).
      split; [exact H1|exact H2].
    + (* SelectFreq *)
      cbn [step mounted page_browser Interleaved.step]. rewrite Hc, Hm.
      destruct (isRunning s); [now rewrite Hflat|].
      destruct (Hpiece (setFreq value) (timers_from_on_view _ _)) as (H1 & H2 & _).
      split; [exact H1|exact H2].
    + (* ChangeStartDate *)
      cbn [step mounted page_browser Interleaved.step]. rewrite Hc, Hm.
      destruct (isRunning s); [now rewrite Hflat|].
      destruct (Hpiece (setStartDate value) (timers_from_on_view _ _))
        as (H1 & H2 & _).
      split; [exact H1|exact H2].
    + (* ChangeEndDate *)
      cbn [step mounted page_browser Interleaved.step]. rewrite Hc, Hm.
      destruct (isRunning s); [now rewrite Hflat|].
      destruct (Hpiece (setEndDate value) (timers_from_on_view _ _))
        as (H1 & H2 & _).
      split; [exact H1|exact H2].
  - assert (Hflat : Interleaved.flat p =
                    {| page_browser := Interleaved.window p; mounted := None |})
      by (unfold Interleaved.flat, Interleaved.mounted; now rewrite Hc).
    rewrite Hflat in *.
    assert (Ht : timers (Interleaved.window p) = ∅) by exact Htr.
    assert (Hidle : forall e', Interleaved.step e' p = p ->
              forall o,
              Interleaved.flat
                (Interleaved.step (Interleaved.StatusAnswered 0 o)
                   (Interleaved.step e' p)) =
              {| page_browser := Interleaved.window p; mounted := None |}
              /\ Interleaved.settled
                   (Interleaved.step (Interleaved.StatusAnswered 0 o)
                      (Interleaved.step e' p))).
    { intros e' He' o. rewrite He', Hno_status, Hflat. now split. }
    destruct e; cbn [Interleaved.at_once Interleaved.run fold_left];
      cbn [step mounted page_browser].
    + (* Mount *)
      set (p0 := Interleaved.render defaultStart defaultEnd p).
      set (i := List.length (Interleaved.instances p)).
      assert (Hc0 : Interleaved.current p0 = Some i) by reflexivity.
      assert (Hs0 : Interleaved.instances p0 !! i
                    = Some (initialState defaultStart defaultEnd)).
      { subst p0 i. cbn [Interleaved.render Interleaved.instances].
        apply lookup_snoc_Some. right. split; reflexivity. }
      assert (Hset0 : Interleaved.settled p0).
      { split; [exact Hfl|]. intros j Hj. rewrite Hc0 in Hj. injection Hj as <-.
        split; [eauto|]. intros h iv Hh.
        change (Interleaved.window p0) with (Interleaved.window p) in Hh.
        rewrite Ht, lookup_empty in Hh. discriminate Hh. }
      assert (Hflat0 : Interleaved.flat p0 =
                       page_of {| browser := Interleaved.window p;
                                  view := initialState defaultStart defaultEnd |})
        by (rewrite (flat_current p0 i _ Hc0 Hs0); reflexivity).
      unfold mountEffect. cbn [browser view].
      assert (H1 : Interleaved.step
                     (Interleaved.Mount defaultStart defaultEnd) p =
                   match Js.getItem JOB_STORAGE_KEY
                           (localStorage (Interleaved.window p)) with
                   | Some storedJobId =>
                       if Js.truthy storedJobId then
                         Interleaved.await (Interleaved.StatusFlight i storedJobId)
                           (Interleaved.run_on i
                              (fun w => Interleaved.checkJobStatus_request
                                          storedJobId
                                          (setJobId (Some storedJobId) w)) p0)
                       else p0
                   | None => p0
                   end)
        by (cbn [Interleaved.step]; now rewrite Hc).
      rewrite H1.
      destruct (Js.getItem JOB_STORAGE_KEY (localStorage (Interleaved.window p)))
        as [stored|];
        [destruct (Js.truthy stored)|];
        try (rewrite (proj1 (nothing_to_answer _ (proj1 Hset0)));
             split; [exact Hflat0|exact Hset0]).
      destruct (run_on_settled i
                  (fun w => Interleaved.checkJobStatus_request stored
                              (setJobId (Some stored) w))
                  p0 _ Hset0 Hc0 Hs0) as (_ & Hset1 & Hc1 & Hs1 & Hw1).
      { intros h iv H. left. exact H. }
      rewrite (settled_await_answered _ _ _ _ Hset1).
      destruct (run_on_settled i
                  (Interleaved.checkJobStatus_resume stored poll)
                  _ _ Hset1 Hc1 Hs1) as (Hflat2 & Hset2 & _).
      { rewrite Hw1, World_eta. apply timers_from_resume. }
      rewrite Hw1, World_eta in Hflat2.
      split; [exact Hflat2|exact Hset2].
    + (* Unmount *)
      cbn [Interleaved.step]. rewrite Hc, Hflat. now split.
    + (* Reload *)
      split; [reflexivity|]. split; [reflexivity|]. intros j Hj. discriminate Hj.
    + (* Tick *)
      apply Hidle. cbn [Interleaved.step]. now rewrite Ht, lookup_empty.
    + (* ClickRun *)
      assert (H1 : Interleaved.step Interleaved.ClickRun p = p)
        by (cbn [Interleaved.step]; now rewrite Hc).
      rewrite H1, Hno_start, Hno_status, Hflat. now split.
    + cbn [Interleaved.step]. rewrite Hc, Hflat. now split.
    + cbn [Interleaved.step]. rewrite Hc, Hflat. now split.
    + cbn [Interleaved.step]. rewrite Hc, Hflat. now split.
    + cbn [Interleaved.step]. rewrite Hc, Hflat. now split.
Qed.

Lemma interleaved_run_app events1 events2 p :
  Interleaved.run (events1 ++ events2) p =
  Interleaved.run events2 (Interleaved.run events1 p).
Proof. unfold Interleaved.run. apply fold_left_app. Qed.

(** The one-step model is the interleaved model under the schedule in
    which every request is answered before the next event of the page. *)
Lemma one_step_is_answered_at_once (events : list Event) :
  Interleaved.flat
    (Interleaved.run (Interleaved.schedule events) Interleaved.freshPage)
    = run events freshPage
  /\ Interleaved.settled
       (Interleaved.run (Interleaved.schedule events) Interleaved.freshPage).
Proof.
  induction events as [|e events [IH1 IH2]] using rev_ind.
  - split; [reflexivity|]. split; [reflexivity|]. intros i Hi. discriminate Hi.
  - unfold Interleaved.schedule.
    rewrite map_app, concat_app, interleaved_run_app. cbn [map concat].
    rewrite app_nil_r, run_app.
    fold (Interleaved.schedule events).
    destruct (at_once_step e _ IH2) as [H1 H2].
    + rewrite IH1. apply reachable_tracked.
    + rewrite H1, IH1. now split.
Qed.

(** *** Answers that arrive late *)

(** The first status check of a job is answered with running after the
    user has cancelled: the view polls again, with nothing stored. *)
Example late_answer_after_cancel :
  let p := Interleaved.run
             [Interleaved.Mount "2024-01-01" "2024-03-31"; Interleaved.ClickRun;
              Interleaved.StartAnswered 0 (Resolved (start_answer "job-1"));
              Interleaved.ClickCancel;
              Interleaved.StatusAnswered 0
                (Resolved (status_answer "job-1" running None))]
             Interleaved.freshPage in
  timers (Interleaved.window p) !! 1%positive =
    Some {| callback := "job-1"; delay := 2000 |}
  /\ localStorage (Interleaved.window p) !! JOB_STORAGE_KEY = None
  /\ Interleaved.inflight p = []
  /\ exists s, Interleaved.mounted p = Some s
               /\ jobStatus s = Some running
               /\ pollIntervalRef s = Some 1%positive.
Proof. vm_compute. repeat split. eexists. repeat split. Qed.

(** The same answer after the view has been left, and a return to the
    view: two timers poll the job. *)
Example late_answer_after_unmount :
  let answer := Interleaved.StatusAnswered 0
                  (Resolved (status_answer "job-1" running None)) in
  let p := Interleaved.run
             [Interleaved.Mount "2024-01-01" "2024-03-31"; Interleaved.ClickRun;
              Interleaved.StartAnswered 0 (Resolved (start_answer "job-1"));
              Interleaved.Unmount; answer;
              Interleaved.Mount "2024-01-01" "2024-03-31"; answer]
             Interleaved.freshPage in
  timers (Interleaved.window p) !! 1%positive =
    Some {| callback := "job-1"; delay := 2000 |}
  /\ timers (Interleaved.window p) !! 2%positive =
       Some {| callback := "job-1"; delay := 2000 |}
  /\ exists s, Interleaved.mounted p = Some s
               /\ pollIntervalRef s = Some 2%positive.
Proof. vm_compute. repeat split. eexists. repeat split. Qed.


(** What [handleCancel] leaves. *)
Lemma handleCancel_effects w :
  let w' := handleCancel w in
  pollIntervalRef (view w') = None
  /\ jobStatus (view w') = None
  /\ localStorage (browser w') = delete JOB_STORAGE_KEY (localStorage (browser w))
  /\ next_handle (browser w') = next_handle (browser w)
  /\ network (browser w') = network (browser w).
Proof. split_records. run_handlers. case_ref; repeat split. Qed.

(** The continuation of a status check that observes pending or running,
    in an instance whose [pollIntervalRef] is empty. *)
Lemma resume_sets_interval id st w :
  pollIntervalRef (view w) = None -> in_progress st = true ->
  let w' := Interleaved.checkJobStatus_resume id (Resolved st) w in
  pollIntervalRef (view w') = Some (next_handle (browser w))
  /\ timers (browser w') =
       <[next_handle (browser w) := {| callback := id; delay := 2000 |}]>
         (timers (browser w))
  /\ next_handle (browser w') = Pos.succ (next_handle (browser w))
  /\ jobStatus (view w') = Some (status st)
  /\ localStorage (browser w') = localStorage (browser w)
  /\ network (browser w') = network (browser w).
Proof.
  intros Href Hprog. unfold in_progress in Hprog. split_records.
  cbv [Interleaved.checkJobStatus_resume]. run_handlers. subst.
  destruct (status st); try discriminate; repeat split.
Qed.

(** A tick of a timer sends the status request of the job its callback
    holds. *)
Lemma tick_sends h iv i p :
  timers (Interleaved.window p) !! h = Some iv ->
  Interleaved.closures p !! h = Some i ->
  is_Some (Interleaved.instances p !! i) ->
  network (Interleaved.window (Interleaved.step (Interleaved.Tick h) p)) =
  network (Interleaved.window p) ++ [GetBacktestStatus (callback iv)].
Proof.
  intros Ht Hcl [s Hs]. cbn [Interleaved.step]. rewrite Ht, Hcl.
  unfold Interleaved.await, Interleaved.run_on. rewrite Hs.
  reflexivity.
Qed.

(** X26.  An answer that arrives after the cancel click undoes the
    cancel.  While the view is running and a status check of a job is in
    flight, the click leaves the view not running, its interval handle
    empty and no job id stored, and sends nothing; when the check is then
    answered with pending or running, the view is running again and a new
    interval of 2000 milliseconds polls the job, although no job id is
    stored any more. *)
Theorem answer_after_cancel_resumes_polling
    (p : Interleaved.Page) (i n : nat) (s : State) (id : string)
    (st : JobStatusResponse) :
  Interleaved.current p = Some i ->
  Interleaved.instances p !! i = Some s ->
  isRunning s = true ->
  Interleaved.inflight p !! n = Some (Interleaved.StatusFlight i id) ->
  in_progress st = true ->
  let cancelled := Interleaved.step Interleaved.ClickCancel p in
  let p' := Interleaved.step (Interleaved.StatusAnswered n (Resolved st))
              cancelled in
  let handle := next_handle (Interleaved.window p) in
  (exists s1, Interleaved.mounted cancelled = Some s1
              /\ isRunning s1 = false /\ pollIntervalRef s1 = None)
  /\ localStorage (Interleaved.window cancelled) !! JOB_STORAGE_KEY = None
  /\ network (Interleaved.window cancelled) = network (Interleaved.window p)
  /\ (exists s', Interleaved.mounted p' = Some s'
                 /\ isRunning s' = true
                 /\ jobStatus s' = Some (status st)
                 /\ pollIntervalRef s' = Some handle)
  /\ timers (Interleaved.window p') !! handle =
       Some {| callback := id; delay := 2000 |}
  /\ localStorage (Interleaved.window p') !! JOB_STORAGE_KEY = None
  /\ network (Interleaved.window (Interleaved.step (Interleaved.Tick handle) p'))
     = network (Interleaved.window p') ++ [GetBacktestStatus id].
Proof.
  intros Hc Hs Hrun Hn Hprog cancelled p' handle.
  assert (Hm : Interleaved.mounted p = Some s)
    by (unfold Interleaved.mounted; now rewrite Hc).
  set (w0 := {| browser := Interleaved.window p; view := s |}).
  destruct (handleCancel_effects w0) as (Hr1 & Hj1 & Hl1 & Hh1 & Hn1).
  cbn zeta in *.
  assert (Hcancelled : cancelled = Interleaved.run_on i handleCancel p)
    by (subst cancelled; cbn [Interleaved.step]; now rewrite Hc, Hm, Hrun).
  rewrite (run_on_current i handleCancel p s Hc Hs) in Hcancelled.
  fold w0 in Hcancelled.
  assert (Hlt : i < List.length (Interleaved.instances p))
    by (eapply lookup_lt_Some; exact Hs).
  set (w1 := {| browser := browser (handleCancel w0);
                view := view (handleCancel w0) |}).
  destruct (resume_sets_interval id st w1 Hr1 Hprog)
    as (Hr2 & Ht2 & Hh2 & Hj2 & Hl2 & Hn2).
  cbn zeta in *.
  assert (Hp' : p' = Interleaved.run_on i
                       (Interleaved.checkJobStatus_resume id (Resolved st))
                       (Interleaved.answered n cancelled)).
  { subst p'. cbn [Interleaved.step]. rewrite Hcancelled at 1.
    cbn [Interleaved.inflight]. now rewrite Hn. }
  rewrite (run_on_current i _ _ (view (handleCancel w0))) in Hp';
    [|now rewrite Hcancelled
     |rewrite Hcancelled; cbn [Interleaved.answered Interleaved.instances];
      now apply list_lookup_insert_eq].
  assert (Hwin : Interleaved.window (Interleaved.answered n cancelled)
                 = browser (handleCancel w0)) by now rewrite Hcancelled.
  rewrite Hwin in Hp'. fold w1 in Hp'.
  assert (Hneq : Pos.eqb (next_handle (browser
                   (Interleaved.checkJobStatus_resume id (Resolved st) w1)))
                   (next_handle (browser (handleCancel w0))) = false).
  { rewrite Hh2. apply Pos.eqb_neq. cbn [w1 browser]. lia. }
  rewrite Hneq in Hp'.
  assert (Hhandle : next_handle (browser w1) = handle)
    by (cbn [w1 browser]; rewrite Hh1; reflexivity).
  rewrite Hhandle in *.
  split.
  { exists (view (handleCancel w0)). rewrite Hcancelled.
    unfold Interleaved.mounted.
    cbn [Interleaved.current Interleaved.instances].
    rewrite list_lookup_insert_eq by exact Hlt.
    split; [reflexivity|]. split; [|exact Hr1].
    unfold isRunning. now rewrite Hj1. }
  split.
  { rewrite Hcancelled. cbn [Interleaved.window]. rewrite Hl1.
    apply lookup_delete_eq. }
  split; [now rewrite Hcancelled|].
  split.
  { eexists. rewrite Hp'. unfold Interleaved.mounted.
    cbn [Interleaved.current Interleaved.instances].
    rewrite list_lookup_insert_eq
      by (rewrite Hcancelled; cbn [Interleaved.answered Interleaved.instances];
          now rewrite length_insert).
    split; [reflexivity|]. split; [|split; [exact Hj2|exact Hr2]].
    unfold isRunning. rewrite Hj2. unfold in_progress in Hprog.
    destruct (status st); congruence. }
  assert (Htimer : timers (Interleaved.window p') !! handle =
                   Some {| callback := id; delay := 2000 |}).
  { rewrite Hp'. cbn [Interleaved.window]. rewrite Ht2.
    apply lookup_insert_eq. }
  split; [exact Htimer|].
  split.
  { rewrite Hp'. cbn [Interleaved.window]. rewrite Hl2. cbn [w1 browser].
    rewrite Hl1. apply lookup_delete_eq. }
  apply (tick_sends handle _ i p' Htimer).
  - rewrite Hp'. cbn [Interleaved.closures]. rewrite Hcancelled.
    cbn [Interleaved.answered Interleaved.window]. rewrite Hh1.
    apply lookup_insert_eq.
  - rewrite Hp'. cbn [Interleaved.instances]. eexists.
    apply list_lookup_insert_eq.
    rewrite Hcancelled. cbn [Interleaved.answered Interleaved.instances].
    now rewrite length_insert.
Qed.

(** The theorem at a job whose first status check is in flight when the
    user cancels. *)
Lemma answer_after_cancel_witness :
  let p := Interleaved.run
             [Interleaved.Mount "2024-01-01" "2024-03-31"; Interleaved.ClickRun;
              Interleaved.StartAnswered 0 (Resolved (start_answer "job-1"))]
             Interleaved.freshPage in
  let late := Interleaved.StatusAnswered 0
                (Resolved (status_answer "job-1" running None)) in
  let p' := Interleaved.step late (Interleaved.step Interleaved.ClickCancel p) in
  timers (Interleaved.window p') !! 1%positive =
    Some {| callback := "job-1"; delay := 2000 |}
  /\ localStorage (Interleaved.window p') !! JOB_STORAGE_KEY = None.
Proof.
  intros p late p'.
  assert (H : exists s,
            Interleaved.current p = Some 0
            /\ Interleaved.instances p !! 0 = Some s
            /\ isRunning s = true
            /\ Interleaved.inflight p !! 0
               = Some (Interleaved.StatusFlight 0 "job-1")
            /\ next_handle (Interleaved.window p) = 1%positive)
    by (vm_compute; eexists; repeat split).
  destruct H as (s & Hc & Hs & Hrun & Hfl & Hh).
  destruct (answer_after_cancel_resumes_polling p 0 0 s "job-1"
              (status_answer "job-1" running None) Hc Hs Hrun Hfl eq_refl)
    as (_ & _ & _ & _ & Ht & Hl & _).
  rewrite Hh in Ht. split; [exact Ht|exact Hl].
Defined.







End PollingFacts.

(** ** The order of binary64 numbers *)

Section FloatOrder.

Lemma compare_cont_Eq_refl m : Pos.compare_cont Eq m m = Eq.
Proof. apply Pos.compare_refl. Qed.

(** Comparison on specification floats, as a comparison of integers where
    both are finite of one sign. *)
Ltac cmp_cases :=
  repeat match goal with
  | |- context [(?a ?= ?b)%Z] => destruct (Z.compare_spec a b)
  | H : context [(?a ?= ?b)%Z] |- _ => destruct (Z.compare_spec a b)
  | |- context [Pos.compare_cont Eq ?a ?b] =>
      change (Pos.compare_cont Eq a b) with (Pos.compare a b);
      destruct (Pos.compare_spec a b)
  | H : context [Pos.compare_cont Eq ?a ?b] |- _ =>
      change (Pos.compare_cont Eq a b) with (Pos.compare a b) in H;
      destruct (Pos.compare_spec a b)
  end.

Lemma SFleb_trans x y z :
  SFleb x y = true -> SFleb y z = true -> SFleb x z = true.
Proof.
  unfold SFleb, SFcompare.
  destruct x as [sx|sx| |sx mx ex], y as [sy|sy| |sy my ey],
    z as [sz|sz| |sz mz ez];
    try discriminate; try reflexivity;
    try destruct sx; try destruct sy; try destruct sz;
    try discriminate; try reflexivity;
    cmp_cases; subst; simpl; try discriminate; try reflexivity; try lia.
Qed.

Lemma SFleb_total x y :
  SFcompare x x <> None -> SFcompare y y <> None ->
  SFltb x y = false -> SFleb y x = true.
Proof.
  unfold SFleb, SFltb, SFcompare.
  destruct x as [sx|sx| |sx mx ex], y as [sy|sy| |sy my ey];
    try congruence; try reflexivity;
    try destruct sx; try destruct sy;
    try discriminate; try reflexivity;
    cmp_cases; subst; simpl; try discriminate; try reflexivity; try lia.
Qed.

Lemma SFeqb_iff x y :
  SFeqb x y = true <-> SFleb x y = true /\ SFleb y x = true.
Proof.
  unfold SFleb, SFeqb, SFcompare.
  destruct x as [sx|sx| |sx mx ex], y as [sy|sy| |sy my ey];
    try destruct sx; try destruct sy; simpl;
    cmp_cases; subst; simpl; split; try tauto; try (intros [? ?]); 
    try discriminate; try (split; reflexivity); try reflexivity; try lia.
Qed.

Lemma SFltb_leb x y : SFltb x y = true -> SFleb x y = true.
Proof.
  unfold SFleb, SFltb. destruct (SFcompare x y) as [[]|]; congruence.
Qed.

Lemma SFleb_refl x : SFcompare x x <> None -> SFleb x x = true.
Proof.
  unfold SFleb, SFcompare.
  destruct x as [sx|sx| |sx mx ex]; try congruence; try reflexivity;
    destruct sx; try reflexivity; rewrite Z.compare_refl;
    change (Pos.compare_cont Eq mx mx) with (Pos.compare mx mx);
    rewrite Pos.compare_refl; reflexivity.
Qed.

Lemma SFleb_not_nan x y :
  SFleb x y = true -> SFcompare x x <> None /\ SFcompare y y <> None.
Proof.
  unfold SFleb, SFcompare.
  destruct x as [sx|sx| |sx mx ex], y as [sy|sy| |sy my ey];
    try discriminate; split; congruence.
Qed.


(** The same facts on binary64 numbers. *)

Lemma is_nan_false x :
  is_nan x = false <-> SFcompare (Prim2SF x) (Prim2SF x) <> None.
Proof.
  unfold is_nan. rewrite FloatAxioms.eqb_spec. unfold SFeqb. split.
  - destruct (SFcompare (Prim2SF x) (Prim2SF x)) as [[]|]; simpl; congruence.
  - intros H. apply SFleb_refl in H. unfold SFleb in H.
    destruct (Prim2SF x) as [s|s| |s m e]; try discriminate; try reflexivity;
      simpl in *; destruct s; try reflexivity;
      rewrite Z.compare_refl;
      change (Pos.compare_cont Eq m m) with (Pos.compare m m);
      rewrite Pos.compare_refl; reflexivity.
Qed.

Lemma leb_trans x y z :
  PrimFloat.leb x y = true -> PrimFloat.leb y z = true ->
  PrimFloat.leb x z = true.
Proof. rewrite !leb_spec. apply SFleb_trans. Qed.

Lemma leb_total x y :
  is_nan x = false -> is_nan y = false ->
  PrimFloat.ltb x y = false -> PrimFloat.leb y x = true.
Proof.
  rewrite !is_nan_false, ltb_spec, leb_spec. apply SFleb_total.
Qed.

Lemma ltb_leb x y : PrimFloat.ltb x y = true -> PrimFloat.leb x y = true.
Proof. rewrite ltb_spec, leb_spec. apply SFltb_leb. Qed.

Lemma leb_refl x : is_nan x = false -> PrimFloat.leb x x = true.
Proof. rewrite is_nan_false, leb_spec. apply SFleb_refl. Qed.

Lemma eqb_iff x y :
  PrimFloat.eqb x y = true <->
  PrimFloat.leb x y = true /\ PrimFloat.leb y x = true.
Proof. rewrite FloatAxioms.eqb_spec, !leb_spec. apply SFeqb_iff. Qed.

Lemma leb_not_nan x y :
  PrimFloat.leb x y = true -> is_nan x = false /\ is_nan y = false.
Proof. rewrite leb_spec, !is_nan_false. apply SFleb_not_nan. Qed.


Lemma SFltb_leb_trans x y z :
  SFltb x y = true -> SFleb y z = true -> SFltb x z = true.
Proof.
  unfold SFleb, SFltb, SFcompare.
  destruct x as [sx|sx| |sx mx ex], y as [sy|sy| |sy my ey],
    z as [sz|sz| |sz mz ez];
    try discriminate; try reflexivity;
    try destruct sx; try destruct sy; try destruct sz;
    try discriminate; try reflexivity;
    cmp_cases; subst; simpl; try discriminate; try reflexivity; try lia.
Qed.

Lemma SFleb_ltb_trans x y z :
  SFleb x y = true -> SFltb y z = true -> SFltb x z = true.
Proof.
  unfold SFleb, SFltb, SFcompare.
  destruct x as [sx|sx| |sx mx ex], y as [sy|sy| |sy my ey],
    z as [sz|sz| |sz mz ez];
    try discriminate; try reflexivity;
    try destruct sx; try destruct sy; try destruct sz;
    try discriminate; try reflexivity;
    cmp_cases; subst; simpl; try discriminate; try reflexivity; try lia.
Qed.

Lemma SFltb_not_leb x y : SFltb x y = true -> SFleb y x = false.
Proof.
  unfold SFleb, SFltb, SFcompare.
  destruct x as [sx|sx| |sx mx ex], y as [sy|sy| |sy my ey];
    try discriminate; try reflexivity;
    try destruct sx; try destruct sy;
    try discriminate; try reflexivity;
    cmp_cases; subst; simpl; try discriminate; try reflexivity; try lia.
Qed.

Lemma ltb_leb_trans x y z :
  PrimFloat.ltb x y = true -> PrimFloat.leb y z = true ->
  PrimFloat.ltb x z = true.
Proof. rewrite !ltb_spec, leb_spec. apply SFltb_leb_trans. Qed.

Lemma leb_ltb_trans x y z :
  PrimFloat.leb x y = true -> PrimFloat.ltb y z = true ->
  PrimFloat.ltb x z = true.
Proof. rewrite !ltb_spec, leb_spec. apply SFleb_ltb_trans. Qed.

Lemma ltb_not_leb x y : PrimFloat.ltb x y = true -> PrimFloat.leb y x = false.
Proof. rewrite ltb_spec, leb_spec. apply SFltb_not_leb. Qed.

End FloatOrder.

(** ** PredictionMatrix: the dominant action of a row *)

Section MaxFacts.
Import PredictionMatrix.


Lemma max_step_bound a x :
  is_nan a = false -> is_nan x = false ->
  (Js.max_step a x = a \/ Js.max_step a x = x)
  /\ PrimFloat.leb a (Js.max_step a x) = true
  /\ PrimFloat.leb x (Js.max_step a x) = true.
Proof.
  intros Ha Hx. unfold Js.max_step. rewrite Ha, Hx. cbn [orb].
  destruct (is_zero x && negb (get_sign x) && is_zero a && get_sign a) eqn:Hz.
  - apply andb_prop in Hz as [Hz _]. apply andb_prop in Hz as [Hz Hza].
    apply andb_prop in Hz as [Hzx _].
    unfold is_zero in Hzx, Hza.
    apply eqb_iff in Hzx as [_ Hzx]. apply eqb_iff in Hza as [Hza _].
    split; [now right|]. split; [exact (leb_trans _ _ _ Hza Hzx)|now apply leb_refl].
  - destruct (PrimFloat.ltb a x) eqn:Hlt.
    + split; [now right|]. split; [now apply ltb_leb|now apply leb_refl].
    + split; [now left|]. split; [now apply leb_refl|now apply leb_total].
Qed.


Lemma fold_max_bound l a :
  is_nan a = false -> (forall q, In q l -> is_nan q = false) ->
  let r := fold_left Js.max_step l a in
  is_nan r = false
  /\ (r = a \/ In r l)
  /\ PrimFloat.leb a r = true
  /\ forall q, In q l -> PrimFloat.leb q r = true.
Proof.
  revert a. induction l as [|x l IH]; intros a Ha Hl; cbn [fold_left].
  - split; [exact Ha|]. split; [now left|]. split; [now apply leb_refl|].
    intros q [].
  - assert (Hx : is_nan x = false) by (apply Hl; now left).
    destruct (max_step_bound a x Ha Hx) as (Hsel & Hax & Hxx).
    assert (Hm : is_nan (Js.max_step a x) = false)
      by (destruct Hsel as [-> | ->]; assumption).
    destruct (IH (Js.max_step a x) Hm) as (Hr & Hin & Hle & Hall).
    { intros q Hq. apply Hl. now right. }
    split; [exact Hr|]. split.
    + destruct Hin as [Heq|Hin]; [|right; now right].
      rewrite Heq. destruct Hsel as [-> | ->]; [now left|right; now left].
    + split; [exact (leb_trans _ _ _ Hax Hle)|].
      intros q [<-|Hq]; [exact (leb_trans _ _ _ Hxx Hle)|now apply Hall].
Qed.

Lemma is_nan_eqb_l x y : is_nan x = true -> PrimFloat.eqb x y = false.
Proof.
  intros H. destruct (PrimFloat.eqb x y) eqn:E; [|reflexivity].
  apply eqb_iff in E as [E _]. apply leb_not_nan in E as [E _]. congruence.
Qed.




Lemma row_prob (strategy : list float) : map prob (row strategy) = strategy.
Proof.
  unfold row. rewrite map_map. cbn [prob]. apply map_id.
Qed.


Example row_single_maximum :
  map isDominant (row [0.2; 0.5; 0.3; 0]%float) = [false; true; false; false].
Proof. reflexivity. Qed.

Example row_tied_maximum :
  map isDominant (row [0.5; 0.5; 0; 0]%float) = [true; true; false; false].
Proof. reflexivity. Qed.

Example row_two_actions :
  map isDominant (row [0.35; 0.65]%float) = [false; true].
Proof. reflexivity. Qed.


(** The rows of the table are the rows of the parties' strategies. *)
Lemma tbody_rows (equilibrium : Types.NashEquilibrium) rows i party cells :
  tbody equilibrium = Some rows ->
  rows !! i = Some (party, cells) ->
  Types.parties equilibrium !! i = Some party
  /\ exists strategy,
       Types.strategies equilibrium !! i = Some strategy
       /\ cells = row strategy.
Proof.
  unfold tbody. intros Hm Hrow.
  apply mapM_Some in Hm.
  destruct (Forall2_lookup_r _ _ _ _ _ Hm Hrow) as ([j p] & Hj & Hf).
  apply list_lookup_imap_Some in Hj as (p' & Hp' & Heq).
  injection Heq as Hij Hpp. subst j p.
  destruct (Types.strategies equilibrium !! i) as [strategy|]; [|discriminate].
  injection Hf as Hparty Hcells. subst party cells. eauto.
Qed.

End MaxFacts.

(** ** SensitivityView: defaults *)

Section SensitivityFacts.
Import Client SensitivityView.

Example defaultNoiseLevels_values :
  defaultNoiseLevels =
  [0; 0.1; 0.2; 0.30000000000000004; 0.4; 0.5; 0.6000000000000001;
   0.7000000000000001; 0.8; 0.9; 1]%float.
Proof. reflexivity. Qed.

Lemma defaultNoiseLevels_lookup (i : nat) :
  (i <= 10)%nat ->
  defaultNoiseLevels !! i = Some (Js.of_nat i * 0.1)%float.
Proof.
  intros Hi. unfold defaultNoiseLevels.
  rewrite list_lookup_fmap, lookup_seq_lt by lia. reflexivity.
Qed.

(** C5.  With no noise levels supplied the analysis is requested without
    levels and runs with the default list of 11 levels, level [i] being
    [i * 0.1] from 0.0 to 1.0, which is also the list the view shows and
    keys its query by; the trial count starts at 100 and defaults to 100. *)
Theorem sensitivity_defaults :
  List.length defaultNoiseLevels = 11%nat
  /\ (forall i, (i <= 10)%nat ->
        defaultNoiseLevels !! i = Some (Js.of_nat i * 0.1)%float)
  /\ defaultNoiseLevels !! 0%nat = Some 0%float
  /\ defaultNoiseLevels !! 10%nat = Some 1%float
  /\ nRuns initialState = 100%float
  /\ noiseLevels initialState = []
  /\ (forall s, noiseLevels s = [] ->
        queryKeyLevels s = defaultNoiseLevels
        /\ queryFn s =
             PostSensitivityAnalysis {| noise_levels := None; n_runs := nRuns s |}
        /\ Spec.analysis_parameters
             {| noise_levels := None; n_runs := nRuns s |} =
           (defaultNoiseLevels, nRuns s))
  /\ queryFn initialState =
       PostSensitivityAnalysis {| noise_levels := None; n_runs := 100 |}
  /\ sensitivityApi.runAnalysis None None =
       PostSensitivityAnalysis {| noise_levels := None; n_runs := 100 |}
  /\ (forall parsed s,
        Js.truthy_number parsed = false -> nRuns (changeRuns parsed s) = 100%float)
  /\ (forall value parsed s,
        (forall n, In n parsed -> is_nan n = true) ->
        noiseLevels (handleCustomNoiseLevels value parsed s) = []).
Proof.
  split; [reflexivity|]. split; [exact defaultNoiseLevels_lookup|].
  split; [reflexivity|]. split; [reflexivity|].
  split; [reflexivity|]. split; [reflexivity|].
  split.
  { intros s Hs. unfold queryKeyLevels, queryFn. rewrite Hs. cbn [List.length].
    repeat split. }
  split; [reflexivity|]. split; [reflexivity|].
  split.
  { intros parsed s Hp. unfold changeRuns. cbn [nRuns]. now rewrite Hp. }
  intros value parsed s Hnan. unfold handleCustomNoiseLevels. cbn [noiseLevels].
  replace (List.filter (fun n => negb (is_nan n)) parsed) with (@nil float);
    [reflexivity|].
  induction parsed as [|n parsed IH]; [reflexivity|].
  cbn [List.filter]. rewrite (Hnan n) by now left. cbn [negb].
  apply IH. intros m Hm. apply Hnan. now right.
Qed.

End SensitivityFacts.

(** ** The equilibrium solver: probability vectors *)

Section SolverFacts.
Import Solver.
Local Open Scope Q_scope.

(** Cases on which actions of the catalog an actor is allowed. *)
Ltac case_allowed row :=
  destruct (allowed row Hawkish) eqn:?, (allowed row De_escalate) eqn:?,
           (allowed row Stimulus) eqn:?, (allowed row Military) eqn:?.

Lemma pure_sum (a : Action) : Qsum (map (pure a) catalog) == 1.
Proof. destruct a; reflexivity. Qed.

Lemma within_tolerance (x : Q) : x == 1 -> Qabs (x - 1) <= tolerance.
Proof. intros ->. discriminate. Qed.

Lemma probability_vector_pure (row : ActorPayoffs) (a : Action) :
  allowed row a = true -> probability_vector row (pure a).
Proof.
  intros Ha. split; [apply within_tolerance, pure_sum|].
  intros b Hb. unfold pure.
  destruct a, b; try reflexivity; congruence.
Qed.

Lemma probability_vector_uniform (row : ActorPayoffs) :
  valid_actor row = true -> probability_vector row (uniform row).
Proof.
  intros Hv. split.
  - apply within_tolerance.
    unfold valid_actor in Hv. unfold uniform, allowed_count, catalog in *.
    cbn [existsb List.filter map] in *.
    case_allowed row; try discriminate; reflexivity.
  - intros a Ha. unfold uniform. now rewrite Ha.
Qed.

Lemma better_allowed (row : ActorPayoffs) (best : option Action) (a : Action) :
  (forall b, best = Some b -> allowed row b = true) ->
  forall c, better row best a = Some c -> allowed row c = true.
Proof.
  intros Hbest c. unfold better.
  destruct (allowed row a) eqn:Ha; [|apply Hbest].
  destruct best as [b|]; [|now intros [= <-]].
  destruct (Qle_bool (payoff row a) (payoff row b)); intros [= <-];
    [now apply Hbest|exact Ha].
Qed.

Lemma best_action_allowed (row : ActorPayoffs) (a : Action) :
  best_action row = Some a -> allowed row a = true.
Proof.
  unfold best_action, catalog. cbn [fold_left].
  repeat apply better_allowed. discriminate.
Qed.

Lemma best_action_some (row : ActorPayoffs) :
  valid_actor row = true -> is_Some (best_action row).
Proof.
  unfold valid_actor, best_action, catalog, better. cbn [existsb fold_left].
  case_allowed row; intros Hv; try discriminate;
    repeat match goal with
    | |- context [Qle_bool ?x ?y] => destruct (Qle_bool x y)
    end; eauto.
Qed.

Lemma probability_vector_best_response (row : ActorPayoffs) (s : Strategy) :
  valid_actor row = true -> probability_vector row (best_response row s).
Proof.
  intros Hv. unfold best_response.
  destruct (best_action_some row Hv) as [a Ha]. rewrite Ha.
  apply probability_vector_pure, best_action_allowed, Ha.
Qed.

Lemma respond_vectors (P : PayoffMatrix) (profile : list Strategy) :
  valid P = true -> List.length profile = List.length P ->
  Forall2 probability_vector P (respond P profile).
Proof.
  revert profile. induction P as [|row P IH]; intros [|s profile] Hv Hlen;
    try discriminate; cbn [respond]; [constructor|].
  cbn [valid forallb] in Hv. apply andb_prop in Hv as [Hrow HP].
  constructor.
  - now apply probability_vector_best_response.
  - apply IH; [exact HP|]. cbn [List.length] in Hlen. lia.
Qed.

(** The search keeps a probability vector for every actor. *)
Lemma search_vectors (n : nat) (P : PayoffMatrix) (profile : list Strategy)
    (done : nat) :
  valid P = true -> Forall2 probability_vector P profile ->
  Forall2 probability_vector P (search n P profile done).1.1.1.
Proof.
  intros Hv. revert profile done.
  induction n as [|n IH]; intros profile done Hp; cbn [search].
  - destruct (Qle_bool (largest_gain P profile) tolerance); exact Hp.
  - destruct (Qle_bool (largest_gain P profile) tolerance); [exact Hp|].
    apply IH. apply respond_vectors; [exact Hv|].
    symmetry. exact (Forall2_length _ _ _ Hp).
Qed.

Lemma uniform_vectors (P : PayoffMatrix) :
  valid P = true -> Forall2 probability_vector P (map uniform P).
Proof.
  induction P as [|row P IH]; intros Hv; [constructor|].
  cbn [valid forallb] in Hv. apply andb_prop in Hv as [Hrow HP].
  constructor; [now apply probability_vector_uniform|now apply IH].
Qed.

Lemma nash_vectors (kind : EquilibriumType) (n : nat) (P : PayoffMatrix) :
  valid P = true ->
  Forall2 probability_vector P (strategies (nash kind n P)).
Proof.
  intros Hv. unfold nash.
  pose proof (search_vectors n P (map uniform P) 0 Hv (uniform_vectors P Hv)) as H.
  destruct (search n P (map uniform P) 0) as [[[profile done] r] ok].
  exact H.
Qed.

End SolverFacts.

Section SolverTheorem.
Import Solver Samples.
Local Open Scope Q_scope.

Lemma bayesian_matrix_vectors params P profile :
  Forall2 probability_vector (bayesian_matrix params P) profile ->
  Forall2 probability_vector P profile.
Proof.
  unfold bayesian_matrix. intros H.
  apply Forall2_same_length_lookup. split.
  - rewrite <- (Forall2_length _ _ _ H). now rewrite length_imap.
  - intros i row s Hrow Hs.
    apply (Forall2_lookup_lr _ _ _ i
             (with_payoff row (fun a => expected_entry params i a (payoff row a))) s)
      in H; [exact H| |exact Hs].
    rewrite list_lookup_imap, Hrow. reflexivity.
Qed.

Lemma bayesian_matrix_valid params P :
  valid P = true -> valid (bayesian_matrix params P) = true.
Proof.
  unfold valid, bayesian_matrix. rewrite !forallb_forall.
  intros H row Hin.
  apply list_elem_of_In, list_elem_of_lookup in Hin as [i Hi].
  apply list_lookup_imap_Some in Hi as (row0 & Hrow0 & ->).
  apply (H row0). apply list_elem_of_In, list_elem_of_lookup. eauto.
Qed.

Lemma repeated_matrix_vectors params P profile :
  Forall2 probability_vector (repeated_matrix params P) profile ->
  Forall2 probability_vector P profile.
Proof.
  unfold repeated_matrix. intros H.
  apply (proj1 (Forall2_fmap_l _ _ _ _)) in H.
  eapply Forall2_impl; [exact H|]. intros row s Hs. exact Hs.
Qed.

Lemma repeated_matrix_valid params P :
  valid P = true -> valid (repeated_matrix params P) = true.
Proof.
  unfold valid, repeated_matrix. rewrite !forallb_forall.
  intros H row Hin. apply in_map_iff in Hin as (row0 & <- & Hin).
  exact (H row0 Hin).
Qed.

(** C8.  For every valid PayoffMatrix and every equilibrium type, the
    solver returns one probability vector per actor: it sums to 1 within
    the tolerance 1e-6 and is exactly zero on every action outside the
    actor's allowed set. *)
Theorem solver_returns_probability_vectors
    (kind : EquilibriumType) (params : Params) (P : PayoffMatrix) :
  valid P = true ->
  Forall2 probability_vector P (strategies (solve kind params P)).
Proof.
  intros Hv. destruct kind; cbn [solve].
  - now apply nash_vectors.
  - apply (bayesian_matrix_vectors params), nash_vectors.
    now apply bayesian_matrix_valid.
  - apply (repeated_matrix_vectors params), nash_vectors.
    now apply repeated_matrix_valid.
Qed.

Example solve_sample_nash :
  table (solve Nash Samples.sample_params Samples.sample_matrix) =
  [[1; 0; 0; 0]; [0; 1; 0; 0]; [0; 1; 0; 0]].
Proof. reflexivity. Qed.

Example solve_sample_not_converged :
  table (nash Nash 0 Samples.sample_matrix) =
    [[1 # 4; 1 # 4; 1 # 4; 1 # 4]; [1 # 3; 1 # 3; 1 # 3; 0]; [0; 1 # 2; 1 # 2; 0]]
  /\ converged (nash Nash 0 Samples.sample_matrix) = false.
Proof. split; reflexivity. Qed.

(** The solver theorem at the sample matrix, for the Bayesian variant. *)
Lemma solver_sample_witness :
  valid Samples.sample_matrix = true
  /\ Forall2 probability_vector Samples.sample_matrix
       (strategies (solve BayesianNash Samples.sample_params Samples.sample_matrix)).
Proof.
  split; [reflexivity|].
  apply (solver_returns_probability_vectors BayesianNash Samples.sample_params
           Samples.sample_matrix).
  reflexivity.
Defined.

End SolverTheorem.

(** ** Dates: the ISO string round trip *)

Section DateFacts.
Import JsDate.
Local Open Scope Z_scope.

Lemma char_digit_digit_char (d : Z) :
  0 <= d <= 9 -> char_digit (digit_char d) = Some d.
Proof.
  intros H.
  assert (Hd : d = 0 \/ d = 1 \/ d = 2 \/ d = 3 \/ d = 4 \/ d = 5 \/ d = 6
               \/ d = 7 \/ d = 8 \/ d = 9) by lia.
  repeat destruct Hd as [-> | Hd]; try reflexivity. subst. reflexivity.
Qed.

Lemma digit_char_not_sign (d : Z) (rest : string) :
  0 <= d <= 9 -> read_year (String (digit_char d) rest)
                 = read_digits 4 0 (String (digit_char d) rest).
Proof.
  intros H.
  assert (Hd : d = 0 \/ d = 1 \/ d = 2 \/ d = 3 \/ d = 4 \/ d = 5 \/ d = 6
               \/ d = 7 \/ d = 8 \/ d = 9) by lia.
  repeat destruct Hd as [-> | Hd]; try reflexivity. subst. reflexivity.
Qed.

Lemma append_String (c : ascii) (s rest : string) :
  String.append (String c s) rest = String c (String.append s rest).
Proof. reflexivity. Qed.

Lemma append_empty (rest : string) : String.append EmptyString rest = rest.
Proof. reflexivity. Qed.

(** Reading back a padded number. *)
Lemma read_digits_pad (w : nat) (n acc : Z) (rest : string) :
  0 <= n ->
  read_digits w acc (pad w n ++ rest)
  = Some (acc * 10 ^ Z.of_nat w + n mod 10 ^ Z.of_nat w, rest).
Proof.
  intros Hn. revert acc. induction w as [|w IH]; intros acc.
  - cbn [read_digits pad]. rewrite append_empty, Z.mod_1_r.
    f_equal. f_equal. cbn. lia.
  - cbn [read_digits pad]. rewrite append_String.
    rewrite char_digit_digit_char
      by (pose proof (Z.mod_pos_bound (n / 10 ^ Z.of_nat w) 10); lia).
    rewrite IH. f_equal. f_equal.
    rewrite Nat2Z.inj_succ, Z.pow_succ_r by lia.
    rewrite (Z.mul_comm 10), Z.rem_mul_r by lia. lia.
Qed.

Lemma read_digits_pad_small (w : nat) (n : Z) (rest : string) :
  0 <= n < 10 ^ Z.of_nat w ->
  read_digits w 0 (pad w n ++ rest) = Some (n, rest).
Proof.
  intros Hn. rewrite read_digits_pad by lia.
  rewrite Z.mod_small by lia. reflexivity.
Qed.


(** The calendar round trip, with the ranges of the date. *)
Lemma civil_round_trip (z : Z) :
  let '(y, m, d) := civil_from_days z in
  days_from_civil y m d = z
  /\ 1 <= m <= 12 /\ 1 <= d <= 31
  /\ 400 * ((z + 719468) / 146097) <= y <= 400 * ((z + 719468) / 146097) + 400.
Proof.
  unfold civil_from_days. cbv zeta.
  pose proof (Z.div_mod (z + 719468) 146097 ltac:(lia)) as Hz.
  pose proof (Z.mod_pos_bound (z + 719468) 146097 ltac:(lia)) as Hdoe.
  set (era := (z + 719468) / 146097) in *.
  set (doe := (z + 719468) mod 146097) in *.
  set (yoe := (doe - doe / 1460 + doe / 36524 - doe / 146096) / 365).
  assert (Hyoe : 0 <= yoe <= 399)
    by (subst yoe; Z.div_mod_to_equations; lia).
  set (doy := doe - (365 * yoe + yoe / 4 - yoe / 100)).
  assert (Hdoy : 0 <= doy <= 365)
    by (subst doy yoe; Z.div_mod_to_equations; lia).
  set (mp := (5 * doy + 2) / 153).
  assert (Hmp : 0 <= mp <= 11 /\ 1 <= doy - (153 * mp + 2) / 5 + 1 <= 31)
    by (subst mp; Z.div_mod_to_equations; lia).
  destruct Hmp as [Hmp Hd].
  assert (Hera : forall y', y' = yoe + era * 400 ->
                   y' / 400 = era /\ y' mod 400 = yoe).
  { intros y' ->. rewrite Z.div_add, Z.mod_add by lia.
    rewrite Z.div_small, Z.mod_small by lia. lia. }
  unfold days_from_civil. cbv zeta.
  destruct (Z.ltb_spec mp 10) as [Hlt|Hge].
  - destruct (Z.leb_spec (mp + 3) 2) as [Hm|Hm]; [lia|].
    destruct (Z.ltb_spec 2 (mp + 3)) as [Hm'|Hm']; [|lia].
    destruct (Hera (yoe + era * 400) eq_refl) as [-> ->].
    replace (mp + 3 - 3) with mp by lia.
    repeat split; lia.
  - destruct (Z.leb_spec (mp - 9) 2) as [Hm|Hm]; [|lia].
    destruct (Z.ltb_spec 2 (mp - 9)) as [Hm'|Hm']; [lia|].
    replace (yoe + era * 400 + 1 - 1) with (yoe + era * 400) by lia.
    destruct (Hera (yoe + era * 400) eq_refl) as [-> ->].
    replace (mp - 9 + 9) with mp by lia.
    repeat split; lia.
Qed.

Lemma expect_append (c : ascii) (rest : string) :
  expect c (String.append (String c EmptyString) rest) = Some rest.
Proof.
  rewrite append_String, append_empty. unfold expect.
  now rewrite Ascii.eqb_refl.
Qed.

Lemma expect_last (c : ascii) : expect c (String c EmptyString) = Some EmptyString.
Proof. unfold expect. now rewrite Ascii.eqb_refl. Qed.

Lemma read_year_string (y : Z) (rest : string) :
  -999999 <= y <= 999999 ->
  read_year (String.append (year_string y) rest) = Some (y, rest).
Proof.
  intros Hy. unfold year_string.
  destruct (Z.leb_spec 0 y) as [Hpos|Hneg]; cbn [andb].
  - destruct (Z.leb_spec y 9999) as [Hsmall|Hlarge].
    + change (pad 4 y) with
        (String (digit_char ((y / 10 ^ Z.of_nat 3) mod 10)) (pad 3 y)).
      rewrite append_String, digit_char_not_sign
        by (pose proof (Z.mod_pos_bound (y / 10 ^ Z.of_nat 3) 10); lia).
      rewrite <- append_String.
      change (String (digit_char ((y / 10 ^ Z.of_nat 3) mod 10)) (pad 3 y))
        with (pad 4 y).
      apply read_digits_pad_small. cbn. lia.
    + destruct (Z.ltb_spec y 0) as [?|_]; [lia|].
      rewrite append_String. cbn [read_year].
      rewrite read_digits_pad_small by (cbn; lia).
      f_equal. f_equal. lia.
  - destruct (Z.ltb_spec y 0) as [_|?]; [|lia].
    rewrite append_String. cbn [read_year].
    rewrite read_digits_pad_small by (cbn; lia).
    f_equal. f_equal. lia.
Qed.

(** [new Date(date.toISOString())] is the date again, for every valid
    time value. *)
Theorem parse_iso_string (t : Z) :
  - maxTime <= t <= maxTime -> parse (iso_string t) = Some t.
Proof.
  unfold maxTime. intros Ht. unfold iso_string.
  pose proof (civil_round_trip (t / msPerDay)) as Hc.
  pose proof (Z.div_mod t msPerDay ltac:(unfold msPerDay; lia)) as Hdm.
  pose proof (Z.mod_pos_bound t msPerDay ltac:(unfold msPerDay; lia)) as Hms.
  set (days := t / msPerDay) in *. set (ms := t mod msPerDay) in *.
  assert (Hdays : -100000000 <= days <= 100000000)
    by (unfold msPerDay in *; lia).
  destruct (civil_from_days days) as [[y m] d] eqn:Hcivil.
  destruct Hc as (Hback & Hm & Hd & Hy).
  assert (Hyear : -999999 <= y <= 999999)
    by (revert Hy; Z.div_mod_to_equations; lia).
  unfold msPerDay in *.
  unfold parse.
  rewrite read_year_string by exact Hyear. cbn [mbind option_bind].
  rewrite expect_append. cbn [mbind option_bind].
  rewrite read_digits_pad_small by (cbn; lia). cbn [mbind option_bind].
  rewrite expect_append. cbn [mbind option_bind].
  rewrite read_digits_pad_small by (cbn; lia). cbn [mbind option_bind].
  rewrite expect_append. cbn [mbind option_bind].
  rewrite read_digits_pad_small by (cbn; Z.div_mod_to_equations; lia).
  cbn [mbind option_bind].
  rewrite expect_append. cbn [mbind option_bind].
  rewrite read_digits_pad_small by (cbn; Z.div_mod_to_equations; lia).
  cbn [mbind option_bind].
  rewrite expect_append. cbn [mbind option_bind].
  rewrite read_digits_pad_small by (cbn; Z.div_mod_to_equations; lia).
  cbn [mbind option_bind].
  rewrite expect_append. cbn [mbind option_bind].
  rewrite read_digits_pad_small by (cbn; Z.div_mod_to_equations; lia).
  cbn [mbind option_bind].
  rewrite expect_last. cbn [mbind option_bind].
  rewrite Hback, Hcivil.
  rewrite bool_decide_eq_true_2 by reflexivity.
  change (String.eqb "" "") with true.
  destruct (Z.ltb_spec (ms / 3600000) 24) as [_|?];
    [|exfalso; Z.div_mod_to_equations; lia].
  destruct (Z.ltb_spec ((ms / 60000) mod 60) 60) as [_|?];
    [|exfalso; Z.div_mod_to_equations; lia].
  destruct (Z.ltb_spec ((ms / 1000) mod 60) 60) as [_|?];
    [|exfalso; Z.div_mod_to_equations; lia].
  cbn [andb]. unfold timeClip, maxTime, msPerDay.
  replace (days * 86400000 + ms / 3600000 * 3600000 + (ms / 60000) mod 60 * 60000
           + (ms / 1000) mod 60 * 1000 + ms mod 1000) with t
    by (Z.div_mod_to_equations; lia).
  destruct (Z.leb_spec (Z.abs t) 8640000000000000) as [_|?]; [reflexivity|lia].
Qed.

End DateFacts.

(** ** The application store: persistence *)

Section AppStoreFacts.
Import JsDate AppStore.

Lemma iso_string_truthy (t : Z) : Js.truthy (iso_string t) = true.
Proof.
  unfold iso_string. destruct (civil_from_days (t / msPerDay)) as [[y m] d].
  unfold year_string.
  destruct ((0 <=? y)%Z && (y <=? 9999)%Z); reflexivity.
Qed.

Lemma partialize_valid (s : AppState) (t : Z) :
  currentDate s = IsDate (Some t) ->
  partialize s =
  Some {| Persisted.currentDate := iso_string t;
          Persisted.activeView := activeView s;
          Persisted.useOptimizedModel := useOptimizedModel s |}.
Proof. intros H. unfold partialize. rewrite H. reflexivity. Qed.

(** What is saved depends on the three persisted fields alone. *)
Lemma partialize_fields (s1 s2 : AppState) :
  currentDate s1 = currentDate s2 -> activeView s1 = activeView s2 ->
  useOptimizedModel s1 = useOptimizedModel s2 ->
  partialize s1 = partialize s2.
Proof. intros H1 H2 H3. unfold partialize. now rewrite H1, H2, H3. Qed.

(** Whatever is stored, a new store starts with no selected country. *)
Lemma selectedCountry_rehydrated (now : Z) (stored : gmap string StorageValue) :
  selectedCountry (appState (create now stored)) = None.
Proof.
  unfold create, rehydrate. cbn [appState].
  destruct (stored !! name) as [value|]; [destruct (version value =? 0)%Z|];
    unfold merge, onRehydrateStorage;
    match goal with
    | |- context [truthy ?x] => destruct (truthy x)
    end; reflexivity.
Qed.

(** C9, amended.  The store saves the fields [currentDate], [activeView]
    and [useOptimizedModel] and nothing else.  After a state change that
    leaves a valid Date in [currentDate], and a reload, the three fields
    have the values they had before the reload, [currentDate] through its
    ISO string and [new Date], and [selectedCountry] is [null] whatever it
    was.  A state change that leaves an Invalid Date in [currentDate] is
    not saved, [partialize] throwing: the reload then restores what was
    saved before the change. *)
Theorem persisted_fields_round_trip
    (store : Store) (update : AppState -> AppState) (now : Z) :
  let s := update (appState store) in
  (valid_date (currentDate s) ->
   appState (reload now (set update store))
   = {| currentDate := currentDate s;
        activeView := activeView s;
        selectedCountry := None;
        useOptimizedModel := useOptimizedModel s |}
   /\ (forall stored country,
         setItem (setSelectedCountry country s) stored = setItem s stored)
   /\ (forall stored later, selectedCountry (appState (create later stored)) = None)
   /\ (exists iso,
         toISOString (new_Date (currentDate s)) = Some iso
         /\ storage (set update store) !! name =
              Some {| state := {| Persisted.currentDate := iso;
                                  Persisted.activeView := activeView s;
                                  Persisted.useOptimizedModel :=
                                    useOptimizedModel s |};
                      version := 0 |}
         /\ parse iso = new_Date (currentDate s)))
  /\ (currentDate s = IsDate None ->
      partialize s = None
      /\ storage (set update store) = storage store
      /\ appState (reload now (set update store)) = appState (reload now store)
      /\ selectedCountry (appState (reload now (set update store))) = None).
Proof.
  intros s. split.
  - intros (t & Hdate & Ht).
    split; [|split;
      [intros stored country; unfold setItem;
       now rewrite (partialize_fields (setSelectedCountry country s) s)
      |split; [intros stored later; apply selectedCountry_rehydrated|];
       exists (iso_string t); rewrite Hdate; cbn [new_Date toISOString];
       split; [reflexivity|]; split; [|now apply parse_iso_string];
       unfold set; cbn [storage]; fold s; unfold setItem;
       rewrite (partialize_valid s t Hdate); cbn [default from_option id];
       unfold id; apply lookup_insert_eq]].
    unfold reload, create, set. cbn [appState storage]. fold s.
    unfold setItem. rewrite (partialize_valid s t Hdate). cbn [default from_option id].
    unfold rehydrate. unfold id. rewrite lookup_insert_eq. cbn [version state Z.eqb].
    unfold merge, onRehydrateStorage.
    cbn [currentDate activeView selectedCountry useOptimizedModel
         Persisted.currentDate Persisted.activeView Persisted.useOptimizedModel
         initialState truthy new_Date].
    rewrite iso_string_truthy, parse_iso_string by exact Ht.
    now rewrite Hdate.
  - intros Hdate.
    assert (Hp : partialize s = None)
      by (unfold partialize; rewrite Hdate; reflexivity).
    assert (Hst : storage (set update store) = storage store).
    { unfold set. cbn [storage]. fold s. unfold setItem. now rewrite Hp. }
    split; [exact Hp|]. split; [exact Hst|].
    unfold reload. rewrite Hst. split; [reflexivity|].
    apply selectedCountry_rehydrated.
Qed.

(** C9, as stated, fails: once the date input of the dashboard has been
    cleared the store holds an Invalid Date and nothing is saved any more;
    a reload restores the state saved before, and none of the three fields
    has the value it had before the reload. *)
Lemma invalid_date_is_not_restored :
  let saved := Header.click sensitivity (create 1700000000000 ∅) in
  let store :=
    Header.click backtest
      (Dashboard.toggleModel false (Dashboard.changeDate "" saved)) in
  appState store
  = {| currentDate := IsDate None;
       activeView := backtest;
       selectedCountry := None;
       useOptimizedModel := false |}
  /\ appState (reload 1735689600000 store)
     = {| currentDate := IsDate (Some 1700000000000%Z);
          activeView := sensitivity;
          selectedCountry := None;
          useOptimizedModel := true |}.
Proof. vm_compute. split; reflexivity. Qed.

Example rehydrate_nothing_stored (now : Z) :
  appState (create now ∅) = initialState now.
Proof. reflexivity. Qed.

Example reload_sample :
  appState (reload 1735689600000
              (set (setSelectedCountry (Some "Japan"))
                 (set (setActiveView backtest)
                    (set (setCurrentDate (Some 1704067200123%Z))
                       (create 1700000000000 ∅)))))
  = {| currentDate := IsDate (Some 1704067200123%Z);
       activeView := backtest;
       selectedCountry := None;
       useOptimizedModel := true |}.
Proof. vm_compute. reflexivity. Qed.

(** An Invalid Date is not saved: the reload restores the last state that
    was. *)
Example invalid_date_not_saved :
  appState (reload 1735689600000
              (set (setCurrentDate None)
                 (set (setActiveView sensitivity) (create 1700000000000 ∅))))
  = {| currentDate := IsDate (Some 1700000000000%Z);
       activeView := sensitivity;
       selectedCountry := None;
       useOptimizedModel := true |}.
Proof. vm_compute. reflexivity. Qed.

(** The round trip theorem at a store whose user has picked a country and
    switched the model off. *)
Lemma persisted_fields_witness :
  appState (reload 1735689600000
              (set (setUseOptimizedModel false)
                 (set (setSelectedCountry (Some "Taiwan"))
                    (create 1704067200123 ∅))))
  = {| currentDate := IsDate (Some 1704067200123%Z);
       activeView := dashboard;
       selectedCountry := None;
       useOptimizedModel := false |}.
Proof.
  refine (proj1 (proj1 (persisted_fields_round_trip
           (set (setSelectedCountry (Some "Taiwan")) (create 1704067200123 ∅))
           (setUseOptimizedModel false) 1735689600000) _)).
  exists 1704067200123%Z. split; [reflexivity|]. unfold maxTime. lia.
Defined.

End AppStoreFacts.

(** ** BacktestView: the scenario chart *)

Section ScenarioFacts.
Import Client BacktestView.

(** X8.  The scenario chart has one bar per record, in the order and
    under the dates of the accuracy chart; each bar is either hawkish or
    de-escalating, never both and never neither, so the hawkish bars count
    the records predicted hawkish and the two series add up to the number
    of records. *)
Theorem scenario_bars_partition_the_records
    (format : string -> string) (data : JobResult) :
  let bars := scenarioData format (Some data) in
  map scenario_date bars = map point_date (chartData format (Some data))
  /\ Forall (fun bar => hawk bar + dove bar = 1) bars
  /\ list_sum (map hawk bars) =
       List.length (List.filter Types.hawk_dominant (results data))
  /\ list_sum (map hawk bars) + list_sum (map dove bars) =
       List.length (results data).
Proof.
  cbn zeta. unfold scenarioData, chartData.
  induction (results data) as [|r records (IH1 & IH2 & IH3 & IH4)].
  - repeat split. constructor.
  - cbn [map List.filter list_sum fold_right List.length
         scenario_date point_date hawk dove].
    fold (list_sum (map hawk (map (fun r0 =>
            {| scenario_date := format (Types.date r0);
               hawk := if Types.hawk_dominant r0 then 1 else 0;
               dove := if Types.hawk_dominant r0 then 0 else 1 |}) records))) in *.
    fold (list_sum (map dove (map (fun r0 =>
            {| scenario_date := format (Types.date r0);
               hawk := if Types.hawk_dominant r0 then 1 else 0;
               dove := if Types.hawk_dominant r0 then 0 else 1 |}) records))) in *.
    split; [now f_equal|]. split.
    + constructor; [|exact IH2]. cbn [hawk dove].
      now destruct (Types.hawk_dominant r).
    + destruct (Types.hawk_dominant r); cbn [List.length]; lia.
Qed.

End ScenarioFacts.

(** ** The legacy [runBacktest] of the client *)

Section LegacyRunFacts.
Import Client Client.backtestApi.

Lemma pollTick_cleared id o r : pollInterval r = None -> pollTick id o r = r.
Proof. intros H. unfold pollTick. now rewrite H. Qed.

Lemma fold_pollTick_cleared id polls r :
  pollInterval r = None ->
  fold_left (fun r o => pollTick id o r) polls r = r.
Proof.
  intros H. induction polls as [|o polls IH]; [reflexivity|].
  cbn [fold_left]. now rewrite pollTick_cleared.
Qed.

Lemma pollTick_undecided id o r d :
  pollInterval r = Some d -> verdict o = None ->
  pollTick id o r =
  {| sent := sent r ++ [getJobStatus id]; pollInterval := Some d;
     settled := settled r |}.
Proof.
  intros Hd Hv. unfold pollTick. rewrite Hd. unfold verdict in Hv.
  destruct o as [st|m]; [|discriminate].
  destruct (status st), (result st); try discriminate; reflexivity.
Qed.

Lemma pollTick_decided id o r d v :
  pollInterval r = Some d -> settled r = None -> verdict o = Some v ->
  pollTick id o r =
  {| sent := sent r ++ [getJobStatus id]; pollInterval := None;
     settled := Some v |}.
Proof.
  intros Hd Hs Hv. unfold pollTick. rewrite Hd. unfold verdict in Hv.
  destruct o as [st|m].
  - destruct (status st), (result st); try discriminate;
      injection Hv as <-; unfold settle, clearPollInterval;
      cbn [sent pollInterval settled]; now rewrite Hs.
  - injection Hv as <-. unfold settle, clearPollInterval.
    cbn [sent pollInterval settled]. now rewrite Hs.
Qed.

Lemma fold_pollTick_undecided id polls r d :
  pollInterval r = Some d ->
  Forall (fun o => verdict o = None) polls ->
  fold_left (fun r o => pollTick id o r) polls r =
  {| sent := sent r ++ replicate (List.length polls) (getJobStatus id);
     pollInterval := Some d; settled := settled r |}.
Proof.
  intros Hd Hall. revert r Hd.
  induction Hall as [|o polls Ho Hall IH]; intros r Hd.
  - cbn. rewrite app_nil_r. destruct r. cbn in Hd. now subst.
  - cbn [fold_left]. rewrite (pollTick_undecided id o r d Hd Ho).
    rewrite IH by reflexivity. cbn [sent settled List.length replicate].
    now rewrite <- app_assoc.
Qed.

(** The answers that decide nothing: pending, running, and completed
    without a result. *)
Lemma verdict_None_iff o :
  verdict o = None <->
  exists st, o = Resolved st /\
    (status st = pending \/ status st = running
     \/ (status st = completed /\ result st = None)).
Proof.
  split.
  - destruct o as [st|m]; [|discriminate]. unfold verdict.
    destruct (status st) eqn:Hs, (result st) eqn:Hr; try discriminate;
      intros _; exists st; split; try reflexivity; rewrite ?Hs, ?Hr; tauto.
  - intros (st & -> & H). unfold verdict.
    destruct H as [-> | [-> | [-> ->]]]; reflexivity.
Qed.

(** X9.  The promise of [runBacktest] settles at the first status answer
    that is completed with a result (its value), failed (rejected with the
    job's error, or with 'Backtest failed' when it has none) or a failed
    request (rejected with that error); the call has then posted the
    backtest once and asked for the status once per tick up to that answer,
    its timer is cleared, and no later answer changes the outcome or is
    asked for. *)
Theorem legacy_run_settles_at_first_deciding_answer
    (startDate endDate : string) (freq : option string)
    (response : StartResponse)
    (before after : list (Outcome JobStatusResponse))
    (o : Outcome JobStatusResponse) (v : Outcome JobResult) :
  Forall (fun o' => verdict o' = None) before ->
  verdict o = Some v ->
  let r := runBacktest startDate endDate freq (Resolved response)
             (before ++ o :: after) in
  settled r = Some v
  /\ pollInterval r = None
  /\ sent r =
       PostBacktest {| start_date := startDate; end_date := endDate;
                       Client.freq := default "W-FRI" freq |}
       :: replicate (S (List.length before))
            (GetBacktestStatus (job_id response)).
Proof.
  intros Hbefore Ho. cbn zeta. unfold runBacktest.
  rewrite fold_left_app. cbn [fold_left sent].
  rewrite fold_pollTick_undecided with (d := 1000%Z) (polls := before);
    [|reflexivity|exact Hbefore].
  cbn [sent settled].
  rewrite pollTick_decided with (d := 1000%Z) (v := v);
    [|reflexivity|reflexivity|exact Ho].
  rewrite fold_pollTick_cleared by reflexivity.
  cbn [sent settled pollInterval]. repeat split.
  unfold startBacktest, getJobStatus. cbn [default from_option id app].
  now rewrite <- replicate_S_end.
Qed.

(** The theorem at a job that is pending, then running, then completed
    with a result, and asked about no more. *)
Lemma legacy_run_witness :
  let done := Samples.status_answer "job-1" completed
                (Some (Samples.sample_result [])) in
  let r := runBacktest "2024-01-01" "2024-03-31" None
             (Resolved (Samples.start_answer "job-1"))
             ([Resolved (Samples.status_answer "job-1" pending None);
               Resolved (Samples.status_answer "job-1" running None)]
              ++ Resolved done
              :: [Resolved (Samples.status_answer "job-1" failed None)]) in
  settled r = Some (Resolved (Samples.sample_result []))
  /\ pollInterval r = None
  /\ List.length (sent r) = 4.
Proof.
  intros done r.
  destruct (legacy_run_settles_at_first_deciding_answer
              "2024-01-01" "2024-03-31" None (Samples.start_answer "job-1")
              [Resolved (Samples.status_answer "job-1" pending None);
               Resolved (Samples.status_answer "job-1" running None)]
              [Resolved (Samples.status_answer "job-1" failed None)]
              (Resolved done) (Resolved (Samples.sample_result [])))
    as (Hs & Hp & Hsent).
  - repeat constructor.
  - reflexivity.
  - split; [exact Hs|]. split; [exact Hp|]. fold r in Hsent. now rewrite Hsent.
Defined.

(** X10.  While the status answers are pending, running, or completed
    without a result, the promise of [runBacktest] stays unsettled and the
    timer, of 1000 milliseconds, stays set: each tick asks for the status
    again; a job reported completed without a result is polled without
    end.  A submission that fails rejects the promise with its error, and
    no timer is set and no status asked for. *)
Theorem legacy_run_polls_while_undecided
    (startDate endDate : string) (freq : option string) :
  (forall (response : StartResponse) (polls : list (Outcome JobStatusResponse)),
     (forall o, In o polls ->
        exists st, o = Resolved st /\
          (status st = pending \/ status st = running
           \/ (status st = completed /\ result st = None))) ->
     let r := runBacktest startDate endDate freq (Resolved response) polls in
     settled r = None
     /\ pollInterval r = Some 1000%Z
     /\ sent r =
          PostBacktest {| start_date := startDate; end_date := endDate;
                          Client.freq := default "W-FRI" freq |}
          :: replicate (List.length polls) (GetBacktestStatus (job_id response)))
  /\ (forall (message : string) (polls : list (Outcome JobStatusResponse)),
        let r := runBacktest startDate endDate freq (Rejected message) polls in
        settled r = Some (Rejected message)
        /\ pollInterval r = None
        /\ sent r =
             [PostBacktest {| start_date := startDate; end_date := endDate;
                              Client.freq := default "W-FRI" freq |}]).
Proof.
  split.
  - intros response polls Hall. cbn zeta. unfold runBacktest.
    rewrite fold_pollTick_undecided with (d := 1000%Z); [|reflexivity|].
    + repeat split.
    + apply List.Forall_forall. intros o Ho. apply verdict_None_iff. now apply Hall.
  - intros message polls. repeat split.
Qed.

End LegacyRunFacts.

(** ** SensitivityView: the request over time and the robustness metrics *)

Section RobustnessFacts.
Import Client SensitivityView.

Lemma step_well_formed (e : Event) (s : State) :
  Js.truthy_number (nRuns s) = true ->
  (forall x, In x (noiseLevels s) -> is_nan x = false) ->
  Js.truthy_number (nRuns (step e s)) = true
  /\ (forall x, In x (noiseLevels (step e s)) -> is_nan x = false).
Proof.
  intros Hruns Hlevels. destruct e as [parsed|value parsed]; cbn [step].
  - unfold changeRuns. cbn [nRuns noiseLevels]. split; [|exact Hlevels].
    destruct (Js.truthy_number parsed) eqn:Hp; [exact Hp|reflexivity].
  - unfold handleCustomNoiseLevels. cbn [nRuns noiseLevels].
    split; [exact Hruns|].
    destruct (0 <? _)%nat; [|intros x []].
    intros x Hx. apply List.filter_In in Hx as [_ Hx].
    now apply negb_true_iff in Hx.
Qed.

Lemma run_well_formed (events : list Event) (s : State) :
  Js.truthy_number (nRuns s) = true ->
  (forall x, In x (noiseLevels s) -> is_nan x = false) ->
  Js.truthy_number (nRuns (run events s)) = true
  /\ (forall x, In x (noiseLevels (run events s)) -> is_nan x = false).
Proof.
  revert s. induction events as [|e events IH]; intros s Hruns Hlevels;
    [now split|].
  destruct (step_well_formed e s Hruns Hlevels) as [Hr Hl].
  exact (IH (step e s) Hr Hl).
Qed.

(** X11.  Whatever is typed into the two inputs, the analysis the view
    requests has a trial count that is a number other than zero, and noise
    levels that are either left out, when the view holds none, or a
    non-empty list of numbers, the ones the view holds: never an empty list
    and never a [NaN]. *)
Theorem analysis_request_is_well_formed (events : list Event) :
  let s := run events initialState in
  exists levels runs,
    queryFn s =
      PostSensitivityAnalysis {| noise_levels := levels; n_runs := runs |}
    /\ runs = nRuns s
    /\ is_nan runs = false /\ is_zero runs = false
    /\ match levels with
       | Some l => l <> [] /\ l = noiseLevels s
                   /\ forall x, In x l -> is_nan x = false
       | None => noiseLevels s = []
       end.
Proof.
  intros s.
  destruct (run_well_formed events initialState eq_refl) as [Hruns Hlevels];
    [intros x []|].
  fold s in Hruns, Hlevels.
  unfold queryFn, sensitivityApi.runAnalysis. cbn [default from_option id].
  eexists _, _. split; [reflexivity|]. split; [reflexivity|].
  unfold Js.truthy_number in Hruns. apply negb_true_iff, orb_false_iff in Hruns.
  split; [apply Hruns|]. split; [apply Hruns|].
  destruct (noiseLevels s) as [|x l]; cbn [List.length Nat.ltb Nat.leb].
  - reflexivity.
  - split; [discriminate|]. split; [reflexivity|exact Hlevels].
Qed.

Lemma Math_max_gt_iff (l : list float) (t : float) :
  (forall q, In q l -> is_nan q = false) ->
  Js.gt neg_infinity t = false ->
  Js.gt (Js.Math_max l) t = true <-> exists q, In q l /\ Js.gt q t = true.
Proof.
  intros Hnn Hinf. unfold Js.gt, Js.Math_max in *.
  destruct (fold_max_bound l neg_infinity eq_refl Hnn) as (_ & Hin & _ & Hge).
  split.
  - intros Hgt. destruct Hin as [Heq|Hin]; [|eauto].
    rewrite Heq in Hgt. congruence.
  - intros (q & Hq & Hgt). exact (ltb_leb_trans _ _ _ Hgt (Hge q Hq)).
Qed.

Lemma maxNoise_gt_iff (stable : list Types.SensitivityResult) :
  (forall r, In r stable -> is_nan (Types.noise_level r) = false) ->
  Js.gt (maxNoise stable) 0.3%float = true <->
  exists r, In r stable /\ Js.gt (Types.noise_level r) 0.3%float = true.
Proof.
  intros Hnn. unfold maxNoise.
  destruct stable as [|r0 stable]; cbn [List.length Nat.ltb Nat.leb].
  - split; [discriminate|]. intros (r & [] & _).
  - rewrite Math_max_gt_iff; [| |reflexivity].
    + split.
      * intros (q & Hq & Hgt). apply in_map_iff in Hq as (r & <- & Hr). eauto.
      * intros (r & Hr & Hgt). exists (Types.noise_level r).
        split; [now apply in_map|exact Hgt].
    + intros q Hq. apply in_map_iff in Hq as (r & <- & Hr). now apply Hnn.
Qed.

(** X12.  The verdict "Robust" means that some result of the analysis at
    a noise level above 0.3 still gives the global hawk scenario, or the
    global de-escalation scenario, a probability above one half; the
    results at the noise levels below it are not looked at. *)
Theorem robust_iff_a_result_beyond_the_threshold_is_stable
    (results : list Types.SensitivityResult) (m : RobustnessMetrics) :
  (forall r, In r results -> is_nan (Types.noise_level r) = false) ->
  robustnessMetrics (Some results) = Some m ->
  isRobust m = true <->
  exists r,
    In r results
    /\ Js.gt (Types.noise_level r) 0.3%float = true
    /\ (Js.gt (Js.or_zero (Types.Global_Hawk_Scenario r)) 0.5%float = true
        \/ Js.gt (Js.or_zero (Types.Global_Deescalate_Scenario r)) 0.5%float
           = true).
Proof.
  intros Hnn [= <-]. cbn [isRobust]. rewrite orb_true_iff.
  rewrite !maxNoise_gt_iff.
  - unfold hawkStable, deescStable. split.
    + intros [(r & Hr & Hgt)|(r & Hr & Hgt)];
        apply List.filter_In in Hr as [Hr Hst]; exists r; tauto.
    + intros (r & Hr & Hgt & [Hst|Hst]);
        [left|right]; exists r; (split; [|exact Hgt]);
        apply List.filter_In; tauto.
  - intros r Hr. apply List.filter_In in Hr as [Hr _]. now apply Hnn.
  - intros r Hr. apply List.filter_In in Hr as [Hr _]. now apply Hnn.
Qed.

(** The theorem at an analysis of two noise levels. *)
Lemma robust_witness :
  let results := [Samples.sample_sensitivity 0 0.8 0.2;
                  Samples.sample_sensitivity 0.5 0.6 0.4]%float in
  exists m, robustnessMetrics (Some results) = Some m /\ isRobust m = true.
Proof.
  intros results. eexists. split; [reflexivity|].
  apply (proj2 (robust_iff_a_result_beyond_the_threshold_is_stable results _
                  ltac:(intros r [<-|[<-|[]]]; reflexivity) eq_refl)).
  exists (Samples.sample_sensitivity 0.5 0.6 0.4)%float.
  split; [right; left; reflexivity|]. split; [reflexivity|left; reflexivity].
Defined.

Lemma leb_neg_infinity (x : float) :
  PrimFloat.leb x neg_infinity = true -> x = neg_infinity.
Proof.
  rewrite leb_spec. intros H. apply Prim2SF_inj.
  change (Prim2SF neg_infinity) with (S754_infinity true) in *.
  unfold SFleb, SFcompare in H.
  destruct (Prim2SF x) as [s|s| |s m e]; try discriminate;
    destruct s; try discriminate; reflexivity.
Qed.

Lemma Math_max_attained (l : list float) :
  l <> [] -> (forall q, In q l -> is_nan q = false) ->
  In (Js.Math_max l) l.
Proof.
  intros Hne Hnn. unfold Js.Math_max.
  destruct (fold_max_bound l neg_infinity eq_refl Hnn) as (_ & Hin & _ & Hge).
  destruct Hin as [Heq|Hin]; [|exact Hin].
  destruct l as [|x l]; [contradiction|].
  rewrite Heq. left. apply leb_neg_infinity. rewrite <- Heq. apply Hge. now left.
Qed.

Lemma maxNoise_spec (stable : list Types.SensitivityResult) :
  (forall r, In r stable -> is_nan (Types.noise_level r) = false) ->
  (stable = [] -> maxNoise stable = 0%float)
  /\ (forall r, In r stable ->
        PrimFloat.leb (Types.noise_level r) (maxNoise stable) = true)
  /\ (stable <> [] ->
      exists r, In r stable /\ maxNoise stable = Types.noise_level r).
Proof.
  intros Hnn.
  assert (Hnn' : forall q, In q (map Types.noise_level stable) -> is_nan q = false).
  { intros q Hq. apply in_map_iff in Hq as (r & <- & Hr). now apply Hnn. }
  split; [intros ->; reflexivity|].
  unfold maxNoise. destruct stable as [|r0 stable]; [split; [intros r []|easy]|].
  cbn [List.length Nat.ltb Nat.leb]. split.
  - intros r Hr.
    destruct (fold_max_bound _ neg_infinity eq_refl Hnn') as (_ & _ & _ & Hge).
    apply Hge. now apply in_map.
  - intros _.
    pose proof (Math_max_attained (map Types.noise_level (r0 :: stable))
                  ltac:(discriminate) Hnn') as Hin.
    apply in_map_iff in Hin as (r & Heq & Hr). eauto.
Qed.

(** X13.  The "Hawk Robustness" figure is the largest noise level among
    the results that give the global hawk scenario a probability above one
    half, and 0 when there is none; likewise for de-escalation; and an
    analysis that returns no result shows 0 for every figure and the
    verdict "Sensitive". *)
Theorem max_noise_is_the_largest_stable_level
    (results : list Types.SensitivityResult) (m : RobustnessMetrics) :
  (forall r, In r results -> is_nan (Types.noise_level r) = false) ->
  robustnessMetrics (Some results) = Some m ->
  ((hawkStable results = [] -> maxNoiseHawk m = 0%float)
   /\ (forall r, In r (hawkStable results) ->
         PrimFloat.leb (Types.noise_level r) (maxNoiseHawk m) = true)
   /\ (hawkStable results <> [] ->
       exists r, In r (hawkStable results)
                 /\ maxNoiseHawk m = Types.noise_level r))
  /\ ((deescStable results = [] -> maxNoiseDeesc m = 0%float)
      /\ (forall r, In r (deescStable results) ->
            PrimFloat.leb (Types.noise_level r) (maxNoiseDeesc m) = true)
      /\ (deescStable results <> [] ->
          exists r, In r (deescStable results)
                    /\ maxNoiseDeesc m = Types.noise_level r))
  /\ (results = [] ->
      baselineHawk m = 0%float /\ baselineDeescalate m = 0%float
      /\ maxNoiseHawk m = 0%float /\ maxNoiseDeesc m = 0%float
      /\ isRobust m = false).
Proof.
  intros Hnn [= <-]. cbn [maxNoiseHawk maxNoiseDeesc baselineHawk
    baselineDeescalate isRobust].
  split; [|split].
  - apply maxNoise_spec. intros r Hr.
    apply List.filter_In in Hr as [Hr _]. now apply Hnn.
  - apply maxNoise_spec. intros r Hr.
    apply List.filter_In in Hr as [Hr _]. now apply Hnn.
  - intros ->. repeat split.
Qed.

(** The theorem at an analysis of two noise levels. *)
Lemma max_noise_witness :
  let results := [Samples.sample_sensitivity 0 0.8 0.2;
                  Samples.sample_sensitivity 0.5 0.6 0.4]%float in
  exists m,
    robustnessMetrics (Some results) = Some m
    /\ forall r, In r (hawkStable results) ->
         PrimFloat.leb (Types.noise_level r) (maxNoiseHawk m) = true.
Proof.
  intros results. eexists. split; [reflexivity|].
  exact (proj1 (proj2 (proj1
    (max_noise_is_the_largest_stable_level results _
       ltac:(intros r [<-|[<-|[]]]; reflexivity) eq_refl)))).
Defined.

End RobustnessFacts.

(** ** Dashboard: the market cards *)

Section DashboardFacts.
Import CountryMarketCard.

(** X14.  A country's index card shows 'N/A' for the price exactly when
    the predictions name no proxy for the country, hold no price under the
    proxy's symbol, or hold a price of 0; a country without a return in the
    market context is shown with a change of 0, which the card draws as a
    fall, without sign; and the cards, when they are rendered, are those of
    the five countries in their order. *)
Theorem country_card_price_is_NA_iff_not_available
    (predictions : Dashboard.Predictions) (country : string) :
  let props := Dashboard.card predictions country in
  (priceText props = Literal "N/A" <->
   forall proxies proxy values v,
     Dashboard.country_proxies predictions = Some proxies ->
     proxies !! country = Some proxy ->
     Dashboard.prices predictions = Some values ->
     values !! Types.symbol proxy = Some v ->
     Js.strict_eq v 0%float = true)
  /\ (Dashboard.market_context predictions !! country = None ->
      percentageChange props = 0%float
      /\ icon (percentageChange props) = ArrowDown
      /\ signPrefix (percentageChange props) = "")
  /\ (forall cards,
        Dashboard.countryCards (Some predictions) = Some cards ->
        map CountryMarketCard.country cards = Dashboard.countries
        /\ cards = map (Dashboard.card predictions) Dashboard.countries).
Proof.
  cbn zeta. split; [|split].
  - unfold priceText, Dashboard.card. cbn [price].
    rewrite formatPrice_NA_iff.
    destruct (Dashboard.country_proxies predictions) as [proxies|].
    + destruct (proxies !! country) as [proxy|] eqn:Hp.
      * destruct (Dashboard.prices predictions) as [values|].
        -- destruct (values !! Types.symbol proxy) as [v|] eqn:Hv.
           ++ split.
              ** intros [H|(v' & [= <-] & Hz)]; [discriminate|].
                 intros ps p vs v0 [= <-]. rewrite Hp. intros [= <-] [= <-].
                 rewrite Hv. now intros [= <-].
              ** intros H. right. exists v. split; [reflexivity|].
                 now apply (H proxies proxy values v).
           ++ split; [|now left].
              intros _ ps p vs v0 [= <-]. rewrite Hp. intros [= <-] [= <-].
              rewrite Hv. discriminate.
        -- split; [|now left]. intros _ ? ? ? ? _ _ H. discriminate H.
      * split; [|now left]. intros _ ps p vs v0 [= <-]. rewrite Hp. discriminate.
    + split; [|now left]. intros _ ? ? ? ? H. discriminate H.
  - intros Hnone. unfold Dashboard.card. cbn [percentageChange].
    rewrite Hnone. repeat split.
  - intros cards. unfold Dashboard.countryCards.
    destruct (Dashboard.prices predictions), (Dashboard.country_proxies predictions);
      try discriminate.
    intros [= <-]. split; reflexivity.
Qed.

(** X15.  The card of a financial index shows the return the market
    context holds under the index's own key, whatever it holds under the
    fallback key; a market context without the optional index entries
    shows the returns of the USA, Japan, Germany and Taiwan for the S&P
    500, the Nikkei 225, the DAX and the TAIEX, a missing return being
    shown as 0; Hang Seng and Gold, which have no fallback key, fall back
    to what is held under the empty key, and to 0 when nothing is; and the
    arrow each card draws agrees with the trend it is given. *)
Theorem financial_index_falls_back_to_its_country
    (marketContext : Types.MarketData) :
  (forall i v, marketContext !! FinancialIndices.key i = Some v ->
               FinancialIndices.value marketContext i = v)
  /\ ((forall k, In k ["SP500"; "Nikkei225"; "DAX"; "TAIEX"; "HangSeng"] ->
                 marketContext !! k = None) ->
      map MarketOverviewCard.value (FinancialIndices.cards marketContext) =
      map (fun k => Some (default 0%float (marketContext !! k)))
          ["USA"; "Japan"; "Germany"; "Taiwan"; ""]
      ++ [Some (default (default 0%float (marketContext !! ""))
                  (marketContext !! "Gold"))])
  /\ Forall (fun props =>
               MarketOverviewCard.trend props =
               Some (if MarketOverviewCard.isPositive (MarketOverviewCard.value props)
                     then MarketOverviewCard.up else MarketOverviewCard.down)
               /\ (MarketOverviewCard.icon (MarketOverviewCard.value props) = ArrowUp
                   <-> MarketOverviewCard.trend props = Some MarketOverviewCard.up))
            (FinancialIndices.cards marketContext).
Proof.
  split; [|split].
  - intros i v Hv. unfold FinancialIndices.value. now rewrite Hv.
  - intros Hnone.
    unfold FinancialIndices.cards, FinancialIndices.indices, FinancialIndices.value.
    cbn [map FinancialIndices.key FinancialIndices.fallbackKey
         MarketOverviewCard.value Client.or_default Client.or_string Js.truthy].
    rewrite (Hnone "SP500"), (Hnone "Nikkei225"), (Hnone "DAX"),
      (Hnone "TAIEX"), (Hnone "HangSeng") by (cbn; tauto).
    destruct (marketContext !! "USA"), (marketContext !! "Japan"),
      (marketContext !! "Germany"), (marketContext !! "Taiwan"),
      (marketContext !! ""), (marketContext !! "Gold"); reflexivity.
  - unfold FinancialIndices.cards. apply List.Forall_forall.
    intros props Hin. apply in_map_iff in Hin as (i & <- & _).
    cbn [MarketOverviewCard.trend MarketOverviewCard.value].
    unfold MarketOverviewCard.icon, MarketOverviewCard.isPositive,
      MarketOverviewCard.safeValue. cbn [default from_option id].
    unfold id. split; [reflexivity|].
    destruct (Js.gt _ _); split; congruence.
Qed.

End DashboardFacts.

(** ** Header and App: navigation *)

Section NavigationFacts.
Import JsDate AppStore.

(** A reload after a saved change of state restores the view. *)
Lemma activeView_reloaded (store : Store) (update : AppState -> AppState)
    (now t : Z) :
  currentDate (update (appState store)) = IsDate (Some t) ->
  activeView (appState (reload now (set update store)))
  = activeView (update (appState store)).
Proof.
  intros Hdate. unfold reload, create, set. cbn [appState storage].
  unfold setItem. rewrite (partialize_valid _ t Hdate).
  cbn [default from_option id]. unfold rehydrate, id.
  rewrite lookup_insert_eq. cbn [version state Z.eqb].
  unfold merge, onRehydrateStorage.
  cbn [currentDate activeView Persisted.currentDate Persisted.activeView truthy].
  now rewrite iso_string_truthy.
Qed.

(** X16.  A click on an item of the header makes the application render
    the view of that item and no other, and highlights that item and no
    other; every view has its item; and, the current date being a valid
    date, the view is still the one rendered after a reload of the page. *)
Theorem header_click_selects_the_view (store : Store) (id : View) :
  let store' := Header.click id store in
  App.main (appState store') =
    [match id with
     | dashboard => App.Dashboard
     | backtest => App.BacktestView
     | sensitivity => App.SensitivityView
     | historical => App.HistoricalView
     end]
  /\ (forall item label,
        In (item, label) Header.navItems ->
        (In (label, true) (Header.nav (appState store')) <-> item = id))
  /\ (exists label, In (id, label) Header.navItems)
  /\ (forall t now,
        currentDate (appState store) = IsDate (Some t) ->
        App.main (appState (reload now store')) = App.main (appState store')).
Proof.
  cbn zeta. unfold Header.click.
  assert (Hv : activeView (appState (set (setActiveView id) store)) = id)
    by reflexivity.
  split; [|split; [|split]].
  - unfold App.main. rewrite Hv. now destruct id.
  - intros item label Hin. unfold Header.nav. rewrite Hv.
    cbn in Hin.
    destruct Hin as [[= <- <-]|[[= <- <-]|[[= <- <-]|[[= <- <-]|[]]]]];
      destruct id; cbn; split; intros H;
      repeat match goal with
             | H : _ \/ _ |- _ => destruct H
             | H : (_, _) = (_, _) |- _ => discriminate H
             | H : False |- _ => destruct H
             | H : _ = _ :> View |- _ => discriminate H
             end; try reflexivity; tauto.
  - destruct id; eexists; cbn; eauto 6.
  - intros t now Hdate. unfold App.main.
    now rewrite (activeView_reloaded store (setActiveView id) now t Hdate).
Qed.

(** X17.  Clearing the date input of the dashboard puts an Invalid Date
    in the store, for which the format of the input's value throws; the
    change is not saved, nor is any change of the model toggle made after
    it, so that a reload of the page restores the state that was saved
    last. *)
Theorem cleared_date_is_not_saved (store : Store) :
  let cleared := Dashboard.changeDate "" store in
  currentDate (appState cleared) = IsDate None
  /\ (forall offset,
        Dashboard.dateInputValue offset (new_Date (currentDate (appState cleared)))
        = None)
  /\ partialize (appState cleared) = None
  /\ storage cleared = storage store
  /\ (forall checked,
        useOptimizedModel (appState (Dashboard.toggleModel checked cleared))
          = checked
        /\ storage (Dashboard.toggleModel checked cleared) = storage store)
  /\ (forall checked now,
        appState (reload now (Dashboard.toggleModel checked cleared))
          = appState (reload now store)).
Proof.
  cbn zeta. unfold Dashboard.changeDate, Dashboard.toggleModel, reload, set.
  cbn [appState storage]. unfold setItem, partialize.
  cbn [currentDate setCurrentDate setUseOptimizedModel toISOString parse_day].
  change (parse_day "") with (@None Z).
  cbn [toISOString default from_option id].
  repeat split.
Qed.

End NavigationFacts.

(** ** PredictionMatrix: the table body *)

Section TableFacts.
Import PredictionMatrix.

(** X18.  The table of predictions is rendered exactly when every party
    has a strategy vector, that is, when the equilibrium holds at least as
    many strategies as parties (the spread of a missing one throws); it has
    then one row per party, in the parties' order, the row of party [i]
    holding one cell per probability of strategy [i], and strategies beyond
    the last party are not shown. *)
Theorem prediction_table_needs_a_strategy_per_party
    (equilibrium : Types.NashEquilibrium) :
  (is_Some (tbody equilibrium) <->
   List.length (Types.parties equilibrium)
   <= List.length (Types.strategies equilibrium))
  /\ (forall rows,
        tbody equilibrium = Some rows ->
        map fst rows = Types.parties equilibrium
        /\ forall i party cells,
             rows !! i = Some (party, cells) ->
             exists strategy,
               Types.strategies equilibrium !! i = Some strategy
               /\ cells = row strategy
               /\ map prob cells = strategy).
Proof.
  split.
  - unfold tbody. rewrite mapM_is_Some, Forall_lookup. split.
    + intros H.
      destruct (Types.parties equilibrium) as [|p0 ps] eqn:Hps using rev_ind;
        [cbn; lia|].
      clear IHps.
      specialize (H (List.length ps) (List.length ps, p0)).
      rewrite list_lookup_imap, lookup_app_r, Nat.sub_diag in H by lia.
      specialize (H eq_refl). cbn in H.
      destruct (Types.strategies equilibrium !! List.length ps) eqn:Hl;
        [|now destruct H].
      apply lookup_lt_Some in Hl. rewrite length_app. cbn. lia.
    + intros Hlen i [j party] Hi.
      apply list_lookup_imap_Some in Hi as (party' & Hp & [= -> ->]).
      apply lookup_lt_Some in Hp.
      destruct (lookup_lt_is_Some_2 (Types.strategies equilibrium) i) as [st Hst];
        [lia|].
      cbn. rewrite Hst. eauto.
  - intros rows Hrows. split.
    + apply list_eq. intros i. rewrite list_lookup_fmap.
      destruct (rows !! i) as [[party cells]|] eqn:Hi.
      * destruct (tbody_rows equilibrium rows i party cells Hrows Hi) as [Hp _].
        now rewrite Hp.
      * unfold tbody in Hrows. apply length_mapM in Hrows.
        rewrite length_imap in Hrows.
        apply lookup_ge_None in Hi. symmetry. apply lookup_ge_None. cbn. lia.
    + intros i party cells Hi.
      destruct (tbody_rows equilibrium rows i party cells Hrows Hi)
        as (_ & strategy & Hs & ->).
      exists strategy. split; [exact Hs|]. split; [reflexivity|].
      apply row_prob.
Qed.

End TableFacts.

(** ** HistoricalView: the results table and the shared job *)

Section HistoricalFacts.
Import Client HistoricalView.

(** X19.  The table of the historical view holds the first 20 records,
    in order, and all of them when there are no more than 20; the notice
    under the table is shown exactly when records are left out. *)
Theorem historical_table_shows_the_first_twenty (data : JobResult) :
  List.length (tableRows data) = Nat.min 20 (List.length (results data))
  /\ (forall i, i < 20 -> tableRows data !! i = results data !! i)
  /\ (forall i, 20 <= i -> tableRows data !! i = None)
  /\ (showsNotice data = true <-> tableRows data <> results data)
  /\ (showsNotice data = false <-> tableRows data = results data).
Proof.
  unfold tableRows, showsNotice.
  assert (Heq : (20 <? List.length (results data))%nat = false <->
                take 20 (results data) = results data).
  { rewrite Nat.ltb_ge. split.
    - apply take_ge.
    - intros H. apply (f_equal List.length) in H.
      rewrite length_take in H. lia. }
  split; [apply length_take|].
  split; [intros i Hi; now apply lookup_take_lt|].
  split; [intros i Hi; now apply lookup_take_ge|].
  split; [|exact Heq].
  rewrite <- Heq. now destruct (20 <? _)%nat.
Qed.

End HistoricalFacts.

(** ** The job shared by the backtest view and the historical view *)

Section SharedJobFacts.
Import Client.

(** Splits the worlds of the historical view into their fields. *)
Ltac split_historical :=
  repeat match goal with
  | w : HistoricalView.World |- _ => destruct w as [? ?]
  | b : BacktestView.Browser |- _ => destruct b as [? ? ? ?]
  | s : HistoricalView.State |- _ => destruct s as [? ? ? ? ? ? ? ? ?]
  end.

(** Runs the handlers of the historical view on records given by their
    fields. *)
Ltac run_historical :=
  cbv [HistoricalView.mount HistoricalView.mountEffect
    HistoricalView.checkJobStatus HistoricalView.stopPolling
    HistoricalView.setInterval HistoricalView.clearInterval
    HistoricalView.localStorage_removeItem HistoricalView.localStorage_setItem
    HistoricalView.send HistoricalView.setPollIntervalRef
    HistoricalView.setError HistoricalView.setBacktestData
    HistoricalView.setJobStatus HistoricalView.setCurrentStep
    HistoricalView.setProgress HistoricalView.setJobId
    HistoricalView.on_view HistoricalView.on_browser
    HistoricalView.initialState HistoricalView.browser HistoricalView.view
    HistoricalView.startDate HistoricalView.endDate HistoricalView.jobId
    HistoricalView.progress HistoricalView.currentStep
    HistoricalView.jobStatus HistoricalView.backtestData
    HistoricalView.error HistoricalView.pollIntervalRef
    Js.getItem Js.setItem Js.removeItem backtestApi.getJobStatus
    BacktestView.localStorage BacktestView.timers BacktestView.next_handle
    BacktestView.network BacktestView.callback BacktestView.delay] in *.

(** The two views keep the job id under one key. *)
Lemma shared_storage_key :
  HistoricalView.JOB_STORAGE_KEY = BacktestView.JOB_STORAGE_KEY.
Proof. reflexivity. Qed.

(** What the unmount of the backtest view leaves in the browser. *)
Lemma unmount_browser (p : BacktestView.Page) :
  BacktestView.timers_tracked p ->
  let b := BacktestView.page_browser (BacktestView.step BacktestView.Unmount p) in
  BacktestView.timers b = ∅
  /\ BacktestView.localStorage b = BacktestView.localStorage (BacktestView.page_browser p)
  /\ BacktestView.network b = BacktestView.network (BacktestView.page_browser p)
  /\ BacktestView.mounted (BacktestView.step BacktestView.Unmount p) = None.
Proof.
  intros Htr. destruct p as [b0 [s|]].
  - unfold BacktestView.timers_tracked, BacktestView.activeInterval in Htr.
    cbn [BacktestView.mounted BacktestView.page_browser] in Htr.
    cbn [BacktestView.step BacktestView.mounted BacktestView.page_browser].
    unfold BacktestView.unmountCleanup, BacktestView.clearInterval,
      BacktestView.on_browser.
    cbn [BacktestView.view BacktestView.browser].
    destruct (BacktestView.pollIntervalRef s) as [h|].
    + destruct Htr as [id Htr].
      cbn [BacktestView.browser BacktestView.timers BacktestView.localStorage
           BacktestView.network].
      rewrite Htr, delete_singleton_eq. repeat split.
    + repeat split. exact Htr.
  - repeat split. exact Htr.
Qed.

(** What the mount of the historical view does in a browser without a
    timer that holds a job id. *)
Lemma historical_mount (ds de id : string) (poll : Outcome JobStatusResponse)
    (b : BacktestView.Browser) :
  BacktestView.timers b = ∅ ->
  BacktestView.localStorage b !! HistoricalView.JOB_STORAGE_KEY = Some id ->
  Js.truthy id = true ->
  let w := HistoricalView.mount ds de poll b in
  BacktestView.network (HistoricalView.browser w) =
    BacktestView.network b ++ [GetBacktestStatus id]
  /\ HistoricalView.jobId (HistoricalView.view w) = Some id
  /\ (forall st, poll = Resolved st -> BacktestView.in_progress st = true ->
        exists handle,
          HistoricalView.pollIntervalRef (HistoricalView.view w) = Some handle
          /\ BacktestView.timers (HistoricalView.browser w) =
               {[ handle := {| BacktestView.callback := id;
                               BacktestView.delay := 2000 |} ]}
          /\ BacktestView.localStorage (HistoricalView.browser w)
               !! HistoricalView.JOB_STORAGE_KEY = Some id)
  /\ (forall st, poll = Resolved st -> BacktestView.terminal st = true ->
        HistoricalView.pollIntervalRef (HistoricalView.view w) = None
        /\ BacktestView.timers (HistoricalView.browser w) = ∅
        /\ BacktestView.localStorage (HistoricalView.browser w)
             !! HistoricalView.JOB_STORAGE_KEY = None).
Proof.
  intros Ht Hs Htruthy. split_historical. run_historical.
  cbn [BacktestView.timers BacktestView.localStorage] in Ht, Hs.
  subst. rewrite Hs, Htruthy.
  destruct poll as [st|msg].
  - split; [destruct (status st), (result st); reflexivity|].
    split; [destruct (status st), (result st); reflexivity|].
    split.
    + intros st' [= <-] Hprog. unfold BacktestView.in_progress in Hprog.
      destruct (status st); try discriminate;
        eexists; rewrite insert_empty; repeat split; exact Hs.
    + intros st' [= <-] Hterm. unfold BacktestView.terminal in Hterm.
      destruct (status st), (result st); try discriminate;
        rewrite lookup_delete_eq; repeat split.
  - repeat split; discriminate.
Qed.

(** X20.  The backtest view and the historical view keep the job id
    under the same key.  When every handler runs to its end before the
    next event, so that no status check of the backtest view is in flight
    when the view is left: if the backtest view is left while a job id is
    stored and the historical view is opened, the historical view takes up
    that job: it checks its status at once and, on pending or running,
    polls it every 2000 milliseconds with the only timer of the page; on
    failed, or completed with results, it removes the stored id, so that
    the backtest view on its return finds no job to resume. *)
Theorem historical_view_takes_up_the_stored_job
    (events : list BacktestView.Event) (id ds de : string)
    (poll : Outcome JobStatusResponse) :
  let p := BacktestView.run events BacktestView.freshPage in
  let left := BacktestView.step BacktestView.Unmount p in
  let w := HistoricalView.mount ds de poll (BacktestView.page_browser left) in
  BacktestView.storedJobId p = Some id -> Js.truthy id = true ->
  BacktestView.network (HistoricalView.browser w) =
    BacktestView.network (BacktestView.page_browser p) ++ [GetBacktestStatus id]
  /\ HistoricalView.jobId (HistoricalView.view w) = Some id
  /\ (forall st, poll = Resolved st -> BacktestView.in_progress st = true ->
        exists handle,
          HistoricalView.pollIntervalRef (HistoricalView.view w) = Some handle
          /\ BacktestView.timers (HistoricalView.browser w) =
               {[ handle := {| BacktestView.callback := id;
                               BacktestView.delay := 2000 |} ]})
  /\ (forall st, poll = Resolved st -> BacktestView.terminal st = true ->
        BacktestView.timers (HistoricalView.browser w) = ∅
        /\ forall ds' de' poll',
             BacktestView.observes (BacktestView.Mount ds' de' poll')
               {| BacktestView.page_browser := HistoricalView.browser w;
                  BacktestView.mounted := None |} = None).
Proof.
  intros p left w Hstored Htruthy.
  destruct (unmount_browser p (reachable_tracked events)) as (Ht & Hls & Hn & _).
  fold left in Ht, Hls, Hn.
  assert (Hs : BacktestView.localStorage (BacktestView.page_browser left)
               !! HistoricalView.JOB_STORAGE_KEY = Some id)
    by (rewrite Hls; exact Hstored).
  destruct (historical_mount ds de id poll _ Ht Hs Htruthy)
    as (Hnet & Hid & Hprog & Hterm).
  fold w in Hnet, Hid, Hprog, Hterm.
  split; [now rewrite Hnet, Hn|]. split; [exact Hid|]. split.
  - intros st Hp Hin. destruct (Hprog st Hp Hin) as (handle & Hr & Htm & _).
    eauto.
  - intros st Hp Hte. destruct (Hterm st Hp Hte) as (_ & Htm & Hgone).
    split; [exact Htm|]. intros ds' de' poll'.
    cbn [BacktestView.observes BacktestView.mounted BacktestView.page_browser].
    unfold Js.getItem. rewrite <- shared_storage_key, Hgone. reflexivity.
Qed.

(** The theorem at a job submitted in the backtest view and reported
    running to the historical view. *)
Lemma shared_job_witness :
  let p := BacktestView.run [Samples.mount_view; Samples.submit_job1]
             BacktestView.freshPage in
  let w := HistoricalView.mount "2023-07-01" "2023-12-31"
             (Resolved (Samples.status_answer "job-1" running None))
             (BacktestView.page_browser (BacktestView.step BacktestView.Unmount p)) in
  BacktestView.storedJobId p = Some "job-1"
  /\ HistoricalView.jobId (HistoricalView.view w) = Some "job-1"
  /\ exists handle,
       HistoricalView.pollIntervalRef (HistoricalView.view w) = Some handle
       /\ BacktestView.timers (HistoricalView.browser w) =
            {[ handle := {| BacktestView.callback := "job-1";
                            BacktestView.delay := 2000 |} ]}.
Proof.
  intros p w.
  assert (Hs : BacktestView.storedJobId p = Some "job-1")
    by (vm_compute; reflexivity).
  destruct (historical_view_takes_up_the_stored_job
              [Samples.mount_view; Samples.submit_job1] "job-1"
              "2023-07-01" "2023-12-31"
              (Resolved (Samples.status_answer "job-1" running None))
              Hs eq_refl)
    as (_ & Hid & Hprog & _).
  split; [exact Hs|]. split; [exact Hid|].
  exact (Hprog _ eq_refl eq_refl).
Defined.

End SharedJobFacts.

(** ** Dates and their days: the date inputs *)

Section DayFacts.
Import JsDate.
Local Open Scope Z_scope.

Lemma append_nil_r (s : string) : String.append s EmptyString = s.
Proof. induction s as [|c s IH]; [reflexivity|]. rewrite append_String. now f_equal. Qed.

(** The part before a character that does not occur. *)
Lemma before_append (c : ascii) (s rest : string) :
  before c s = s ->
  before c (String.append s rest) = String.append s (before c rest).
Proof.
  induction s as [|a s IH]; intros H; [reflexivity|].
  rewrite !append_String. cbn [before] in *.
  destruct (Ascii.eqb c a); [discriminate|].
  injection H as H. now rewrite IH.
Qed.

Lemma before_digit (d : Z) (s : string) :
  0 <= d <= 9 ->
  before "T" (String (digit_char d) s) = String (digit_char d) (before "T" s).
Proof.
  intros H.
  assert (Hd : d = 0 \/ d = 1 \/ d = 2 \/ d = 3 \/ d = 4 \/ d = 5 \/ d = 6
               \/ d = 7 \/ d = 8 \/ d = 9) by lia.
  repeat destruct Hd as [-> | Hd]; try reflexivity. subst. reflexivity.
Qed.

Lemma before_pad (w : nat) (n : Z) : before "T" (pad w n) = pad w n.
Proof.
  induction w as [|w IH]; [reflexivity|]. cbn [pad].
  rewrite before_digit
    by (pose proof (Z.mod_pos_bound (n / 10 ^ Z.of_nat w) 10); lia).
  now rewrite IH.
Qed.

Lemma before_year_string (y : Z) : before "T" (year_string y) = year_string y.
Proof.
  unfold year_string. destruct ((0 <=? y) && (y <=? 9999)).
  - apply before_pad.
  - destruct (y <? 0); cbn [before Ascii.eqb Bool.eqb]; now rewrite before_pad.
Qed.

Lemma before_day_string (y m d : Z) (rest : string) :
  before "T" (String.append (day_string y m d) (String "T" rest))
  = day_string y m d.
Proof.
  rewrite before_append.
  - cbn [before Ascii.eqb Bool.eqb]. apply append_nil_r.
  - unfold day_string.
    rewrite before_append by apply before_year_string. f_equal.
    rewrite append_String, append_empty. cbn [before Ascii.eqb Bool.eqb].
    f_equal. rewrite before_append by apply before_pad. f_equal.
    rewrite append_String, append_empty. cbn [before Ascii.eqb Bool.eqb].
    f_equal. apply before_pad.
Qed.

Lemma append_assoc (a b c : string) :
  String.append (String.append a b) c = String.append a (String.append b c).
Proof.
  induction a as [|x a IH]; [reflexivity|]. rewrite !append_String. now f_equal.
Qed.

(** The day of an ISO string is the date-only form of its day. *)
Lemma isoDay_day_string (t : Z) :
  let '(y, m, d) := civil_from_days (t / msPerDay) in
  isoDay (Some t) = Some (day_string y m d).
Proof.
  unfold isoDay, toISOString, iso_string.
  destruct (civil_from_days (t / msPerDay)) as [[y m] d]. f_equal.
  rewrite <- (before_day_string y m d
    (pad 2 (t mod msPerDay / 3600000) ++ ":"
     ++ pad 2 ((t mod msPerDay / 60000) mod 60) ++ ":"
     ++ pad 2 ((t mod msPerDay / 1000) mod 60) ++ "."
     ++ pad 3 ((t mod msPerDay) mod 1000) ++ "Z")%string).
  f_equal. unfold day_string. rewrite !append_assoc. reflexivity.
Qed.

(** Reading back the date-only form of a day. *)
Lemma parse_day_string (days : Z) :
  -100000000 <= days <= 100000000 ->
  let '(y, m, d) := civil_from_days days in
  parse_day (day_string y m d) = Some (days * msPerDay).
Proof.
  intros Hdays. pose proof (civil_round_trip days) as Hc.
  destruct (civil_from_days days) as [[y m] d] eqn:Hcivil.
  destruct Hc as (Hback & Hm & Hd & Hy).
  assert (Hyear : -999999 <= y <= 999999)
    by (revert Hy; Z.div_mod_to_equations; lia).
  unfold parse_day, day_string.
  rewrite read_year_string by exact Hyear. cbn [mbind option_bind].
  rewrite expect_append. cbn [mbind option_bind].
  rewrite read_digits_pad_small by (cbn; lia). cbn [mbind option_bind].
  rewrite expect_append. cbn [mbind option_bind].
  rewrite <- (append_nil_r (pad 2 d)).
  rewrite read_digits_pad_small by (cbn; lia). cbn [mbind option_bind].
  rewrite Hback, Hcivil.
  rewrite bool_decide_eq_true_2 by reflexivity.
  change (String.eqb "" "") with true. cbn [andb].
  unfold timeClip, maxTime, msPerDay.
  destruct (Z.leb_spec (Z.abs (days * 86400000)) 8640000000000000) as [_|?];
    [reflexivity|lia].
Qed.

(** X21.  The example dashboard's date input round-trips in UTC: the
    value it shows for a date, the part of the ISO string before its [T],
    is the date-only form of the date's day in UTC, and the date it makes
    of that value when the input changes is the midnight that starts that
    day, for which the input shows the same value again; the same value is
    what the example backtest hook sends as a start or end date. *)
Theorem utc_day_round_trip (t : Z) :
  - maxTime <= t <= maxTime ->
  exists day,
    isoDay (Some t) = Some day
    /\ (let '(y, m, d) := civil_from_days (t / msPerDay) in
        day = day_string y m d)
    /\ parse_day day = Some (t / msPerDay * msPerDay)
    /\ isoDay (parse_day day) = Some day.
Proof.
  unfold maxTime. intros Ht.
  pose proof (isoDay_day_string t) as Hiso.
  assert (Hdays : -100000000 <= t / msPerDay <= 100000000)
    by (unfold msPerDay; Z.div_mod_to_equations; lia).
  pose proof (parse_day_string (t / msPerDay) Hdays) as Hparse.
  pose proof (isoDay_day_string (t / msPerDay * msPerDay)) as Hagain.
  rewrite Z.div_mul in Hagain by (unfold msPerDay; lia).
  destruct (civil_from_days (t / msPerDay)) as [[y m] d].
  exists (day_string y m d).
  split; [exact Hiso|]. split; [reflexivity|]. split; [exact Hparse|].
  now rewrite Hparse.
Qed.

(** The theorem at a time of the first day of 2024. *)
Lemma utc_day_witness :
  exists day,
    isoDay (Some 1704067200123) = Some day
    /\ parse_day day = Some 1704067200000
    /\ isoDay (parse_day day) = Some day.
Proof.
  destruct (utc_day_round_trip 1704067200123) as (day & H1 & _ & H2 & H3).
  - unfold maxTime. lia.
  - exists day. split; [exact H1|]. split; [exact H2|exact H3].
Defined.

End DayFacts.

(** ** Dashboard: the date input in local time *)

Section LocalDayFacts.
Import JsDate DateFns.
Local Open Scope Z_scope.

Lemma upto_spec (fuel : nat) (a : Z) (P : Z -> bool) :
  upto fuel a P = true ->
  forall n, a <= n < a + Z.of_nat fuel -> P n = true.
Proof.
  revert a. induction fuel as [|fuel IH]; intros a H n Hn; [lia|].
  cbn [upto] in H. apply andb_prop in H as [Ha H].
  destruct (Z.eq_dec n a) as [->|Hne]; [exact Ha|].
  apply (IH (a + 1) H). lia.
Qed.

(** Up to four digits, [addLeadingZeros] pads as [pad] does. *)
Lemma addLeadingZeros_4 (n : Z) :
  0 <= n <= 9999 -> addLeadingZeros n 4 = pad 4 n.
Proof.
  intros Hn. apply String.eqb_eq.
  apply (upto_spec (Z.to_nat 10000) 0
           (fun n => String.eqb (addLeadingZeros n 4) (pad 4 n)));
    [vm_compute; reflexivity|lia].
Qed.

Lemma addLeadingZeros_2 (n : Z) :
  0 <= n <= 99 -> addLeadingZeros n 2 = pad 2 n.
Proof.
  intros Hn. apply String.eqb_eq.
  apply (upto_spec (Z.to_nat 100) 0
           (fun n => String.eqb (addLeadingZeros n 2) (pad 2 n)));
    [vm_compute; reflexivity|lia].
Qed.

(** The formatted local day of a time value, for the years 1 to 9999. *)
Lemma format_day (offset : Z -> Z) (t : Z) :
  let '(y, m, d) := civil_from_days ((t + offset t) / msPerDay) in
  1 <= y <= 9999 ->
  format_yyyy_MM_dd offset (Some t) = Some (day_string y m d).
Proof.
  unfold format_yyyy_MM_dd.
  pose proof (civil_round_trip ((t + offset t) / msPerDay)) as Hc.
  destruct (civil_from_days ((t + offset t) / msPerDay)) as [[y m] d].
  destruct Hc as (_ & Hm & Hd & _). intros Hy.
  destruct (Z.ltb_spec 0 y) as [_|?]; [|lia].
  rewrite addLeadingZeros_4, !addLeadingZeros_2 by lia.
  unfold day_string, year_string.
  destruct (Z.leb_spec 0 y) as [_|?]; [|lia].
  destruct (Z.leb_spec y 9999) as [_|?]; [|lia].
  reflexivity.
Qed.

(** X22.  The dashboard's date input round-trips only east of Greenwich.
    The date made of the picked day is the midnight that starts the day in
    UTC, and the input shows the day of that date in local time: in a time
    zone at or ahead of UTC it shows the picked day; in a time zone behind
    UTC it shows the day before.  The predictions are requested for the
    day the input shows, with the model flag of the store. *)
Theorem dashboard_date_input_shows_the_local_day
    (offset : Z -> Z) (y m d : Z) (useOptimizedModel : bool)
    (store : AppStore.Store) :
  civil_from_days (days_from_civil y m d) = (y, m, d) ->
  1 <= y <= 9999 ->
  let picked := day_string y m d in
  let midnight := days_from_civil y m d * msPerDay in
  let shown := Dashboard.dateInputValue offset (parse_day picked) in
  parse_day picked = Some midnight
  /\ AppStore.currentDate (AppStore.appState (Dashboard.changeDate picked store))
     = AppStore.IsDate (Some midnight)
  /\ (0 <= offset midnight < msPerDay -> shown = Some picked)
  /\ (- msPerDay <= offset midnight < 0 ->
      let '(y', m', d') := civil_from_days (days_from_civil y m d - 1) in
      1 <= y' ->
      shown = Some (day_string y' m' d') /\ shown <> Some picked)
  /\ (forall dateStr,
        shown = Some dateStr ->
        exists q,
          Dashboard.predictions offset (parse_day picked) useOptimizedModel
            = Some q
          /\ Client.predictionsApi.date (UsePredictions.queryFn q) = Some dateStr
          /\ Client.predictionsApi.use_optimized (UsePredictions.queryFn q)
             = useOptimizedModel
          /\ UsePredictions.enabled q = true).
Proof.
  intros Hvalid Hy. cbn zeta.
  set (days := days_from_civil y m d) in *.
  pose proof (civil_round_trip days) as Hc. rewrite Hvalid in Hc.
  destruct Hc as (_ & Hm & Hd & Hera).
  assert (Hdays : -719468 <= days <= 3000000)
    by (revert Hera; Z.div_mod_to_equations; lia).
  assert (Hparse : parse_day (day_string y m d) = Some (days * msPerDay)).
  { pose proof (parse_day_string days ltac:(lia)) as H.
    now rewrite Hvalid in H. }
  split; [exact Hparse|].
  split.
  { unfold Dashboard.changeDate, AppStore.set. cbn [AppStore.appState].
    unfold AppStore.setCurrentDate. cbn [AppStore.currentDate].
    now rewrite Hparse. }
  unfold Dashboard.dateInputValue. rewrite Hparse.
  split; [|split].
  - intros Hoff. pose proof (format_day offset (days * msPerDay)) as H.
    replace ((days * msPerDay + offset (days * msPerDay)) / msPerDay)
      with days in H
      by (revert Hoff; unfold msPerDay; Z.div_mod_to_equations; lia).
    rewrite Hvalid in H. now apply H.
  - intros Hoff. pose proof (format_day offset (days * msPerDay)) as H.
    replace ((days * msPerDay + offset (days * msPerDay)) / msPerDay)
      with (days - 1) in H
      by (revert Hoff; unfold msPerDay; Z.div_mod_to_equations; lia).
    pose proof (parse_day_string (days - 1) ltac:(lia)) as Hprev.
    pose proof (civil_round_trip (days - 1)) as Hc'.
    destruct (civil_from_days (days - 1)) as [[y' m'] d'].
    destruct Hc' as (Hback' & Hm' & Hd' & _).
    intros Hy'.
    assert (Hy9 : y' <= y).
    { destruct (Z.le_gt_cases y' y) as [?|Hgt]; [assumption|exfalso].
      subst days. revert Hback'. unfold days_from_civil. cbv zeta.
      destruct (Z.leb_spec m 2), (Z.leb_spec m' 2), (Z.ltb_spec 2 m),
        (Z.ltb_spec 2 m'); try lia; Z.div_mod_to_equations; lia. }
    rewrite H by lia. split; [reflexivity|].
    intros [= Heq]. rewrite Heq, Hparse in Hprev.
    injection Hprev as Hprev. unfold msPerDay in Hprev. lia.
  - intros dateStr Hshown. unfold Dashboard.predictions,
      UsePredictions.usePredictions. rewrite Hshown.
    eexists. split; [reflexivity|]. repeat split.
Qed.

(** The theorem at 15 March 2024, picked five hours behind UTC. *)
Lemma dashboard_date_witness :
  let offset := fun _ : Z => -18000000 in
  Dashboard.dateInputValue offset (parse_day (day_string 2024 3 15))
  = Some (day_string 2024 3 14).
Proof.
  intros offset.
  destruct (dashboard_date_input_shows_the_local_day offset 2024 3 15 true
              (AppStore.create 0 ∅) eq_refl ltac:(lia))
    as (_ & _ & _ & Hwest & _).
  refine (proj1 (Hwest _ _)).
  - vm_compute. split; [discriminate|reflexivity].
  - vm_compute. discriminate.
Defined.

End LocalDayFacts.

(** ** The cards: the bar under the change *)

Section BarFacts.

Lemma shr_1_nonneg (mrs : shr_record) :
  (0 <= shr_m mrs)%Z -> (0 <= shr_m (shr_1 mrs))%Z.
Proof.
  destruct mrs as [m r s]. cbn [shr_m]. intros Hm.
  destruct m as [|p|p]; [cbn; lia| |lia].
  destruct p; cbn; lia.
Qed.

Lemma iter_pos_shr_1_nonneg (p : positive) (mrs : shr_record) :
  (0 <= shr_m mrs)%Z -> (0 <= shr_m (SpecFloat.iter_pos shr_1 p mrs))%Z.
Proof.
  revert mrs. induction p as [p IH|p IH|]; intros mrs Hm; cbn [SpecFloat.iter_pos].
  - apply IH, IH, shr_1_nonneg, Hm.
  - apply IH, IH, Hm.
  - apply shr_1_nonneg, Hm.
Qed.

Lemma shr_fexp_nonneg (m e : Z) (l : location) :
  (0 <= m)%Z -> (0 <= shr_m (fst (shr_fexp prec emax m e l)))%Z.
Proof.
  intros Hm. unfold shr_fexp, shr.
  assert (H0 : (0 <= shr_m (shr_record_of_loc m l))%Z)
    by (destruct l as [|[]]; exact Hm).
  destruct (_ - e)%Z; cbn [fst]; try exact H0.
  now apply iter_pos_shr_1_nonneg.
Qed.

Lemma round_nearest_even_nonneg (m : Z) (l : location) :
  (0 <= m)%Z -> (0 <= round_nearest_even m l)%Z.
Proof.
  intros Hm. unfold round_nearest_even.
  destruct l as [|[]]; try destruct (Z.even m); lia.
Qed.

(** Rounding a magnitude under the positive sign gives a zero, a finite
    number or an infinity of the positive sign. *)
Lemma binary_round_aux_positive (m e : Z) (l : location) :
  (0 <= m)%Z ->
  SFleb (S754_zero false) (binary_round_aux prec emax false m e l) = true.
Proof.
  intros Hm. unfold binary_round_aux.
  pose proof (shr_fexp_nonneg m e l Hm) as H1.
  destruct (shr_fexp prec emax m e l) as [mrs' e']. cbn [fst] in H1.
  pose proof (shr_fexp_nonneg
                (round_nearest_even (shr_m mrs') (loc_of_shr_record mrs'))
                e' loc_Exact
                (round_nearest_even_nonneg _ _ H1)) as H2.
  destruct (shr_fexp prec emax _ e' loc_Exact) as [mrs'' e'']. cbn [fst] in H2.
  destruct (shr_m mrs'') as [|p|p]; [reflexivity| |lia].
  destruct (e'' <=? emax - prec)%Z; reflexivity.
Qed.

(** The magnitude of a number times a positive finite number is not
    below zero. *)
Lemma SFmul_abs_positive (x : spec_float) (m : positive) (e : Z) :
  SFcompare x x <> None ->
  SFleb (S754_zero false) (SFmul prec emax (SFabs x) (S754_finite false m e))
  = true.
Proof.
  intros Hx. destruct x as [s|s| |s mx ex]; cbn [SFabs SFmul xorb];
    try reflexivity.
  - now contradiction Hx.
  - apply binary_round_aux_positive. lia.
Qed.

Lemma abs_times_ten_positive (x : float) :
  is_nan x = false -> PrimFloat.leb 0 (abs x * 10) = true.
Proof.
  rewrite is_nan_false, leb_spec, mul_spec, abs_spec. intros Hx.
  assert (H10 : exists m e, Prim2SF 10 = S754_finite false m e)
    by (vm_compute; eauto).
  destruct H10 as (m & e & ->).
  change (Prim2SF 0) with (S754_zero false).
  now apply SFmul_abs_positive.
Qed.

Lemma min_step_nan a x :
  is_nan a = true \/ is_nan x = true -> is_nan (Js.min_step a x) = true.
Proof.
  unfold Js.min_step. intros [H|H]; rewrite H; rewrite ?orb_true_r; reflexivity.
Qed.

Lemma min_step_bound a x :
  is_nan a = false -> is_nan x = false ->
  (Js.min_step a x = a \/ Js.min_step a x = x)
  /\ PrimFloat.leb (Js.min_step a x) a = true
  /\ PrimFloat.leb (Js.min_step a x) x = true.
Proof.
  intros Ha Hx. unfold Js.min_step. rewrite Ha, Hx. cbn [orb].
  destruct (is_zero x && get_sign x && is_zero a && negb (get_sign a)) eqn:Hz.
  - apply andb_prop in Hz as [Hz _]. apply andb_prop in Hz as [Hz Hza].
    apply andb_prop in Hz as [Hzx _].
    unfold is_zero in Hzx, Hza.
    apply eqb_iff in Hzx as [Hzx _]. apply eqb_iff in Hza as [_ Hza].
    split; [now right|]. split; [exact (leb_trans _ _ _ Hzx Hza)|now apply leb_refl].
  - destruct (PrimFloat.ltb x a) eqn:Hlt.
    + split; [now right|]. split; [now apply ltb_leb|now apply leb_refl].
    + split; [now left|]. split; [now apply leb_refl|now apply leb_total].
Qed.

(** The width of a bar, from the number it is computed from. *)
Lemma bar_width_bounds (a : float) :
  let w := Js.Math_min [a; 100%float] in
  (is_nan a = true -> is_nan w = true)
  /\ (is_nan a = false -> PrimFloat.leb 0 a = true ->
      is_nan w = false
      /\ PrimFloat.leb 0 w = true /\ PrimFloat.leb w 100 = true
      /\ (w = a \/ w = 100%float)
      /\ (PrimFloat.ltb a 100 = true -> w = a)).
Proof.
  cbn zeta. unfold Js.Math_min. cbn [fold_left]. split.
  - intros Ha. apply min_step_nan. left. apply min_step_nan. now right.
  - intros Ha H0.
    destruct (min_step_bound infinity a eq_refl Ha) as (Hsel1 & _ & Hle1).
    assert (Hn1 : is_nan (Js.min_step infinity a) = false)
      by (destruct Hsel1 as [-> | ->]; [reflexivity|exact Ha]).
    assert (H1 : Js.min_step infinity a = a).
    { unfold Js.min_step. rewrite Ha. cbn [is_nan orb].
      change (PrimFloat.eqb infinity infinity) with true. cbn [negb orb].
      change (is_zero infinity) with false. rewrite !andb_false_r.
      destruct (PrimFloat.ltb a infinity) eqn:Hlt; [reflexivity|].
      apply leb_total in Hlt; [|exact Ha|reflexivity].
      apply Prim2SF_inj. rewrite leb_spec in Hlt.
      change (Prim2SF infinity) with (S754_infinity false) in *.
      unfold SFleb, SFcompare in Hlt.
      destruct (Prim2SF a) as [s|s| |s m e]; try discriminate;
        destruct s; try discriminate; reflexivity. }
    rewrite H1.
    destruct (min_step_bound a 100 Ha eq_refl) as (Hsel & Hla & Hl100).
    split; [destruct Hsel as [-> | ->]; [exact Ha|reflexivity]|].
    split; [destruct Hsel as [-> | ->]; [exact H0|reflexivity]|].
    split; [exact Hl100|]. split; [exact Hsel|].
    intros Hlt. destruct Hsel as [Hw|Hw]; [exact Hw|].
    rewrite Hw in Hla. apply ltb_not_leb in Hlt. congruence.
Qed.

(** X23.  The bar under the change of a card has a width between 0% and
    100% for every number: ten times the magnitude of the change, capped at
    100; it is [NaN] only for a change that is [NaN].  A missing value of
    the market overview card counts as 0 and gives an empty bar. *)
Theorem bar_width_is_a_percentage (percentageChange : float) :
  let w := CountryMarketCard.barWidth percentageChange in
  (is_nan percentageChange = true -> is_nan w = true)
  /\ (is_nan percentageChange = false ->
      is_nan w = false
      /\ PrimFloat.leb 0 w = true /\ PrimFloat.leb w 100 = true
      /\ (w = (abs percentageChange * 10)%float \/ w = 100%float)
      /\ (PrimFloat.ltb (abs percentageChange * 10) 100 = true ->
          w = (abs percentageChange * 10)%float))
  /\ MarketOverviewCard.barWidth (Some percentageChange) = w
  /\ MarketOverviewCard.barWidth None = 0%float.
Proof.
  cbn zeta. unfold CountryMarketCard.barWidth, MarketOverviewCard.barWidth,
    MarketOverviewCard.safeValue, Js.Math_abs.
  cbn [default from_option id].
  destruct (bar_width_bounds (abs percentageChange * 10)) as [Hnan Hnum].
  split; [|split; [|split; [reflexivity|reflexivity]]].
  - intros Hn. apply Hnan.
    unfold is_nan in *. rewrite FloatAxioms.eqb_spec, mul_spec, abs_spec in *.
    destruct (Prim2SF percentageChange) as [s|s| |s m e];
      try (destruct s; discriminate Hn); try reflexivity.
    exfalso. revert Hn. unfold SFeqb, SFcompare.
    destruct s; rewrite Z.compare_refl;
      change (Pos.compare_cont Eq m m) with (Pos.compare m m);
      rewrite Pos.compare_refl; discriminate.
  - intros Hn. apply Hnum; [|now apply abs_times_ten_positive].
    pose proof (abs_times_ten_positive _ Hn) as H0.
    now apply leb_not_nan in H0 as [_ ?].
Qed.

End BarFacts.

(** ** CountryMarketCard: the precision of a price *)

Section PrecisionFacts.
Import CountryMarketCard.

(** X24.  The larger a price, the fewer fraction digits it is shown
    with, never more: of two prices that are shown, the larger one has at
    most the fraction digits of the smaller one.  A negative price is shown
    with four fraction digits; so is a price that is [NaN], which is not
    shown as 'N/A'. *)
Theorem price_precision_decreases_with_the_price (v w : float) (dv dw : nat) :
  PrimFloat.leb v w = true ->
  fractionDigits (formatPrice (Some v)) = Some dv ->
  fractionDigits (formatPrice (Some w)) = Some dw ->
  dw <= dv
  /\ (PrimFloat.ltb v 0 = true -> dv = 4)
  /\ (forall x, is_nan x = true ->
        formatPrice (Some x) = toLocaleString x "en-US" 4).
Proof.
  intros Hle Hv Hw. split; [|split].
  - unfold formatPrice in Hv, Hw.
    destruct (Js.strict_eq v 0); [discriminate|].
    destruct (Js.strict_eq w 0); [discriminate|].
    unfold Js.gt in *.
    destruct (PrimFloat.ltb 10000 v) eqn:H1.
    + rewrite (ltb_leb_trans _ _ _ H1 Hle) in Hw.
      injection Hv as <-. injection Hw as <-. lia.
    + destruct (PrimFloat.ltb 100 v) eqn:H2.
      * rewrite (ltb_leb_trans _ _ _ H2 Hle) in Hw.
        injection Hv as <-.
        destruct (PrimFloat.ltb 10000 w); injection Hw as <-; lia.
      * injection Hv as <-.
        destruct (PrimFloat.ltb 10000 w); [injection Hw as <-; lia|].
        destruct (PrimFloat.ltb 100 w); injection Hw as <-; lia.
  - intros Hneg. unfold formatPrice in Hv.
    destruct (Js.strict_eq v 0); [discriminate|].
    unfold Js.gt in Hv.
    assert (H100 : PrimFloat.ltb 100 v = false).
    { destruct (PrimFloat.ltb 100 v) eqn:H; [|reflexivity].
      pose proof (ltb_leb_trans _ _ _ H (ltb_leb _ _ Hneg)) as Habs.
      vm_compute in Habs. discriminate. }
    assert (H10000 : PrimFloat.ltb 10000 v = false).
    { destruct (PrimFloat.ltb 10000 v) eqn:H; [|reflexivity].
      pose proof (ltb_leb_trans _ _ _ H (ltb_leb _ _ Hneg)) as Habs.
      vm_compute in Habs. discriminate. }
    rewrite H100, H10000 in Hv. now injection Hv as <-.
  - intros x Hx. unfold formatPrice, Js.strict_eq, Js.gt.
    rewrite (is_nan_eqb_l x 0 Hx).
    assert (Hlt : forall y, PrimFloat.ltb y x = false).
    { intros y. destruct (PrimFloat.ltb y x) eqn:H; [|reflexivity].
      apply ltb_leb, leb_not_nan in H as [_ H]. congruence. }
    now rewrite !Hlt.
Qed.

(** The theorem at an index price and a currency rate. *)
Lemma price_precision_witness :
  fractionDigits (formatPrice (Some 7.12345%float)) = Some 4
  /\ fractionDigits (formatPrice (Some 38712.5%float)) = Some 0
  /\ 0 <= 4.
Proof.
  split; [reflexivity|]. split; [reflexivity|].
  exact (proj1 (price_precision_decreases_with_the_price
                  7.12345%float 38712.5%float 4 0 eq_refl eq_refl eq_refl)).
Defined.

End PrecisionFacts.

(** ** SensitivityView: the chart *)

Section ChartFacts.
Import SensitivityView.

(** Rounding a magnitude under a sign never gives [NaN]. *)
Lemma binary_round_aux_number (sx : bool) (m e : Z) (l : location) :
  (0 <= m)%Z ->
  let r := binary_round_aux prec emax sx m e l in
  SFcompare r r <> None.
Proof.
  intros Hm. cbn zeta. unfold binary_round_aux.
  pose proof (shr_fexp_nonneg m e l Hm) as H1.
  destruct (shr_fexp prec emax m e l) as [mrs' e']. cbn [fst] in H1.
  pose proof (shr_fexp_nonneg
                (round_nearest_even (shr_m mrs') (loc_of_shr_record mrs'))
                e' loc_Exact
                (round_nearest_even_nonneg _ _ H1)) as H2.
  destruct (shr_fexp prec emax _ e' loc_Exact) as [mrs'' e'']. cbn [fst] in H2.
  destruct (shr_m mrs'') as [|p|p]; [discriminate| |lia].
  destruct (e'' <=? emax - prec)%Z; [|discriminate].
  unfold SFcompare. destruct sx; rewrite Z.compare_refl;
    change (Pos.compare_cont Eq p p) with (Pos.compare p p);
    rewrite Pos.compare_refl; discriminate.
Qed.

(** A number times one hundred is a number. *)
Lemma times_hundred_number (x : float) :
  is_nan x = false -> is_nan (x * 100) = false.
Proof.
  rewrite !is_nan_false, mul_spec.
  assert (H100 : exists m e, Prim2SF 100 = S754_finite false m e)
    by (vm_compute; eauto).
  destruct H100 as (m & e & ->). intros Hx.
  destruct (Prim2SF x) as [s|s| |s mx ex]; cbn [SFmul];
    try discriminate; try (now contradiction Hx).
  apply binary_round_aux_number. lia.
Qed.

Lemma or_zero_number (x : float) : is_nan (Js.or_zero x) = false.
Proof.
  unfold Js.or_zero, Js.truthy_number.
  destruct (is_nan x) eqn:Hn; cbn [orb negb]; [reflexivity|].
  destruct (is_zero x); cbn [negb]; [reflexivity|exact Hn].
Qed.

Lemma percent_number (x : float) : is_nan (Js.or_zero x * 100) = false.
Proof. apply times_hundred_number, or_zero_number. Qed.

(** X25.  The probabilities the sensitivity charts plot and the two
    baselines of the metrics are never [NaN], whatever the analysis
    returned: a probability that is [NaN] or 0 is plotted as 0, and every
    other one as one hundred times its value; only the noise level of a
    point is passed on as it came. *)
Theorem chart_probabilities_are_numbers
    (data : option (list Types.SensitivityResult)) :
  Forall (fun point =>
            is_nan (globalHawk point) = false
            /\ is_nan (globalDeescalate point) = false
            /\ is_nan (japanHawk point) = false
            /\ is_nan (chinaHawk point) = false
            /\ is_nan (usaHawk point) = false)
         (chartData data)
  /\ map noise (chartData data) =
       map Types.noise_level (default [] data)
  /\ map globalHawk (chartData data) =
       map (fun r => if Js.truthy_number (Types.Global_Hawk_Scenario r)
                     then (Types.Global_Hawk_Scenario r * 100)%float
                     else 0%float)
           (default [] data)
  /\ (forall m, robustnessMetrics data = Some m ->
        is_nan (baselineHawk m) = false
        /\ is_nan (baselineDeescalate m) = false).
Proof.
  split; [|split; [|split]].
  - destruct data as [results|]; [|constructor].
    unfold chartData. apply List.Forall_forall. intros point Hin.
    apply in_map_iff in Hin as (r & <- & _).
    cbn [globalHawk globalDeescalate japanHawk chinaHawk usaHawk].
    repeat split; apply percent_number.
  - destruct data as [results|]; [|reflexivity].
    unfold chartData. cbn [default from_option id]. rewrite map_map.
    reflexivity.
  - destruct data as [results|]; [|reflexivity].
    unfold chartData. cbn [default from_option id]. rewrite map_map.
    apply map_ext. intros r. cbn [globalHawk]. unfold Js.or_zero.
    now destruct (Js.truthy_number _).
  - intros m Hm. destruct data as [results|]; [|discriminate].
    injection Hm as <-. cbn [baselineHawk baselineDeescalate].
    destruct (head results) as [b|].
    + split; apply percent_number.
    + split; reflexivity.
Qed.

End ChartFacts.
